(** * calendar-mcp-server: the write-confirmation workflow and the contextual memory

    A shallow embedding of the two tool-call servers of the repository:

    - [Plain]: [calendar-mcp-server/index.js], the server with the
      confirmation workflow and the expiry sweep [cleanupExpiredOperations];
    - [Contextual]: the server that adds the [ContextualMemory] class
      (sessions, interaction log, derived context) to the same workflow.

    JavaScript values are embedded as follows.  Strings are [string] (the
    model covers ASCII text), a [Map] with string keys is a [gmap string _],
    an array is a [list] with the newest element at the head where the code
    uses [unshift], [Date.now()] is an [N] handed to the function that reads
    the clock, and a thrown exception is the [Throw] branch of [Completion].
    The database behind Mongoose is an external collaborator: its type and the
    fifteen CRUD methods are the fields of the class [Collaborators].  The
    arguments of a tool call are whatever value the request carries, [null]
    and [undefined] included: the handlers do not check them. *)

From Stdlib Require Import Ascii String NArith ZArith List Lia.
From stdpp Require Import base strings pretty list gmap fin_maps.

Local Open Scope string_scope.
Set Warnings "-register-all".

(** ** JavaScript strings *)

Module Js.

Definition nl : string := String "010" "".
Definition dq : string := String "034" "".

(** [c] as a code unit number. *)
Definition code (c : ascii) : N := N_of_ascii c.

(** [String.prototype.toLowerCase] on ASCII: the letters A..Z move to a..z. *)
Definition lower_char (c : ascii) : ascii :=
  if ((65 <=? code c) && (code c <=? 90))%N then ascii_of_N (code c + 32) else c.

Fixpoint toLowerCase (s : string) : string :=
  match s with
  | EmptyString => EmptyString
  | String c r => String (lower_char c) (toLowerCase r)
  end.

(** The ASCII white space and line terminators that [trim] removes. *)
Definition is_white (c : ascii) : bool :=
  ((code c =? 32) || ((9 <=? code c) && (code c <=? 13)))%N.

Fixpoint trimStart (s : string) : string :=
  match s with
  | EmptyString => EmptyString
  | String c r => if is_white c then trimStart r else s
  end.

Fixpoint trimEnd (s : string) : string :=
  match s with
  | EmptyString => EmptyString
  | String c r =>
      match trimEnd r with
      | EmptyString => if is_white c then EmptyString else String c EmptyString
      | r' => String c r'
      end
  end.

Definition trim (s : string) : string := trimEnd (trimStart s).

(** [hay.includes(needle)]: [needle] occurs in [hay] at some position. *)
Fixpoint includes (hay needle : string) : bool :=
  String.prefix needle hay ||
  match hay with
  | EmptyString => false
  | String _ r => includes r needle
  end.

(** [words.some(word => text.includes(word))] *)
Definition some_includes (words : list string) (text : string) : bool :=
  existsb (fun word => includes text word) words.

(** JSON values as the tool arguments carry them; numbers are integers. *)
Inductive Val : Type :=
  | Undefined
  | Null
  | Bool (b : bool)
  | Num (n : Z)
  | Str (s : string)
  | Arr (l : list Val)
  | Obj (fields : list (string * Val)).

(** An object of tool arguments, and the property read [args.key]. *)
Definition Object : Type := list (string * Val).

Fixpoint prop (o : Object) (key : string) : Val :=
  match o with
  | [] => Undefined
  | (k, v) :: rest => if String.eqb k key then v else prop rest key
  end.

(** [null] and [undefined], the values on which a property read and a
    destructuring throw. *)
Definition nullish (v : Val) : bool :=
  match v with Undefined | Null => true | _ => false end.

Fixpoint indexed {A} (f : A -> Val) (i : N) (l : list A) : Object :=
  match l with
  | [] => []
  | x :: rest => (pretty i, f x) :: indexed f (N.succ i) rest
  end.

(** The own enumerable properties of a value, which a spread [{ ...v }]
    copies and which a destructuring or a property read by name finds: the
    fields of an object, the elements of an array and the characters of a
    string under their indices, and none for any other value. *)
Definition fields (v : Val) : Object :=
  match v with
  | Obj fields => fields
  | Arr l => indexed (fun x => x) 0 l
  | Str s => indexed (fun c => Str (String c EmptyString)) 0 (list_ascii_of_string s)
  | _ => []
  end.

(** ToBoolean *)
Definition truthy (v : Val) : bool :=
  match v with
  | Undefined | Null => false
  | Bool b => b
  | Num n => negb (n =? 0)%Z
  | Str s => negb (String.eqb s "")
  | Arr _ | Obj _ => true
  end.

(** ToString, as a template literal applies it. *)
Fixpoint toString (v : Val) : string :=
  match v with
  | Undefined => "undefined"
  | Null => "null"
  | Bool true => "true"
  | Bool false => "false"
  | Num n => pretty n
  | Str s => s
  | Arr l =>
      let item (x : Val) : string :=
        match x with Undefined | Null => "" | _ => toString x end in
      (fix join (xs : list Val) : string :=
         match xs with
         | [] => ""
         | [x] => item x
         | x :: rest => item x +:+ "," +:+ join rest
         end) l
  | Obj _ => "[object Object]"
  end.

(** The error codes of the protocol that the servers use. *)
Inductive ErrorCode : Type := InvalidRequest | MethodNotFound | InternalError.

(** The numbers of the codes. *)
Definition code_number (code : ErrorCode) : Z :=
  match code with
  | InvalidRequest => -32600
  | MethodNotFound => -32601
  | InternalError => -32603
  end.

(** What a [throw] carries: [new McpError(code, message)], or any other
    [Error] with its message (a [TypeError] of the runtime, an error of the
    database driver). *)
Inductive Exn : Type :=
  | McpError (code : ErrorCode) (message : string)
  | Error (message : string).

(** [error.message]: the constructor of [McpError] puts the code in front
    of the message it is given. *)
Definition message (e : Exn) : string :=
  match e with
  | McpError code m => "MCP error " +:+ pretty (code_number code) +:+ ": " +:+ m
  | Error m => m
  end.

(** The outcome of a call: a returned value or a thrown exception. *)
Inductive Completion (A : Type) : Type :=
  | Return (a : A)
  | Throw (e : Exn).
Arguments Return {A} a.
Arguments Throw {A} e.

(** Reading [.name] of [undefined]. *)
Definition name_of_undefined : Exn :=
  Error "Cannot read properties of undefined (reading 'name')".

(** The [TypeError] of the property read [v.key] on [null] or [undefined]. *)
Definition cannot_read (v : Val) (key : string) : Exn :=
  Error ("Cannot read properties of " +:+ toString v +:+ " (reading '" +:+ key +:+ "')").

(** The [TypeError] of [const { key, ... } = source] on [null] or
    [undefined]. *)
Definition cannot_destructure (v : Val) (key source : string) : Exn :=
  Error ("Cannot destructure property '" +:+ key +:+ "' of '" +:+ source +:+ "' as it is "
         +:+ toString v +:+ ".").

End Js.

(** ** The tools and the external data store *)

(** The operations that [executeOperation] dispatches on. *)
Inductive Tool : Type :=
  | create_event | get_events | update_event | delete_event
  | create_list | get_lists | update_list | delete_list
  | create_item | get_items | update_item | delete_item
  | assign_list_to_event | unassign_list_from_event
  | get_event_with_list_and_items.

(** The [case] labels of the [switch] in [executeOperation]. *)
Definition tool_table : list (string * Tool) :=
  [ ("create_event", create_event); ("get_events", get_events);
    ("update_event", update_event); ("delete_event", delete_event);
    ("create_list", create_list); ("get_lists", get_lists);
    ("update_list", update_list); ("delete_list", delete_list);
    ("create_item", create_item); ("get_items", get_items);
    ("update_item", update_item); ("delete_item", delete_item);
    ("assign_list_to_event", assign_list_to_event);
    ("unassign_list_from_event", unassign_list_from_event);
    ("get_event_with_list_and_items", get_event_with_list_and_items) ].

Fixpoint tool_of_name_in (table : list (string * Tool)) (name : string) : option Tool :=
  match table with
  | [] => None
  | (k, t) :: rest => if String.eqb k name then Some t else tool_of_name_in rest name
  end.

Definition tool_of_name : string -> option Tool := tool_of_name_in tool_table.

(** The write tools of section 6 of the specification. *)
Definition write_tools : list string :=
  [ "create_event"; "update_event"; "delete_event";
    "create_list"; "update_list"; "delete_list";
    "create_item"; "update_item"; "delete_item";
    "assign_list_to_event"; "unassign_list_from_event" ].

(** What the servers do not own: the database reached through the Mongoose
    models, with the CRUD method of each tool ([createEvent], [getEvents],
    ...), which is handed the arguments as they are, returns the text of its
    result or throws, and may change the database either way; and the text
    that a template literal makes of [JSON.stringify(args, null, 2)]. *)
Class Collaborators : Type := {
  DB : Type;
  crud : Tool -> Js.Val -> DB -> Js.Completion string * DB;
  stringify : Js.Val -> string;
}.

(** A tool result [{ content: [{ type: 'text', text }] }]. *)
Record ToolResult : Type := Content { text : string }.

(** A value of the [pendingOperations] map.  The entry stored under a
    generated id has no [id] property; the one stored under
    ['last_operation'] has. *)
Record PendingOp : Type := {
  op_id : option string;
  op_name : string;
  op_args : Js.Val;
  op_timestamp : N;
}.

(** The key of the most-recent alias. *)
Definition last_operation : string := "last_operation".

(** [`op_${counter}_${Date.now()}`] *)
Definition operation_id (counter now : N) : string :=
  "op_" +:+ pretty counter +:+ "_" +:+ pretty now.


(** Where the alias leads: the id that ['last_operation'] records and the
    entry stored under that id, when both are in the map. *)
Definition alias_target (pending : gmap string PendingOp) : option (string * PendingOp) :=
  lastOp ← pending !! last_operation;
  i ← op_id lastOp;
  op ← pending !! i;
  Some (i, op).


(** [Map.prototype.get] and [delete] at a key that is any value: the keys of
    the map are strings, so another value finds and removes nothing. *)
Definition map_get {A} (m : gmap string A) (key : Js.Val) : option A :=
  match key with Js.Str k => m !! k | _ => None end.

Definition map_delete {A} (m : gmap string A) (key : Js.Val) : gmap string A :=
  match key with Js.Str k => delete k m | _ => m end.

Definition id_val (p : PendingOp) : Js.Val :=
  match op_id p with Some i => Js.Str i | None => Js.Undefined end.

(** The text of the prompt that [requestConfirmation] returns. *)
Definition confirmation_prompt (confirmationMessage operationId : string) : string :=
  "⚠️  CONFIRMATION REQUIRED" +:+ Js.nl +:+ Js.nl +:+ confirmationMessage
  +:+ Js.nl +:+ Js.nl +:+ "Operation ID: " +:+ operationId
  +:+ Js.nl +:+ Js.nl +:+ "To proceed, you can either:" +:+ Js.nl
  +:+ "1. Use the confirm_operation tool with operationId: "
  +:+ Js.dq +:+ operationId +:+ Js.dq +:+ " and confirm: true/false" +:+ Js.nl
  +:+ "2. Simply reply with " +:+ Js.dq +:+ "yes" +:+ Js.dq +:+ ", "
  +:+ Js.dq +:+ "confirm" +:+ Js.dq +:+ ", " +:+ Js.dq +:+ "proceed" +:+ Js.dq
  +:+ " to confirm OR " +:+ Js.dq +:+ "no" +:+ Js.dq +:+ ", "
  +:+ Js.dq +:+ "cancel" +:+ Js.dq +:+ ", " +:+ Js.dq +:+ "abort" +:+ Js.dq
  +:+ " to cancel".

(** The three clock readings of one [requestConfirmation]: for the id, for
    the entry and for the alias. *)
Record Clock : Type := { now_id : N; now_entry : N; now_alias : N }.

(** The outcome of reading a free-text reply. *)
Inductive Intent : Type := Affirm | Deny | Unrecognized.

(** The [if / else if / else] over the two word lists. *)
Definition classify (confirmWords cancelWords : list string) (normalizedResponse : string) : Intent :=
  if Js.some_includes confirmWords normalizedResponse then Affirm
  else if Js.some_includes cancelWords normalizedResponse then Deny
  else Unrecognized.

(** ** The confirmation message *)

(** The text that [generateConfirmationMessage] builds from the properties
    of [args], with [JSON.stringify(args, null, 2)] of the default case as a
    parameter. *)
Definition confirmationMessage (stringify : Js.Object -> string) (operationName : string)
    (args : Js.Object) : string :=
  let get (key : string) : string := Js.toString (Js.prop args key) in
  let has (key : string) : bool := Js.truthy (Js.prop args key) in
  let named (name : string) : bool := String.eqb operationName name in
  let cannot_be_undone := Js.nl +:+ "⚠️  This action cannot be undone!" in
  if named "create_event" then
    "Create new event: " +:+ Js.dq +:+ get "title" +:+ Js.dq +:+ " from " +:+ get "startDate"
    +:+ " to " +:+ get "endDate"
    +:+ (if has "location" then " at " +:+ get "location" else "")
  else if named "update_event" then
    "Update event with ID: " +:+ get "eventId"
    +:+ (if has "title" then Js.nl +:+ "New title: " +:+ Js.dq +:+ get "title" +:+ Js.dq else "")
    +:+ (if has "startDate" then Js.nl +:+ "New start: " +:+ get "startDate" else "")
    +:+ (if has "endDate" then Js.nl +:+ "New end: " +:+ get "endDate" else "")
  else if named "delete_event" then
    "DELETE event with ID: " +:+ get "eventId" +:+ cannot_be_undone
  else if named "create_list" then
    "Create new list: " +:+ Js.dq +:+ get "name" +:+ Js.dq
    +:+ (if has "description" then " - " +:+ get "description" else "")
  else if named "update_list" then
    "Update list with ID: " +:+ get "listId"
    +:+ (if has "name" then Js.nl +:+ "New name: " +:+ Js.dq +:+ get "name" +:+ Js.dq else "")
    +:+ (if has "description"
         then Js.nl +:+ "New description: " +:+ Js.dq +:+ get "description" +:+ Js.dq else "")
  else if named "delete_list" then
    "DELETE list with ID: " +:+ get "listId"
    +:+ (if has "deleteItems"
         then Js.nl +:+ "⚠️  This will also DELETE all items in the list!" else "")
    +:+ cannot_be_undone
  else if named "create_item" then
    "Create new item: " +:+ Js.dq +:+ get "content" +:+ Js.dq +:+ " in list " +:+ get "listId"
  else if named "update_item" then
    "Update item with ID: " +:+ get "itemId"
    +:+ (if has "content"
         then Js.nl +:+ "New content: " +:+ Js.dq +:+ get "content" +:+ Js.dq else "")
  else if named "delete_item" then
    "DELETE item with ID: " +:+ get "itemId" +:+ cannot_be_undone
  else if named "assign_list_to_event" then
    "Assign list " +:+ get "listId" +:+ " to event " +:+ get "eventId"
  else if named "unassign_list_from_event" then
    "Remove list assignment from event " +:+ get "eventId"
  else
    "Execute operation: " +:+ operationName +:+ " with parameters: " +:+ stringify args.

(** The property of [args] that the case of [operationName] reads first;
    the default case reads none. *)
Definition first_argument_read (operationName : string) : option string :=
  let named (name : string) : bool := String.eqb operationName name in
  if named "create_event" then Some "title"
  else if named "update_event" then Some "eventId"
  else if named "delete_event" then Some "eventId"
  else if named "create_list" then Some "name"
  else if named "update_list" then Some "listId"
  else if named "delete_list" then Some "listId"
  else if named "create_item" then Some "content"
  else if named "update_item" then Some "itemId"
  else if named "delete_item" then Some "itemId"
  else if named "assign_list_to_event" then Some "listId"
  else if named "unassign_list_from_event" then Some "eventId"
  else None.

(** [generateConfirmationMessage(operationName, args)], of both servers: on
    [null] or [undefined] the first property read of a case throws. *)
Definition generateConfirmationMessage {store : Collaborators} (operationName : string)
    (args : Js.Val) : Js.Completion string :=
  match first_argument_read operationName with
  | Some key =>
      if Js.nullish args then Js.Throw (Js.cannot_read args key)
      else Js.Return (confirmationMessage (fun _ => stringify args) operationName (Js.fields args))
  | None =>
      Js.Return (confirmationMessage (fun _ => stringify args) operationName (Js.fields args))
  end.

(** ** The server of [calendar-mcp-server/index.js] *)

Module Plain.
Section Server.
Context {store : Collaborators}.

(** [this.pendingOperations], [this.operationCounter] and the database. *)
Record Server : Type := {
  pendingOperations : gmap string PendingOp;
  operationCounter : N;
  database : DB;
}.

(** The server that the constructor builds, over a database [db]. *)
Definition initial (db : DB) : Server :=
  {| pendingOperations := ∅; operationCounter := 0; database := db |}.

Definition with_pending (s : Server) (p : gmap string PendingOp) : Server :=
  {| pendingOperations := p; operationCounter := operationCounter s; database := database s |}.

Definition readOperations : list string :=
  [ "get_events"; "get_lists"; "get_items"; "get_event_with_list_and_items" ].

Definition isReadOperation (operationName : string) : bool :=
  bool_decide (operationName ∈ readOperations).

(** [requestConfirmation]: the entry and the alias are stored first, the
    message is built afterwards; when that throws, they stay stored. *)
Definition requestConfirmation (operationName : string) (args : Js.Val) (clock : Clock)
    (s : Server) : Js.Completion ToolResult * Server :=
  let counter := (operationCounter s + 1)%N in
  let operationId := operation_id counter (now_id clock) in
  let stored :=
    <[operationId := {| op_id := None; op_name := operationName; op_args := args;
                        op_timestamp := now_entry clock |}]> (pendingOperations s) in
  let aliased :=
    <[last_operation := {| op_id := Some operationId; op_name := operationName;
                           op_args := args; op_timestamp := now_alias clock |}]> stored in
  let s' :=
    {| pendingOperations := aliased; operationCounter := counter; database := database s |} in
  match generateConfirmationMessage operationName args with
  | Js.Return confirmationMessage =>
      (Js.Return (Content (confirmation_prompt confirmationMessage operationId)), s')
  | Js.Throw e => (Js.Throw e, s')
  end.

Definition executeOperation (name : string) (args : Js.Val) (s : Server)
    : Js.Completion ToolResult * Server :=
  match tool_of_name name with
  | Some tool =>
      let '(r, db) := crud tool args (database s) in
      let s' := {| pendingOperations := pendingOperations s;
                   operationCounter := operationCounter s; database := db |} in
      match r with
      | Js.Return t => (Js.Return (Content t), s')
      | Js.Throw e => (Js.Throw e, s')
      end
  | None => (Js.Throw (Js.McpError Js.MethodNotFound ("Unknown tool: " +:+ name)), s)
  end.

Definition executeConfirmation (operationId : Js.Val) (pendingOp : option PendingOp)
    (shouldConfirm : bool) (s : Server) : Js.Completion ToolResult * Server :=
  let s1 := with_pending s (map_delete (pendingOperations s) operationId) in
  match pendingOp with
  | None => (Js.Throw Js.name_of_undefined, s1)
  | Some op =>
      if negb shouldConfirm then
        (Js.Return (Content ("❌ Operation cancelled: " +:+ op_name op)), s1)
      else
        match executeOperation (op_name op) (op_args op) s1 with
        | (Js.Return result, s2) =>
            (Js.Return (Content ("✅ Operation confirmed and executed:" +:+ Js.nl +:+ Js.nl
                                 +:+ text result)), s2)
        | (Js.Throw e, s2) => (Js.Throw e, s2)
        end
  end.

Definition confirmWords : list string :=
  [ "yes"; "y"; "confirm"; "proceed"; "ok"; "okay"; "continue"; "go"; "do it" ].
Definition cancelWords : list string :=
  [ "no"; "n"; "cancel"; "abort"; "stop"; "nope"; "negative" ].

Definition no_pending_message : string :=
  "No pending operation found. Please specify an operationId or ensure there is a recent operation awaiting confirmation.".
Definition unclear_message : string :=
  "Please respond with a clear confirmation like " +:+ Js.dq +:+ "yes" +:+ Js.dq +:+ ", "
  +:+ Js.dq +:+ "confirm" +:+ Js.dq +:+ ", " +:+ Js.dq +:+ "proceed" +:+ Js.dq +:+ " OR "
  +:+ Js.dq +:+ "no" +:+ Js.dq +:+ ", " +:+ Js.dq +:+ "cancel" +:+ Js.dq +:+ ", "
  +:+ Js.dq +:+ "abort" +:+ Js.dq.
Definition not_found_message (operationId : Js.Val) : string :=
  "Operation " +:+ Js.toString operationId +:+ " not found or has expired".

(** [handleConfirmation], from its second line on: [args] stands for the
    properties of the argument, which the destructuring of the first line
    reads.  That line throws on [null] and [undefined]; the handler below
    has this case. *)
Definition handleConfirmation (args : Js.Object) (s : Server)
    : Js.Completion ToolResult * Server :=
  let operationId := Js.prop args "operationId" in
  let confirm := Js.prop args "confirm" in
  let response := Js.prop args "response" in
  if Js.truthy response && negb (Js.truthy operationId) then
    match pendingOperations s !! last_operation with
    | None => (Js.Throw (Js.McpError Js.InvalidRequest no_pending_message), s)
    | Some lastOp =>
        let actualOperationId := id_val lastOp in
        let pendingOp := map_get (pendingOperations s) actualOperationId in
        match response with
        | Js.Str response =>
            let normalizedResponse := Js.trim (Js.toLowerCase response) in
            match classify confirmWords cancelWords normalizedResponse with
            | Unrecognized => (Js.Throw (Js.McpError Js.InvalidRequest unclear_message), s)
            | intent =>
                let shouldConfirm := match intent with Affirm => true | _ => false end in
                let s1 := with_pending s (delete last_operation (pendingOperations s)) in
                executeConfirmation actualOperationId pendingOp shouldConfirm s1
            end
        | _ => (Js.Throw (Js.Error "response.toLowerCase is not a function"), s)
        end
    end
  else if negb (Js.truthy operationId) then
    (Js.Throw (Js.McpError Js.InvalidRequest "Either operationId or response must be provided"), s)
  else
    match map_get (pendingOperations s) operationId with
    | None => (Js.Throw (Js.McpError Js.InvalidRequest (not_found_message operationId)), s)
    | Some pendingOp => executeConfirmation operationId (Some pendingOp) (Js.truthy confirm) s
    end.

(** The [catch] of the request handler: an [McpError] passes, anything else
    is wrapped as an internal error. *)
Definition rethrow (name : string) (e : Js.Exn) : Js.Exn :=
  match e with
  | Js.McpError _ _ => e
  | Js.Error m => Js.McpError Js.InternalError ("Error executing " +:+ name +:+ ": " +:+ m)
  end.

(** The handler of [CallToolRequestSchema], with the tool name and the
    arguments of the request. *)
Definition callTool (name : string) (args : Js.Val) (clock : Clock) (s : Server)
    : Js.Completion ToolResult * Server :=
  let '(r, s') :=
    if String.eqb name "confirm_operation" then
      if Js.nullish args then (Js.Throw (Js.cannot_destructure args "operationId" "args"), s)
      else handleConfirmation (Js.fields args) s
    else if isReadOperation name then executeOperation name args s
    else requestConfirmation name args clock s in
  match r with
  | Js.Return result => (Js.Return result, s')
  | Js.Throw e => (Js.Throw (rethrow name e), s')
  end.

Definition expireTime : Z := 5 * 60 * 1000.

Definition expired (now : N) (operation : PendingOp) : bool :=
  bool_decide (Z.of_N now - Z.of_N (op_timestamp operation) > expireTime)%Z.

(** The loop over [this.pendingOperations.entries()], which deletes the
    entries it finds expired: every entry of the map is visited. *)
Definition cleanupExpiredOperations (now : N) (s : Server) : Server :=
  {| pendingOperations :=
       filter (λ kv : string * PendingOp, expired now kv.2 = false) (pendingOperations s);
     operationCounter := operationCounter s;
     database := database s |}.

End Server.
End Plain.

(** ** The server with the contextual memory *)

Module Contextual.

(** *** [class ContextualMemory] *)

(** What a caller hands to [addInteraction] as [result]: the result of a
    tool, or the object [{ error: error.message }] of the handler's [catch]. *)
Inductive Recorded : Type :=
  | Ok (result : ToolResult)
  | Failed (error : string).

(** [sanitizeResult]: an object with a [content] is reduced to
    [{ type: 'content', hasContent: true }], anything else is kept. *)
Inductive Sanitized : Type :=
  | HasContent
  | Verbatim (error : string).

Record Interaction : Type := {
  timestamp : N;
  operation : string;
  params : Js.Object;
  result : Sanitized;
  extra : Js.Object;
}.

Record RecentEvent : Type := {
  event_id : Js.Val; event_title : Js.Val; event_startDate : Js.Val;
  event_endDate : Js.Val; event_operation : string; event_timestamp : N;
}.
Record RecentList : Type := {
  list_id : Js.Val; list_name : Js.Val; list_operation : string; list_timestamp : N;
}.
Record RecentItem : Type := {
  item_id : Js.Val; item_content : Js.Val; item_listId : Js.Val;
  item_operation : string; item_timestamp : N;
}.

Inductive Focus : Type :=
  | FocusEvent (id title : Js.Val)
  | FocusList (id name : Js.Val)
  | FocusRelationship (eventId listId : Js.Val).

Record Context : Type := {
  recentEvents : list RecentEvent;
  recentLists : list RecentList;
  recentItems : list RecentItem;
  userPreferences : gmap string Js.Val;
  currentFocus : option Focus;
}.

Record Session : Type := {
  interactions : list Interaction;
  context : Context;
  created : N;
  lastAccessed : N;
}.

Record Memory : Type := {
  maxEntries : nat;
  sessions : gmap string Session;
}.

Definition fresh_session (now : N) : Session :=
  {| interactions := [];
     context := {| recentEvents := []; recentLists := []; recentItems := [];
                   userPreferences := ∅; currentFocus := None |};
     created := now; lastAccessed := now |}.

(** [getSession]: the session of [sessionId], created when missing, with
    [lastAccessed] refreshed; the refreshed session is stored in the map. *)
Definition getSession (sessionId : string) (now : N) (m : Memory) : Session * Memory :=
  let found := default (fresh_session now) (sessions m !! sessionId) in
  let session := {| interactions := interactions found; context := context found;
                    created := created found; lastAccessed := now |} in
  (session, {| maxEntries := maxEntries m; sessions := <[sessionId := session]> (sessions m) |}).

Definition sanitizeParams (p : Js.Object) : Js.Object := p.

Definition sanitizeResult (r : Recorded) : Sanitized :=
  match r with Ok _ => HasContent | Failed e => Verbatim e end.

Definition is_hex (c : ascii) : bool :=
  let n := Js.code (Js.lower_char c) in
  (((48 <=? n) && (n <=? 57)) || ((97 <=? n) && (n <=? 102)))%N.

Fixpoint take_hex (n : nat) (s : string) : option string :=
  match n, s with
  | O, _ => Some ""
  | S n', String c r =>
      if is_hex c then String c <$> take_hex n' r else None
  | S _, EmptyString => None
  end.

(** The match of [/ID:\s*([a-f0-9]{24})/i] that starts at the head of [s]. *)
Definition id_match_here (s : string) : option string :=
  match s with
  | String i (String d (String colon r)) =>
      if (Js.code (Js.lower_char i) =? 105)%N && (Js.code (Js.lower_char d) =? 100)%N
         && (Js.code colon =? 58)%N
      then take_hex 24 (Js.trimStart r) else None
  | _ => None
  end.

(** The leftmost match of the pattern in [s]. *)
Fixpoint id_match (s : string) : option string :=
  match id_match_here s with
  | Some captured => Some captured
  | None => match s with EmptyString => None | String _ r => id_match r end
  end.

Definition extractId (r : Recorded) : Js.Val :=
  match r with
  | Ok res => match id_match (text res) with Some i => Js.Str i | None => Js.Null end
  | Failed _ => Js.Null
  end.

(** [result.success !== false]: no result handed to the memory has a
    [success] property, so the comparison holds for each of them. *)
Definition success_not_false (r : Recorded) : bool := true.

Definition updateContext (session : Session) (operation : string) (params : Js.Object)
    (result : Recorded) (now : N) : Session :=
  let c := context session in
  let c1 :=
    if String.eqb operation "create_event" then
      if success_not_false result then
        {| recentEvents :=
             {| event_id := extractId result; event_title := Js.prop params "title";
                event_startDate := Js.prop params "startDate";
                event_endDate := Js.prop params "endDate";
                event_operation := "created"; event_timestamp := now |} :: recentEvents c;
           recentLists := recentLists c; recentItems := recentItems c;
           userPreferences := userPreferences c;
           currentFocus := Some (FocusEvent (extractId result) (Js.prop params "title")) |}
      else c
    else if String.eqb operation "create_list" then
      if success_not_false result then
        {| recentEvents := recentEvents c;
           recentLists :=
             {| list_id := extractId result; list_name := Js.prop params "name";
                list_operation := "created"; list_timestamp := now |} :: recentLists c;
           recentItems := recentItems c; userPreferences := userPreferences c;
           currentFocus := Some (FocusList (extractId result) (Js.prop params "name")) |}
      else c
    else if String.eqb operation "create_item" then
      if success_not_false result then
        {| recentEvents := recentEvents c; recentLists := recentLists c;
           recentItems :=
             {| item_id := extractId result; item_content := Js.prop params "content";
                item_listId := Js.prop params "listId";
                item_operation := "created"; item_timestamp := now |} :: recentItems c;
           userPreferences := userPreferences c; currentFocus := currentFocus c |}
      else c
    else if String.eqb operation "get_events" then
      let prefs1 :=
        if Js.truthy (Js.prop params "calendarId")
        then <["preferredCalendar" := Js.prop params "calendarId"]> (userPreferences c)
        else userPreferences c in
      let prefs2 :=
        if Js.truthy (Js.prop params "ownerId")
        then <["userId" := Js.prop params "ownerId"]> prefs1 else prefs1 in
      {| recentEvents := recentEvents c; recentLists := recentLists c;
         recentItems := recentItems c; userPreferences := prefs2;
         currentFocus := currentFocus c |}
    else if String.eqb operation "assign_list_to_event" then
      {| recentEvents := recentEvents c; recentLists := recentLists c;
         recentItems := recentItems c; userPreferences := userPreferences c;
         currentFocus :=
           Some (FocusRelationship (Js.prop params "eventId") (Js.prop params "listId")) |}
    else c in
  {| interactions := interactions session;
     context := {| recentEvents := take 10 (recentEvents c1);
                   recentLists := take 10 (recentLists c1);
                   recentItems := take 20 (recentItems c1);
                   userPreferences := userPreferences c1;
                   currentFocus := currentFocus c1 |};
     created := created session; lastAccessed := lastAccessed session |}.

(** [unshift] then [slice(0, maxEntries)] when the log got longer than that. *)
Definition record (maxEntries : nat) (interaction : Interaction) (log : list Interaction)
    : list Interaction :=
  let log' := interaction :: log in
  if (maxEntries <? length log')%nat then take maxEntries log' else log'.

Definition addInteraction (sessionId operation : string) (params : Js.Object)
    (result : Recorded) (now : N) (m : Memory) : Memory :=
  let '(session, m1) := getSession sessionId now m in
  let interaction :=
    {| timestamp := now; operation := operation; params := sanitizeParams params;
       result := sanitizeResult result; extra := [] |} in
  let logged :=
    {| interactions := record (maxEntries m) interaction (interactions session);
       context := context session; created := created session;
       lastAccessed := lastAccessed session |} in
  {| maxEntries := maxEntries m1;
     sessions := <[sessionId := updateContext logged operation params result now]> (sessions m1) |}.

(** The property of [params] that [updateContext] reads first in the case
    of [operation]; the other operations read none.  (The test
    [result.success !== false] of the three creations holds for every result
    that the server records.) *)
Definition first_param_read (operation : string) : option string :=
  if String.eqb operation "create_event" then Some "title"
  else if String.eqb operation "create_list" then Some "name"
  else if String.eqb operation "create_item" then Some "content"
  else if String.eqb operation "get_events" then Some "calendarId"
  else if String.eqb operation "assign_list_to_event" then Some "eventId"
  else None.

(** [addInteraction] on whatever [params] the server hands over.  The copy
    [{ ...params }] that the interaction keeps has the own properties of
    [params], none for [null] and [undefined].  [updateContext] reads the
    properties of [params] itself: on [null] or [undefined] its first read
    throws, when the interaction is in the log of the session already;
    nothing of the context has changed then, and the [slice]s of the recency
    lists and [saveToDisk] are not reached.  In every other case this is
    [addInteraction] above on the properties of [params]. *)
Definition addInteraction_unchecked (sessionId operation : string) (params : Js.Val)
    (result : Recorded) (now : N) (m : Memory) : Js.Completion unit * Memory :=
  match first_param_read operation with
  | Some key =>
      if Js.nullish params then
        let '(session, m1) := getSession sessionId now m in
        let interaction :=
          {| timestamp := now; operation := operation; params := sanitizeParams (Js.fields params);
             result := sanitizeResult result; extra := [] |} in
        let logged :=
          {| interactions := record (maxEntries m) interaction (interactions session);
             context := context session; created := created session;
             lastAccessed := lastAccessed session |} in
        (Js.Throw (Js.cannot_read params key),
         {| maxEntries := maxEntries m1; sessions := <[sessionId := logged]> (sessions m1) |})
      else (Js.Return tt, addInteraction sessionId operation (Js.fields params) result now m)
  | None => (Js.Return tt, addInteraction sessionId operation (Js.fields params) result now m)
  end.

(** The property read [currentParams.key] on a value that is not [null] or
    [undefined]; the server calls [getContextualSuggestions] with such a
    value, or with an operation that makes it read no property. *)
Definition as_object (v : Js.Val) : Js.Object :=
  match v with Js.Obj fields => fields | _ => [] end.

Definition getContextualSuggestions (sessionId : string) (currentOperation : Js.Val)
    (currentParams : Js.Val) (now : N) (m : Memory) : list string * Memory :=
  let '(session, m1) := getSession sessionId now m in
  let c := context session in
  let is_op (name : string) : bool :=
    match currentOperation with Js.Str o => String.eqb o name | _ => false end in
  let s1 :=
    if is_op "create_item" && negb (Js.truthy (Js.prop (as_object currentParams) "listId")) then
      match recentLists c with
      | recentList :: _ =>
          [ "You recently created a list " +:+ Js.dq +:+ Js.toString (list_name recentList)
            +:+ Js.dq +:+ " (" +:+ Js.toString (list_id recentList)
            +:+ "). Would you like to add this item there?" ]
      | [] => []
      end
    else [] in
  let s2 :=
    if is_op "assign_list_to_event"
       && negb (Js.truthy (Js.prop (as_object currentParams) "eventId")) then
      match recentEvents c with
      | recentEvent :: _ =>
          [ "You recently created event " +:+ Js.dq +:+ Js.toString (event_title recentEvent)
            +:+ Js.dq +:+ " (" +:+ Js.toString (event_id recentEvent)
            +:+ "). Is this the event you want to assign the list to?" ]
      | [] => []
      end
    else [] in
  let preferred := default Js.Undefined (userPreferences c !! "preferredCalendar") in
  let s3 :=
    if is_op "create_event" && Js.truthy preferred then
      [ "Based on your activity, you might want to use calendar: " +:+ Js.toString preferred ]
    else [] in
  ((s1 ++ s2 ++ s3)%list, m1).

(** [cleanup]: the sessions last accessed before [now - maxAge] are deleted. *)
Definition cleanup (maxAge : Z) (now : N) (m : Memory) : Memory :=
  {| maxEntries := maxEntries m;
     sessions :=
       filter (λ kv : string * Session,
                 ¬ (Z.of_N (lastAccessed kv.2) < Z.of_N now - maxAge)%Z) (sessions m) |}.

(** [summarizeInteraction]: [params.content?.substring(0, 30)] is
    [undefined] for a missing content and throws for a content that is
    neither missing nor a string. *)
Definition summarizeInteraction (interaction : Interaction) : Js.Completion string :=
  let operation := operation interaction in
  let params := params interaction in
  if String.eqb operation "create_event" then
    Js.Return ("Created event " +:+ Js.dq +:+ Js.toString (Js.prop params "title") +:+ Js.dq)
  else if String.eqb operation "create_list" then
    Js.Return ("Created list " +:+ Js.dq +:+ Js.toString (Js.prop params "name") +:+ Js.dq)
  else if String.eqb operation "create_item" then
    match Js.prop params "content" with
    | Js.Str content =>
        Js.Return ("Added item " +:+ Js.dq +:+ String.substring 0 30 content +:+ "..." +:+ Js.dq)
    | Js.Undefined | Js.Null =>
        Js.Return ("Added item " +:+ Js.dq +:+ "undefined" +:+ "..." +:+ Js.dq)
    | _ => Js.Throw (Js.Error "params.content?.substring is not a function")
    end
  else Js.Return ("Performed " +:+ operation).

Record Activity : Type := {
  activity_operation : string;
  activity_timestamp : N;
  activity_summary : string;
}.

(** [recentInteractions.map(i => ({ ..., summary: summarizeInteraction(i) }))],
    which stops at the first summary that throws. *)
Fixpoint summarize (log : list Interaction) : Js.Completion (list Activity) :=
  match log with
  | [] => Js.Return []
  | i :: rest =>
      match summarizeInteraction i with
      | Js.Throw e => Js.Throw e
      | Js.Return summary =>
          match summarize rest with
          | Js.Throw e => Js.Throw e
          | Js.Return activities =>
              Js.Return ({| activity_operation := operation i;
                            activity_timestamp := timestamp i;
                            activity_summary := summary |} :: activities)
          end
      end
  end.

(** The [items] of [getRecentEntitySuggestions]: [i.content.substring(0, 50)
    + '...'], which throws unless the content is a string. *)
Fixpoint item_suggestions (items : list RecentItem)
    : Js.Completion (list (Js.Val * string)) :=
  match items with
  | [] => Js.Return []
  | i :: rest =>
      match item_content i with
      | Js.Str content =>
          match item_suggestions rest with
          | Js.Return l =>
              Js.Return ((item_id i, String.substring 0 50 content +:+ "...") :: l)
          | Js.Throw e => Js.Throw e
          end
      | Js.Undefined =>
          Js.Throw (Js.Error "Cannot read properties of undefined (reading 'substring')")
      | Js.Null =>
          Js.Throw (Js.Error "Cannot read properties of null (reading 'substring')")
      | _ => Js.Throw (Js.Error "i.content.substring is not a function")
      end
  end.

Record EntitySuggestions : Type := {
  suggested_events : list (Js.Val * Js.Val * Js.Val);
  suggested_lists : list (Js.Val * Js.Val);
  suggested_items : list (Js.Val * string);
}.

Definition getRecentEntitySuggestions (c : Context)
    : Js.Completion EntitySuggestions :=
  match item_suggestions (recentItems c) with
  | Js.Throw e => Js.Throw e
  | Js.Return items =>
      Js.Return
        {| suggested_events :=
             map (λ e, (event_id e, event_title e,
                        event_startDate e)) (recentEvents c);
           suggested_lists :=
             map (λ l, (list_id l, list_name l)) (recentLists c);
           suggested_items := items |}
  end.

Record ContextSummary : Type := {
  summary_currentFocus : option Focus;
  summary_recentActivity : list Activity;
  summary_userPreferences : gmap string Js.Val;
  summary_suggestions : EntitySuggestions;
}.

(** [getConversationContext]: the properties of the summary are computed in
    the order of the object literal, so a throwing summary comes first. *)
Definition getConversationContext (sessionId : string) (limit : nat) (now : N)
    (m : Memory) : Js.Completion ContextSummary * Memory :=
  let '(session, m1) := getSession sessionId now m in
  let recentInteractions := take limit (interactions session) in
  match summarize recentInteractions with
  | Js.Throw e => (Js.Throw e, m1)
  | Js.Return activities =>
      match getRecentEntitySuggestions (context session) with
      | Js.Throw e => (Js.Throw e, m1)
      | Js.Return suggestions =>
          (Js.Return
             {| summary_currentFocus := currentFocus (context session);
                summary_recentActivity := activities;
                summary_userPreferences :=
                  userPreferences (context session);
                summary_suggestions := suggestions |}, m1)
      end
  end.

(** *** [class CalendarMCPServer] *)

Section Server.
Context {store : Collaborators}.

(** The text that [handleGetContext] builds from the conversation context
    and the suggestions.  It formats the timestamps for the locale of the
    process; the server only passes the text on. *)
Context (contextText : ContextSummary -> list string -> string).

Record Server : Type := {
  pendingOperations : gmap string PendingOp;
  operationCounter : N;
  memory : Memory;
  database : DB;
}.

(** The server that the constructor builds: [new ContextualMemory()] keeps
    100 entries and starts from the sessions that [loadFromDisk] found. *)
Definition initial (loaded : gmap string Session) (db : DB) : Server :=
  {| pendingOperations := ∅; operationCounter := 0;
     memory := {| maxEntries := 100; sessions := loaded |}; database := db |}.

Definition with_memory (s : Server) (m : Memory) : Server :=
  {| pendingOperations := pendingOperations s; operationCounter := operationCounter s;
     memory := m; database := database s |}.

Definition with_pending (s : Server) (p : gmap string PendingOp) : Server :=
  {| pendingOperations := p; operationCounter := operationCounter s;
     memory := memory s; database := database s |}.

(** A [CallToolRequest]: the tool name, its arguments, and whatever else the
    request carries. *)
Record Request : Type := {
  name : string;
  arguments : Js.Val;
  meta : Js.Val;
}.

Definition getSessionId (request : Request) : string := "default".

Definition readOperations : list string :=
  [ "get_events"; "get_lists"; "get_items"; "get_event_with_list_and_items"; "get_context" ].

Definition isReadOperation (operationName : string) : bool :=
  bool_decide (operationName ∈ readOperations).

(** [handleGetContext]: the conversation context of the session comes
    first, with the default limit of five interactions; then [args.operation]
    is read, which throws on [null] and [undefined]. *)
Definition handleGetContext (sessionId : string) (args : Js.Val) (now : N) (s : Server)
    : Js.Completion ToolResult * Server :=
  let '(context, m1) := getConversationContext sessionId 5 now (memory s) in
  match context with
  | Js.Throw e => (Js.Throw e, with_memory s m1)
  | Js.Return context =>
      if Js.nullish args then (Js.Throw (Js.cannot_read args "operation"), with_memory s m1)
      else
        let operation := Js.prop (Js.fields args) "operation" in
        let params := Js.prop (Js.fields args) "params" in
        let '(suggestions, m2) :=
          if Js.truthy operation && Js.truthy params then
            getContextualSuggestions sessionId operation params now m1
          else ([], m1) in
        (Js.Return (Content (contextText context suggestions)), with_memory s m2)
  end.

Definition enhanceResultWithContext (sessionId operation : string) (params : Js.Val)
    (result : ToolResult) (now : N) (m : Memory) : ToolResult * Memory :=
  let '(suggestions, m1) :=
    getContextualSuggestions sessionId (Js.Str operation) params now m in
  match suggestions with
  | [] => (result, m1)
  | _ =>
      (Content (text result +:+ Js.nl +:+ Js.nl +:+ "💡 **Contextual Suggestions:**" +:+ Js.nl
                +:+ String.concat Js.nl (map (λ s, "• " +:+ s) suggestions)), m1)
  end.

(** [requestConfirmation]: the entry and the alias are stored first, the
    message is built afterwards; when that throws, they stay stored. *)
Definition requestConfirmation (operationName : string) (args : Js.Val) (clock : Clock)
    (s : Server) : Js.Completion ToolResult * Server :=
  let counter := (operationCounter s + 1)%N in
  let operationId := operation_id counter (now_id clock) in
  let stored :=
    <[operationId := {| op_id := None; op_name := operationName; op_args := args;
                        op_timestamp := now_entry clock |}]> (pendingOperations s) in
  let aliased :=
    <[last_operation := {| op_id := Some operationId; op_name := operationName;
                           op_args := args; op_timestamp := now_alias clock |}]> stored in
  let s' :=
    {| pendingOperations := aliased; operationCounter := counter;
       memory := memory s; database := database s |} in
  match generateConfirmationMessage operationName args with
  | Js.Return confirmationMessage =>
      (Js.Return (Content (confirmation_prompt confirmationMessage operationId)), s')
  | Js.Throw e => (Js.Throw e, s')
  end.

Definition executeOperation (name : string) (args : Js.Val) (s : Server)
    : Js.Completion ToolResult * Server :=
  match tool_of_name name with
  | Some tool =>
      let '(r, db) := crud tool args (database s) in
      let s' := {| pendingOperations := pendingOperations s;
                   operationCounter := operationCounter s;
                   memory := memory s; database := db |} in
      match r with
      | Js.Return t => (Js.Return (Content t), s')
      | Js.Throw e => (Js.Throw e, s')
      end
  | None => (Js.Throw (Js.McpError Js.MethodNotFound ("Unknown operation: " +:+ name)), s)
  end.

Definition executeConfirmation (operationId : Js.Val) (pendingOp : option PendingOp)
    (shouldConfirm : bool) (now : N) (s : Server) : Js.Completion ToolResult * Server :=
  let s1 := with_pending s (map_delete (pendingOperations s) operationId) in
  match pendingOp with
  | None => (Js.Throw Js.name_of_undefined, s1)
  | Some op =>
      if negb shouldConfirm then
        (Js.Return (Content ("❌ Operation cancelled: " +:+ op_name op)), s1)
      else
        match executeOperation (op_name op) (op_args op) s1 with
        | (Js.Return result, s2) =>
            let sessionId := "default" in
            match addInteraction_unchecked sessionId (op_name op) (op_args op) (Ok result) now
                    (memory s2) with
            | (Js.Return _, m) =>
                (Js.Return (Content ("✅ Operation confirmed and executed:" +:+ Js.nl +:+ Js.nl
                                     +:+ text result)), with_memory s2 m)
            | (Js.Throw e, m) => (Js.Throw e, with_memory s2 m)
            end
        | (Js.Throw e, s2) => (Js.Throw e, s2)
        end
  end.

Definition confirmWords : list string :=
  [ "yes"; "confirm"; "proceed"; "ok"; "y"; "go"; "continue" ].
Definition cancelWords : list string :=
  [ "no"; "cancel"; "abort"; "stop"; "n"; "decline" ].

Definition no_pending_message : string :=
  "No pending operation found. Please make a request first.".
Definition unclear_message : string :=
  "Please respond with " +:+ Js.dq +:+ "yes" +:+ Js.dq +:+ "/" +:+ Js.dq +:+ "confirm"
  +:+ Js.dq +:+ " to proceed or " +:+ Js.dq +:+ "no" +:+ Js.dq +:+ "/" +:+ Js.dq
  +:+ "cancel" +:+ Js.dq +:+ " to abort.".
Definition not_found_message (operationId : Js.Val) : string :=
  "No pending operation found with ID: " +:+ Js.toString operationId.
Definition no_signal_message : string :=
  "Please provide either operationId + confirm, or a natural language response.".

(** [handleConfirmation], from its second line on: [args] stands for the
    properties of the argument, which the destructuring of the first line
    reads.  That line throws on [null] and [undefined]; the handler below
    has this case. *)
Definition handleConfirmation (args : Js.Object) (now : N) (s : Server)
    : Js.Completion ToolResult * Server :=
  let operationId := Js.prop args "operationId" in
  let confirm := Js.prop args "confirm" in
  let response := Js.prop args "response" in
  if Js.truthy response && negb (Js.truthy operationId) then
    match pendingOperations s !! last_operation with
    | None => (Js.Throw (Js.McpError Js.InvalidRequest no_pending_message), s)
    | Some lastOp =>
        let actualOperationId := id_val lastOp in
        let pendingOp := map_get (pendingOperations s) actualOperationId in
        match response with
        | Js.Str response =>
            let normalizedResponse := Js.trim (Js.toLowerCase response) in
            match classify confirmWords cancelWords normalizedResponse with
            | Unrecognized => (Js.Throw (Js.McpError Js.InvalidRequest unclear_message), s)
            | intent =>
                let shouldConfirm := match intent with Affirm => true | _ => false end in
                executeConfirmation actualOperationId pendingOp shouldConfirm now s
            end
        | _ => (Js.Throw (Js.Error "response.toLowerCase is not a function"), s)
        end
    end
  else if Js.truthy operationId then
    match map_get (pendingOperations s) operationId with
    | None => (Js.Throw (Js.McpError Js.InvalidRequest (not_found_message operationId)), s)
    | Some pendingOp =>
        executeConfirmation operationId (Some pendingOp) (Js.truthy confirm) now s
    end
  else
    match confirm with
    | Js.Bool confirm =>
        match pendingOperations s !! last_operation with
        | None => (Js.Throw (Js.McpError Js.InvalidRequest no_pending_message), s)
        | Some lastOp =>
            let actualOperationId := id_val lastOp in
            let pendingOp := map_get (pendingOperations s) actualOperationId in
            executeConfirmation actualOperationId pendingOp confirm now s
        end
    | _ => (Js.Throw (Js.McpError Js.InvalidRequest no_signal_message), s)
    end.

Definition rethrow (name : string) (e : Js.Exn) : Js.Exn :=
  match e with
  | Js.McpError _ _ => e
  | Js.Error m => Js.McpError Js.InternalError ("Error executing " +:+ name +:+ ": " +:+ m)
  end.

(** A call of [this.memory.addInteraction] by the server: what it returns
    or throws, and the server with the memory that it leaves. *)
Definition remember (sessionId operation : string) (params : Js.Val) (result : Recorded)
    (now : N) (s : Server) : Js.Completion unit * Server :=
  let '(r, m) := addInteraction_unchecked sessionId operation params result now (memory s) in
  (r, with_memory s m).

(** The [try] block of the handler of [CallToolRequestSchema]. *)
Definition attempt (request : Request) (clock : Clock) (now : N) (s : Server)
    : Js.Completion ToolResult * Server :=
  let name := name request in
  let args := arguments request in
  let sessionId := getSessionId request in
  if String.eqb name "get_context" then handleGetContext sessionId args now s
  else if String.eqb name "confirm_operation" then
    if Js.nullish args then (Js.Throw (Js.cannot_destructure args "operationId" "args"), s)
    else
      match handleConfirmation (Js.fields args) now s with
      | (Js.Return result, s1) =>
          match remember sessionId "confirm_operation" args (Ok result) now s1 with
          | (Js.Return _, s2) => (Js.Return result, s2)
          | (Js.Throw e, s2) => (Js.Throw e, s2)
          end
      | (Js.Throw e, s1) => (Js.Throw e, s1)
      end
  else if isReadOperation name then
    match executeOperation name args s with
    | (Js.Return result, s1) =>
        match remember sessionId name args (Ok result) now s1 with
        | (Js.Return _, s2) =>
            let '(enhancedResult, m') :=
              enhanceResultWithContext sessionId name args result now (memory s2) in
            (Js.Return enhancedResult, with_memory s2 m')
        | (Js.Throw e, s2) => (Js.Throw e, s2)
        end
    | (Js.Throw e, s1) => (Js.Throw e, s1)
    end
  else requestConfirmation name args clock s.

(** Its [catch] block, on the error [e] that the [try] block threw: the
    failed call is recorded, and the error is rethrown.  What the recording
    itself throws leaves the handler as it is. *)
Definition recover (request : Request) (e : Js.Exn) (now : N) (s : Server)
    : Js.Completion ToolResult * Server :=
  match remember (getSessionId request) (name request) (arguments request)
          (Failed (Js.message e)) now s with
  | (Js.Return _, s') => (Js.Throw (rethrow (name request) e), s')
  | (Js.Throw e', s') => (Js.Throw e', s')
  end.

(** The handler of [CallToolRequestSchema]. *)
Definition callTool (request : Request) (clock : Clock) (now : N) (s : Server)
    : Js.Completion ToolResult * Server :=
  match attempt request clock now s with
  | (Js.Return result, s') => (Js.Return result, s')
  | (Js.Throw e, s') => recover request e now s'
  end.


(** The states of a running server: tool calls, and the cleanup of old
    sessions that the timer and the signal handler run. *)
Inductive reachable : Server -> Prop :=
  | reach_initial loaded db : reachable (initial loaded db)
  | reach_call request clock now s :
      reachable s -> reachable (callTool request clock now s).2
  | reach_cleanup maxAge now s :
      reachable s -> reachable (with_memory s (cleanup maxAge now (memory s))).

End Server.

(** A sequence of recordings, applied in order. *)
Record Recording : Type := {
  rec_session : string;
  rec_operation : string;
  rec_params : Js.Object;
  rec_result : Recorded;
  rec_now : N;
}.

Definition recordAll (recordings : list Recording) (m : Memory) : Memory :=
  fold_left (λ m r, addInteraction (rec_session r) (rec_operation r) (rec_params r)
                      (rec_result r) (rec_now r) m) recordings m.

(** The log of a session, empty when the memory has no such session. *)
Definition log_of (m : Memory) (sessionId : string) : list Interaction :=
  default [] (interactions <$> sessions m !! sessionId).

(** The interaction that [addInteraction] puts at the front of the log. *)
Definition interaction_of (operation : string) (params : Js.Object) (result : Recorded)
    (now : N) : Interaction :=
  {| timestamp := now; operation := operation; params := sanitizeParams params;
     result := sanitizeResult result; extra := [] |}.

(** [m'] has the sessions of [m] under every id but ['default']. *)
Definition others_untouched (m m' : Memory) : Prop :=
  ∀ sessionId, sessionId ≠ "default" → sessions m' !! sessionId = sessions m !! sessionId.

End Contextual.

(** ** A store to run the servers on *)

(** A database that journals the CRUD calls it receives, newest first, each
    with the properties of its arguments; and a rendering of
    [JSON.stringify] that hides the arguments. *)
Definition journal : Collaborators :=
  {| DB := list (Tool * Js.Object);
     crud := λ tool args db, (Js.Return "done", (tool, Js.fields args) :: db);
     stringify := λ _, "{...}" |}.

Definition empty_journal : @DB journal := [].

(** A rendering of the conversation context that shows the operations of
    the recent activity, then the suggestions. *)
Definition plainContextText (context : Contextual.ContextSummary) (suggestions : list string)
    : string :=
  String.concat Js.nl
    (map Contextual.activity_operation (Contextual.summary_recentActivity context)
     ++ suggestions)%list.

(** One clock reading [t] for the whole of a request. *)
Definition tick (t : N) : Clock := {| now_id := t; now_entry := t; now_alias := t |}.

Definition groceries : Js.Object := [ ("name", Js.Str "Groceries"); ("userId", Js.Str "u1") ].

(** The two servers after a first write call, [create_list], at time 1000:
    the entry [op_1_1000] and the alias are pending. *)
Definition plain_queued : @Plain.Server journal :=
  (Plain.callTool "create_list" (Js.Obj groceries) (tick 1000) (Plain.initial empty_journal)).2.

(** A request with an object of arguments, and one without arguments. *)
Definition call (name : string) (args : Js.Object) : Contextual.Request :=
  {| Contextual.name := name; Contextual.arguments := Js.Obj args;
     Contextual.meta := Js.Undefined |}.


Definition contextual_queued : @Contextual.Server journal :=
  (Contextual.callTool plainContextText (call "create_list" groceries) (tick 1000) 1000
     (Contextual.initial ∅ empty_journal)).2.

(** The entry and the alias that this call stores. *)
Definition groceries_entry : PendingOp :=
  {| op_id := None; op_name := "create_list"; op_args := Js.Obj groceries;
     op_timestamp := 1000 |}.
Definition groceries_alias : PendingOp :=
  {| op_id := Some "op_1_1000"; op_name := "create_list"; op_args := Js.Obj groceries;
     op_timestamp := 1000 |}.

(** The server with memory after that operation was confirmed by its id, at
    time 2000: the entry is gone, the alias still names it. *)
Definition contextual_confirmed : @Contextual.Server journal :=
  (Contextual.callTool plainContextText
     (call "confirm_operation" [ ("operationId", Js.Str "op_1_1000"); ("confirm", Js.Bool true) ])
     (tick 2000) 2000 contextual_queued).2.

(** A memory that keeps two interactions per session, and three recordings. *)
Definition small_memory : Contextual.Memory :=
  {| Contextual.maxEntries := 2; Contextual.sessions := ∅ |}.

Definition recording (operation : string) (now : N) : Contextual.Recording :=
  {| Contextual.rec_session := "default"; Contextual.rec_operation := operation;
     Contextual.rec_params := []; Contextual.rec_result := Contextual.Ok (Content "done");
     Contextual.rec_now := now |}.


(** ** More of the servers *)

(** The texts that [createEvent], [createList] and [createItem] of the server
    with memory return, from the fields of the saved document as strings; an
    optional field that is missing or empty is the empty string. *)
Definition createEvent_text (id title startDate endDate location description : string)
    : string :=
  "✅ Event created successfully!" +:+ Js.nl +:+ Js.nl +:+ "ID: " +:+ id +:+ Js.nl
  +:+ "Title: " +:+ title +:+ Js.nl +:+ "Start: " +:+ startDate +:+ Js.nl
  +:+ "End: " +:+ endDate
  +:+ (if String.eqb location "" then "" else Js.nl +:+ "Location: " +:+ location)
  +:+ (if String.eqb description "" then "" else Js.nl +:+ "Description: " +:+ description).

Definition createList_text (id name description userId : string) : string :=
  "✅ List created successfully!" +:+ Js.nl +:+ Js.nl +:+ "ID: " +:+ id +:+ Js.nl
  +:+ "Name: " +:+ name
  +:+ (if String.eqb description "" then "" else Js.nl +:+ "Description: " +:+ description)
  +:+ Js.nl +:+ "User: " +:+ userId.

Definition createItem_text (id content listId : string) : string :=
  "✅ Item created successfully!" +:+ Js.nl +:+ Js.nl +:+ "ID: " +:+ id +:+ Js.nl
  +:+ "Content: " +:+ content +:+ Js.nl +:+ "List: " +:+ listId.

(** The texts whose characters are all hexadecimal digits. *)
Fixpoint all_hex (s : string) : bool :=
  match s with
  | EmptyString => true
  | String c r => Contextual.is_hex c && all_hex r
  end.


(** [s'] has the part of [s] that the confirmation workflow owns: the
    pending map, the counter and the database. *)
Definition same_workflow {store : Collaborators} (s s' : Contextual.Server) : Prop :=
  Contextual.pendingOperations s' = Contextual.pendingOperations s
  ∧ Contextual.operationCounter s' = Contextual.operationCounter s
  ∧ Contextual.database s' = Contextual.database s.

(** The alias of a running server: it names the id made from the current
    counter value, and the entry under that id, while it is in the map, holds
    the same operation. *)
Definition alias_is_latest (pending : gmap string PendingOp) (counter : N) : Prop :=
  ∀ alias, pending !! last_operation = Some alias →
    ∃ t, op_id alias = Some (operation_id counter t)
         ∧ ∀ entry, pending !! operation_id counter t = Some entry →
             op_name entry = op_name alias ∧ op_args entry = op_args alias.

(** The current focus of a session, [None] also when there is no session. *)
Definition focus_of (m : Contextual.Memory) (sessionId : string) : option Contextual.Focus :=
  session ← Contextual.sessions m !! sessionId;
  Contextual.currentFocus (Contextual.context session).

(** The operations that set the current focus. *)
Definition focus_operations : list string :=
  [ "create_event"; "create_list"; "assign_list_to_event" ].

(** The words that end in a character other than white space. *)
Fixpoint ends_nonwhite (w : string) : bool :=
  match w with
  | EmptyString => false
  | String c EmptyString => negb (Js.is_white c)
  | String _ r => ends_nonwhite r
  end.

(** The words that start with a character other than white space. *)
Definition starts_nonwhite (w : string) : bool :=
  match w with
  | EmptyString => false
  | String c _ => negb (Js.is_white c)
  end.

(** * Properties *)


Example toLowerCase_ex : Js.toLowerCase "Yes, OK" = "yes, ok".
Proof. reflexivity. Qed.
Example trim_ex : Js.trim "  do it " = "do it".
Proof. reflexivity. Qed.
Example extractId_ex :
  Contextual.extractId
    (Contextual.Ok (Content ("Created!" +:+ Js.nl +:+ "ID: 507f1f77bcf86cd799439011" +:+ Js.nl)))
  = Js.Str "507f1f77bcf86cd799439011"
  ∧ Contextual.extractId (Contextual.Ok (Content "ID: 507f1f77")) = Js.Null.
Proof. split; reflexivity. Qed.
Example includes_ex : Js.includes "nope" "no" = true /\ Js.includes "do it" "y" = false.
Proof. split; reflexivity. Qed.


(** ** Strings and operation ids *)

Section Strings.

Lemma prefix_append (needle rest : string) : String.prefix needle (needle +:+ rest) = true.
Proof.
  induction needle as [|c needle IH]; simpl.
  - by destruct rest.
  - destruct (ascii_dec c c); [exact IH | congruence].
Qed.

Lemma includes_here (needle rest : string) : Js.includes (needle +:+ rest) needle = true.
Proof.
  destruct needle as [|c needle]; [by destruct rest|].
  change (String.prefix (String c needle) (String c needle +:+ rest)
          || Js.includes (needle +:+ rest) (String c needle) = true).
  by rewrite prefix_append.
Qed.

Lemma includes_skip (before hay needle : string) :
  Js.includes hay needle = true → Js.includes (before +:+ hay) needle = true.
Proof.
  intros H. induction before as [|c before IH]; [exact H|].
  simpl. rewrite IH. apply orb_true_r.
Qed.

Lemma includes_empty (needle : string) :
  Js.includes "" needle = true → needle = "".
Proof. destruct needle; simpl; [done | discriminate]. Qed.






Lemma operation_id_not_alias (c t : N) : operation_id c t ≠ last_operation.
Proof. unfold operation_id, last_operation. simpl. discriminate. Qed.

Lemma operation_id_not_empty (c t : N) : operation_id c t ≠ "".
Proof. unfold operation_id. simpl. discriminate. Qed.


End Strings.

(** ** Reading a confirmation *)

Section Confirmation.
Context {store : Collaborators}.

Lemma some_includes_elem (words : list string) (text word : string) :
  word ∈ words → Js.includes text word = true → Js.some_includes words text = true.
Proof.
  intros Hin Hinc. apply existsb_exists. exists word.
  split; [by apply list_elem_of_In | done].
Qed.

Lemma classify_affirm_first (confirmWords cancelWords : list string) (text : string) :
  Js.some_includes confirmWords text = true →
  classify confirmWords cancelWords text = Affirm.
Proof. unfold classify. by intros ->. Qed.

Lemma truthy_Str (s : string) : s ≠ "" → Js.truthy (Js.Str s) = true.
Proof. intros Hs. simpl. by destruct (String.eqb_spec s ""). Qed.

Lemma normalized_nonempty (response word : string) :
  word ≠ "" → Js.includes (Js.trim (Js.toLowerCase response)) word = true → response ≠ "".
Proof.
  intros Hword Hinc ->. apply includes_empty in Hinc. done.
Qed.

Lemma alias_target_Some (pending : gmap string PendingOp) (i : string) (op : PendingOp) :
  alias_target pending = Some (i, op) →
  ∃ lastOp, pending !! last_operation = Some lastOp
            ∧ id_val lastOp = Js.Str i ∧ pending !! i = Some op.
Proof.
  unfold alias_target. intros Heq.
  destruct (pending !! last_operation) as [lastOp|]; simpl in Heq; [|done].
  destruct (op_id lastOp) as [j|] eqn:Hid; simpl in Heq; [|done].
  destruct (pending !! j) as [op'|] eqn:Hj; simpl in Heq; [|done].
  injection Heq as -> ->. exists lastOp. unfold id_val. by rewrite Hid.
Qed.

(** The free-text branch of [handleConfirmation] in [index.js]. *)
Lemma plain_free_text (args : Js.Object) (response : string) (lastOp : PendingOp)
    (s : Plain.Server) :
  Js.prop args "response" = Js.Str response → response ≠ "" →
  Js.truthy (Js.prop args "operationId") = false →
  Plain.pendingOperations s !! last_operation = Some lastOp →
  Plain.handleConfirmation args s =
    let s1 := Plain.with_pending s (delete last_operation (Plain.pendingOperations s)) in
    let pendingOp := map_get (Plain.pendingOperations s) (id_val lastOp) in
    match classify Plain.confirmWords Plain.cancelWords (Js.trim (Js.toLowerCase response)) with
    | Affirm => Plain.executeConfirmation (id_val lastOp) pendingOp true s1
    | Deny => Plain.executeConfirmation (id_val lastOp) pendingOp false s1
    | Unrecognized => (Js.Throw (Js.McpError Js.InvalidRequest Plain.unclear_message), s)
    end.
Proof.
  intros Hr Hne Hid Hlast. unfold Plain.handleConfirmation.
  rewrite Hr, Hid, (truthy_Str _ Hne), Hlast. simpl.
  by destruct (classify _ _ _).
Qed.

(** The free-text branch of [handleConfirmation] in the server with memory. *)
Lemma contextual_free_text (args : Js.Object) (response : string) (lastOp : PendingOp)
    (now : N) (s : Contextual.Server) :
  Js.prop args "response" = Js.Str response → response ≠ "" →
  Js.truthy (Js.prop args "operationId") = false →
  Contextual.pendingOperations s !! last_operation = Some lastOp →
  Contextual.handleConfirmation args now s =
    let pendingOp := map_get (Contextual.pendingOperations s) (id_val lastOp) in
    match classify Contextual.confirmWords Contextual.cancelWords
            (Js.trim (Js.toLowerCase response)) with
    | Affirm => Contextual.executeConfirmation (id_val lastOp) pendingOp true now s
    | Deny => Contextual.executeConfirmation (id_val lastOp) pendingOp false now s
    | Unrecognized => (Js.Throw (Js.McpError Js.InvalidRequest Contextual.unclear_message), s)
    end.
Proof.
  intros Hr Hne Hid Hlast. unfold Contextual.handleConfirmation.
  rewrite Hr, Hid, (truthy_Str _ Hne), Hlast. simpl.
  by destruct (classify _ _ _).
Qed.

(** The branch of an explicit [operationId], in both servers. *)
Lemma plain_explicit_id (args : Js.Object) (i : string) (s : Plain.Server) :
  Js.prop args "operationId" = Js.Str i → i ≠ "" →
  Plain.handleConfirmation args s =
    match Plain.pendingOperations s !! i with
    | Some pendingOp =>
        Plain.executeConfirmation (Js.Str i) (Some pendingOp)
          (Js.truthy (Js.prop args "confirm")) s
    | None =>
        (Js.Throw (Js.McpError Js.InvalidRequest (Plain.not_found_message (Js.Str i))), s)
    end.
Proof.
  intros Hid Hne. unfold Plain.handleConfirmation.
  rewrite Hid, (truthy_Str _ Hne), andb_false_r. simpl. done.
Qed.

Lemma contextual_explicit_id (args : Js.Object) (i : string) (now : N)
    (s : Contextual.Server) :
  Js.prop args "operationId" = Js.Str i → i ≠ "" →
  Contextual.handleConfirmation args now s =
    match Contextual.pendingOperations s !! i with
    | Some pendingOp =>
        Contextual.executeConfirmation (Js.Str i) (Some pendingOp)
          (Js.truthy (Js.prop args "confirm")) now s
    | None =>
        (Js.Throw (Js.McpError Js.InvalidRequest (Contextual.not_found_message (Js.Str i))), s)
    end.
Proof.
  intros Hid Hne. unfold Contextual.handleConfirmation.
  rewrite Hid, (truthy_Str _ Hne), andb_false_r. simpl. done.
Qed.

(** The branch of a bare flag [confirm], which only the server with memory
    has. *)
Lemma contextual_flag (args : Js.Object) (confirm : bool) (lastOp : PendingOp) (now : N)
    (s : Contextual.Server) :
  Js.truthy (Js.prop args "response") = false →
  Js.truthy (Js.prop args "operationId") = false →
  Js.prop args "confirm" = Js.Bool confirm →
  Contextual.pendingOperations s !! last_operation = Some lastOp →
  Contextual.handleConfirmation args now s =
    Contextual.executeConfirmation (id_val lastOp)
      (map_get (Contextual.pendingOperations s) (id_val lastOp)) confirm now s.
Proof.
  intros Hr Hid Hc Hlast. unfold Contextual.handleConfirmation.
  by rewrite Hr, Hid, Hc, Hlast.
Qed.

(** What [executeOperation] does to the pending map and the database. *)
Lemma plain_executeOperation_pending (name : string) (args : Js.Val) (s : Plain.Server) :
  Plain.pendingOperations (Plain.executeOperation name args s).2 = Plain.pendingOperations s.
Proof.
  unfold Plain.executeOperation. destruct (tool_of_name name); [|done].
  destruct (crud _ _ _) as [[?|?] ?]; done.
Qed.

Lemma plain_executeOperation_database (name : string) (args : Js.Val)
    (s : Plain.Server) (p : gmap string PendingOp) :
  Plain.database (Plain.executeOperation name args (Plain.with_pending s p)).2
  = Plain.database (Plain.executeOperation name args s).2.
Proof.
  unfold Plain.executeOperation. destruct (tool_of_name name); [|done]. simpl.
  destruct (crud _ _ _) as [[?|?] ?]; done.
Qed.

Lemma contextual_executeOperation_pending (name : string) (args : Js.Val)
    (s : Contextual.Server) :
  Contextual.pendingOperations (Contextual.executeOperation name args s).2
  = Contextual.pendingOperations s.
Proof.
  unfold Contextual.executeOperation. destruct (tool_of_name name); [|done].
  destruct (crud _ _ _) as [[?|?] ?]; done.
Qed.

Lemma contextual_executeOperation_memory (name : string) (args : Js.Val)
    (s : Contextual.Server) :
  Contextual.memory (Contextual.executeOperation name args s).2 = Contextual.memory s.
Proof.
  unfold Contextual.executeOperation. destruct (tool_of_name name); [|done].
  destruct (crud _ _ _) as [[?|?] ?]; done.
Qed.

Lemma contextual_executeOperation_database (name : string) (args : Js.Val)
    (s : Contextual.Server) (p : gmap string PendingOp) :
  Contextual.database (Contextual.executeOperation name args (Contextual.with_pending s p)).2
  = Contextual.database (Contextual.executeOperation name args s).2.
Proof.
  unfold Contextual.executeOperation. destruct (tool_of_name name); [|done]. simpl.
  destruct (crud _ _ _) as [[?|?] ?]; done.
Qed.

(** The pending map after [executeConfirmation]: the entry is gone whatever
    the execution did, also when it threw. *)
Lemma plain_executeConfirmation_pending (operationId : Js.Val) (pendingOp : option PendingOp)
    (shouldConfirm : bool) (s : Plain.Server) :
  Plain.pendingOperations (Plain.executeConfirmation operationId pendingOp shouldConfirm s).2
  = map_delete (Plain.pendingOperations s) operationId.
Proof.
  unfold Plain.executeConfirmation. destruct pendingOp as [op|]; [|done].
  destruct shouldConfirm; simpl; [|done].
  pose proof (plain_executeOperation_pending (op_name op) (op_args op)
                (Plain.with_pending s (map_delete (Plain.pendingOperations s) operationId))) as H.
  destruct (Plain.executeOperation _ _ _) as [[?|?] ?]; exact H.
Qed.

Lemma contextual_executeConfirmation_pending (operationId : Js.Val)
    (pendingOp : option PendingOp) (shouldConfirm : bool) (now : N) (s : Contextual.Server) :
  Contextual.pendingOperations
    (Contextual.executeConfirmation operationId pendingOp shouldConfirm now s).2
  = map_delete (Contextual.pendingOperations s) operationId.
Proof.
  unfold Contextual.executeConfirmation. destruct pendingOp as [op|]; [|done].
  destruct shouldConfirm; simpl; [|done].
  pose proof (contextual_executeOperation_pending (op_name op) (op_args op)
                (Contextual.with_pending s
                   (map_delete (Contextual.pendingOperations s) operationId))) as H.
  destruct (Contextual.executeOperation _ _ _) as [[?|?] ?]; [|exact H].
  destruct (Contextual.addInteraction_unchecked _ _ _ _ _ _) as [[?|?] ?]; exact H.
Qed.

(** The database after an affirmative [executeConfirmation] of the server
    with memory is the one that [executeOperation] leaves, also when the
    recording that follows throws. *)
Lemma contextual_executeConfirmation_database (operationId : Js.Val) (op : PendingOp)
    (now : N) (s : Contextual.Server) :
  Contextual.database (Contextual.executeConfirmation operationId (Some op) true now s).2
  = Contextual.database (Contextual.executeOperation (op_name op) (op_args op) s).2.
Proof.
  unfold Contextual.executeConfirmation. simpl.
  rewrite <- (contextual_executeOperation_database (op_name op) (op_args op) s
                (map_delete (Contextual.pendingOperations s) operationId)).
  destruct (Contextual.executeOperation _ _ _) as [[?|?] ?]; [|done].
  by destruct (Contextual.addInteraction_unchecked _ _ _ _ _ _) as [[?|?] ?].
Qed.

(** [executeConfirmation] in [index.js] reads the pending map for nothing
    but the deletion: its result and its database do not depend on it. *)
Lemma plain_executeConfirmation_with_pending (operationId : Js.Val)
    (pendingOp : option PendingOp) (shouldConfirm : bool) (s : Plain.Server)
    (p : gmap string PendingOp) :
  (Plain.executeConfirmation operationId pendingOp shouldConfirm (Plain.with_pending s p)).1
  = (Plain.executeConfirmation operationId pendingOp shouldConfirm s).1
  ∧ Plain.database
      (Plain.executeConfirmation operationId pendingOp shouldConfirm (Plain.with_pending s p)).2
    = Plain.database (Plain.executeConfirmation operationId pendingOp shouldConfirm s).2.
Proof.
  unfold Plain.executeConfirmation. destruct pendingOp as [op|]; [|done].
  destruct shouldConfirm; simpl; [|done].
  unfold Plain.executeOperation. destruct (tool_of_name (op_name op)); [|done]. simpl.
  destruct (crud _ _ _) as [[?|?] ?]; done.
Qed.

(** A reply that either server recognizes is not the empty string. *)
Lemma plain_recognized_nonempty (response : string) :
  classify Plain.confirmWords Plain.cancelWords (Js.trim (Js.toLowerCase response))
    ≠ Unrecognized → response ≠ "".
Proof. intros Hcl ->. by apply Hcl. Qed.

Lemma contextual_recognized_nonempty (response : string) :
  classify Contextual.confirmWords Contextual.cancelWords (Js.trim (Js.toLowerCase response))
    ≠ Unrecognized → response ≠ "".
Proof. intros Hcl ->. by apply Hcl. Qed.

End Confirmation.

(** ** The calls of the memory by the server *)

Section MemoryCalls.
Context {store : Collaborators}.

(** The recording does not throw when the operation makes [updateContext]
    read no property, or when there are arguments to read them from. *)
Lemma addInteraction_unchecked_total (sessionId operation : string) (params : Js.Val)
    (result : Contextual.Recorded) (now : N) (m : Contextual.Memory) :
  Contextual.first_param_read operation = None ∨ Js.nullish params = false →
  Contextual.addInteraction_unchecked sessionId operation params result now m
  = (Js.Return tt,
     Contextual.addInteraction sessionId operation (Js.fields params) result now m).
Proof.
  intros Hok. unfold Contextual.addInteraction_unchecked.
  destruct (Contextual.first_param_read operation) as [key|]; [|done].
  destruct Hok as [Hnone|Hnull]; [done|]. by rewrite Hnull.
Qed.

Lemma addInteraction_unchecked_throws (sessionId operation key : string) (params : Js.Val)
    (result : Contextual.Recorded) (now : N) (m : Contextual.Memory) :
  Contextual.first_param_read operation = Some key → Js.nullish params = true →
  (Contextual.addInteraction_unchecked sessionId operation params result now m).1
  = Js.Throw (Js.cannot_read params key).
Proof.
  intros Hkey Hnull. unfold Contextual.addInteraction_unchecked. by rewrite Hkey, Hnull.
Qed.

(** A recording changes nothing of the server but the memory. *)
Lemma remember_frame (sessionId operation : string) (params : Js.Val)
    (result : Contextual.Recorded) (now : N) (s : Contextual.Server) :
  (Contextual.remember sessionId operation params result now s).2
  = Contextual.with_memory s
      (Contextual.addInteraction_unchecked sessionId operation params result now
         (Contextual.memory s)).2
  ∧ (Contextual.remember sessionId operation params result now s).1
    = (Contextual.addInteraction_unchecked sessionId operation params result now
         (Contextual.memory s)).1.
Proof.
  unfold Contextual.remember.
  by destruct (Contextual.addInteraction_unchecked _ _ _ _ _ _) as [r m].
Qed.

Lemma remember_total (sessionId operation : string) (params : Js.Val)
    (result : Contextual.Recorded) (now : N) (s : Contextual.Server) :
  Contextual.first_param_read operation = None ∨ Js.nullish params = false →
  Contextual.remember sessionId operation params result now s
  = (Js.Return tt,
     Contextual.with_memory s
       (Contextual.addInteraction sessionId operation (Js.fields params) result now
          (Contextual.memory s))).
Proof.
  intros Hok. unfold Contextual.remember. by rewrite addInteraction_unchecked_total.
Qed.

End MemoryCalls.

(** ** The claims on the classification of free text *)

Section FreeText.
Context {store : Collaborators}.

(** C5. A free-text reply whose lowercased, trimmed text contains the letter
    y is classified as affirmative by both servers, whatever else it says,
    and the operation that the alias leads to is executed: the confirmation
    is [executeConfirmation] with [shouldConfirm = true], and the database it
    leaves is the one that [executeOperation] of the stored name and
    arguments yields. *)
Theorem letter_y_confirms (args : Js.Object) (response i : string) (op : PendingOp)
    (now : N) (sP : Plain.Server) (sC : Contextual.Server) :
  Js.prop args "response" = Js.Str response →
  Js.truthy (Js.prop args "operationId") = false →
  Js.includes (Js.trim (Js.toLowerCase response)) "y" = true →
  alias_target (Plain.pendingOperations sP) = Some (i, op) →
  alias_target (Contextual.pendingOperations sC) = Some (i, op) →
  (classify Plain.confirmWords Plain.cancelWords (Js.trim (Js.toLowerCase response)) = Affirm
   ∧ Plain.handleConfirmation args sP =
       Plain.executeConfirmation (Js.Str i) (Some op) true
         (Plain.with_pending sP (delete last_operation (Plain.pendingOperations sP)))
   ∧ Plain.database (Plain.handleConfirmation args sP).2 =
       Plain.database (Plain.executeOperation (op_name op) (op_args op) sP).2)
  ∧ (classify Contextual.confirmWords Contextual.cancelWords
       (Js.trim (Js.toLowerCase response)) = Affirm
     ∧ Contextual.handleConfirmation args now sC =
         Contextual.executeConfirmation (Js.Str i) (Some op) true now sC
     ∧ Contextual.database (Contextual.handleConfirmation args now sC).2 =
         Contextual.database (Contextual.executeOperation (op_name op) (op_args op) sC).2).
Proof.
  intros Hr Hid Hy HP HC.
  assert (response ≠ "") as Hne by (by apply (normalized_nonempty _ "y")).
  apply alias_target_Some in HP as (lastP & HlastP & HidP & HopP).
  apply alias_target_Some in HC as (lastC & HlastC & HidC & HopC).
  assert (classify Plain.confirmWords Plain.cancelWords
            (Js.trim (Js.toLowerCase response)) = Affirm) as HclP.
  { apply classify_affirm_first, (some_includes_elem _ _ "y"); [|done].
    unfold Plain.confirmWords. set_solver. }
  assert (classify Contextual.confirmWords Contextual.cancelWords
            (Js.trim (Js.toLowerCase response)) = Affirm) as HclC.
  { apply classify_affirm_first, (some_includes_elem _ _ "y"); [|done].
    unfold Contextual.confirmWords. set_solver. }
  assert (Plain.handleConfirmation args sP =
            Plain.executeConfirmation (Js.Str i) (Some op) true
              (Plain.with_pending sP (delete last_operation (Plain.pendingOperations sP))))
    as HhP.
  { rewrite (plain_free_text args response lastP sP) by done.
    simpl. rewrite HclP, HidP. simpl. by rewrite HopP. }
  assert (Contextual.handleConfirmation args now sC =
            Contextual.executeConfirmation (Js.Str i) (Some op) true now sC) as HhC.
  { rewrite (contextual_free_text args response lastC now sC) by done.
    simpl. rewrite HclC, HidC. simpl. by rewrite HopC. }
  split; (split; [done | split; [done|]]).
  - rewrite HhP. unfold Plain.executeConfirmation. simpl.
    rewrite <- (plain_executeOperation_database (op_name op) (op_args op) sP
                  (delete i (delete last_operation (Plain.pendingOperations sP)))).
    by destruct (Plain.executeOperation _ _ _) as [[?|?] ?].
  - rewrite HhC. apply contextual_executeConfirmation_database.
Qed.

End FreeText.


Lemma letter_y_confirms_witness :
  Plain.database
    (Plain.handleConfirmation [ ("response", Js.Str "definitely not") ] plain_queued).2
  = [ (create_list, groceries) ]
  ∧ Contextual.database
      (Contextual.handleConfirmation [ ("response", Js.Str "definitely not") ] 2000
         contextual_queued).2
    = [ (create_list, groceries) ].
Proof.
  destruct (letter_y_confirms (store := journal) [ ("response", Js.Str "definitely not") ]
              "definitely not" "op_1_1000" groceries_entry 2000 plain_queued contextual_queued)
    as [(_ & _ & HP) (_ & _ & HC)].
  - reflexivity.
  - reflexivity.
  - vm_compute. reflexivity.
  - vm_compute. reflexivity.
  - vm_compute. reflexivity.
  - rewrite HP, HC. split; vm_compute; reflexivity.
Defined.

(** ** The claims on the resolution of a confirmation *)

Section Resolution.
Context {store : Collaborators}.

(** C6. When the alias leads to a pending operation, confirming with a free
    text that is classified as affirmative does what confirming the id of
    that operation with [confirm = true] does.  In the server with memory the
    two calls of [handleConfirmation] are equal, result and state; in
    [index.js] they return the same result and leave the same database (the
    free-text call also drops the alias). *)
Theorem free_text_equals_explicit_id (argsT argsI : Js.Object) (response i : string)
    (op : PendingOp) (now : N) (sP : Plain.Server) (sC : Contextual.Server) :
  Js.prop argsT "response" = Js.Str response →
  Js.truthy (Js.prop argsT "operationId") = false →
  classify Plain.confirmWords Plain.cancelWords (Js.trim (Js.toLowerCase response)) = Affirm →
  classify Contextual.confirmWords Contextual.cancelWords
    (Js.trim (Js.toLowerCase response)) = Affirm →
  Js.prop argsI "operationId" = Js.Str i → i ≠ "" →
  Js.prop argsI "confirm" = Js.Bool true →
  alias_target (Plain.pendingOperations sP) = Some (i, op) →
  alias_target (Contextual.pendingOperations sC) = Some (i, op) →
  Contextual.handleConfirmation argsT now sC = Contextual.handleConfirmation argsI now sC
  ∧ Contextual.database (Contextual.handleConfirmation argsT now sC).2
    = Contextual.database (Contextual.executeOperation (op_name op) (op_args op) sC).2
  ∧ (Plain.handleConfirmation argsT sP).1 = (Plain.handleConfirmation argsI sP).1
  ∧ Plain.database (Plain.handleConfirmation argsT sP).2
    = Plain.database (Plain.handleConfirmation argsI sP).2.
Proof.
  intros Hr Hid HclP HclC HidI Hne Hconf HP HC.
  assert (response ≠ "") as Hresp.
  { apply plain_recognized_nonempty. by rewrite HclP. }
  apply alias_target_Some in HP as (lastP & HlastP & HidP & HopP).
  apply alias_target_Some in HC as (lastC & HlastC & HidC & HopC).
  rewrite (contextual_free_text argsT response lastC now sC) by done.
  rewrite (contextual_explicit_id argsI i now sC) by done.
  rewrite (plain_free_text argsT response lastP sP) by done.
  rewrite (plain_explicit_id argsI i sP) by done.
  cbv zeta. rewrite HclP, HclC, HidP, HidC, Hconf. unfold map_get.
  rewrite HopP, HopC. change (Js.truthy (Js.Bool true)) with true. cbv iota.
  split; [done|]. split.
  - apply contextual_executeConfirmation_database.
  - apply plain_executeConfirmation_with_pending.
Qed.

End Resolution.

Lemma free_text_equals_explicit_id_witness :
  Contextual.handleConfirmation [ ("response", Js.Str "yes") ] 2000 contextual_queued
  = Contextual.handleConfirmation
      [ ("operationId", Js.Str "op_1_1000"); ("confirm", Js.Bool true) ] 2000 contextual_queued.
Proof.
  apply (free_text_equals_explicit_id (store := journal) [ ("response", Js.Str "yes") ]
           [ ("operationId", Js.Str "op_1_1000"); ("confirm", Js.Bool true) ]
           "yes" "op_1_1000" groceries_entry 2000 plain_queued contextual_queued).
  - reflexivity.
  - reflexivity.
  - vm_compute. reflexivity.
  - vm_compute. reflexivity.
  - reflexivity.
  - discriminate.
  - reflexivity.
  - vm_compute. reflexivity.
  - vm_compute. reflexivity.
Defined.


(** ** The claim on a second confirmation *)

Section SecondConfirmation.
Context {store : Collaborators}.
Context (contextText : Contextual.ContextSummary -> list string -> string).

(** The call of [confirm_operation] with arguments that are not [null] or
    [undefined]: the recording of this tool name reads no property of them,
    so it does not throw. *)
Lemma contextual_call_confirm (args meta : Js.Val) (clock : Clock) (now : N)
    (s : Contextual.Server) :
  Js.nullish args = false →
  Contextual.callTool contextText
    {| Contextual.name := "confirm_operation"; Contextual.arguments := args;
       Contextual.meta := meta |} clock now s
  = match Contextual.handleConfirmation (Js.fields args) now s with
    | (Js.Return result, s1) =>
        (Js.Return result,
         Contextual.with_memory s1
           (Contextual.addInteraction "default" "confirm_operation" (Js.fields args)
              (Contextual.Ok result) now (Contextual.memory s1)))
    | (Js.Throw e, s1) =>
        (Js.Throw (Contextual.rethrow "confirm_operation" e),
         Contextual.with_memory s1
           (Contextual.addInteraction "default" "confirm_operation" (Js.fields args)
              (Contextual.Failed (Js.message e)) now (Contextual.memory s1)))
    end.
Proof.
  intros Hargs. unfold Contextual.callTool, Contextual.attempt, Contextual.recover. simpl.
  rewrite Hargs.
  by destruct (Contextual.handleConfirmation (Js.fields args) now s) as [[result|e] s1].
Qed.

(** C1, what the code does at a second confirmation. When the entry of an
    operation is gone and the alias still names it, a confirmation by the id
    fails with [InvalidRequest], and a confirmation through the alias (by
    the flag or by free text) reads [.name] of [undefined]: the handler
    reports an [InternalError].  None of the three touches the database. *)
Theorem second_confirmation_through_alias (argsI argsF argsT : Js.Object)
    (response i : string) (flag : bool) (lastOp : PendingOp) (meta : Js.Val)
    (clock : Clock) (now : N) (s : Contextual.Server) :
  Contextual.pendingOperations s !! last_operation = Some lastOp →
  op_id lastOp = Some i → i ≠ "" →
  Contextual.pendingOperations s !! i = None →
  Js.prop argsI "operationId" = Js.Str i →
  Js.truthy (Js.prop argsF "response") = false →
  Js.truthy (Js.prop argsF "operationId") = false →
  Js.prop argsF "confirm" = Js.Bool flag →
  Js.prop argsT "response" = Js.Str response →
  Js.truthy (Js.prop argsT "operationId") = false →
  classify Contextual.confirmWords Contextual.cancelWords (Js.trim (Js.toLowerCase response))
    ≠ Unrecognized →
  let confirm args :=
    Contextual.callTool contextText
      {| Contextual.name := "confirm_operation"; Contextual.arguments := Js.Obj args;
         Contextual.meta := meta |} clock now s in
  let type_error :=
    Js.McpError Js.InternalError
      "Error executing confirm_operation: Cannot read properties of undefined (reading 'name')" in
  (confirm argsI).1
    = Js.Throw (Js.McpError Js.InvalidRequest (Contextual.not_found_message (Js.Str i)))
  ∧ (confirm argsF).1 = Js.Throw type_error
  ∧ (confirm argsT).1 = Js.Throw type_error
  ∧ Contextual.database (confirm argsI).2 = Contextual.database s
  ∧ Contextual.database (confirm argsF).2 = Contextual.database s
  ∧ Contextual.database (confirm argsT).2 = Contextual.database s.
Proof.
  intros Hlast Hid Hne Hgone HidI HrF HidF Hflag HrT HidT Hcl. cbv beta zeta.
  pose proof (contextual_recognized_nonempty _ Hcl) as Hresp.
  assert (id_val lastOp = Js.Str i) as Hval by (unfold id_val; by rewrite Hid).
  rewrite !contextual_call_confirm by done. simpl Js.fields.
  rewrite (contextual_explicit_id argsI i now s) by done.
  rewrite (contextual_flag argsF flag lastOp now s) by done.
  rewrite (contextual_free_text argsT response lastOp now s) by done.
  cbv zeta. rewrite Hval. unfold map_get. rewrite Hgone.
  destruct (classify Contextual.confirmWords _ _); [| |done]; repeat split; reflexivity.
Qed.

End SecondConfirmation.

Lemma second_confirmation_through_alias_witness :
  (Contextual.callTool plainContextText (call "confirm_operation" [ ("confirm", Js.Bool true) ])
     (tick 3000) 3000 contextual_confirmed).1
  = Js.Throw
      (Js.McpError Js.InternalError
         "Error executing confirm_operation: Cannot read properties of undefined (reading 'name')")
  ∧ (Contextual.callTool plainContextText (call "confirm_operation" [ ("response", Js.Str "yes") ])
       (tick 3000) 3000 contextual_confirmed).1
    = Js.Throw
        (Js.McpError Js.InternalError
           "Error executing confirm_operation: Cannot read properties of undefined (reading 'name')").
Proof.
  destruct (second_confirmation_through_alias (store := journal) plainContextText
              [ ("operationId", Js.Str "op_1_1000"); ("confirm", Js.Bool true) ]
              [ ("confirm", Js.Bool true) ] [ ("response", Js.Str "yes") ]
              "yes" "op_1_1000" true groceries_alias Js.Undefined (tick 3000) 3000
              contextual_confirmed)
    as (_ & HF & HT & _).
  - vm_compute. reflexivity.
  - reflexivity.
  - discriminate.
  - vm_compute. reflexivity.
  - reflexivity.
  - reflexivity.
  - reflexivity.
  - reflexivity.
  - reflexivity.
  - reflexivity.
  - vm_compute. discriminate.
  - unfold call. split; [exact HF | exact HT].
Defined.

(** Given the key of the alias as [operationId], the server resolves the
    alias record itself: the operation runs and its real entry stays pending,
    so that a confirmation by the real id runs it once more. *)
Example alias_key_as_id_runs_twice :
  let alias_args := [ ("operationId", Js.Str "last_operation"); ("confirm", Js.Bool true) ] in
  let id_args := [ ("operationId", Js.Str "op_1_1000"); ("confirm", Js.Bool true) ] in
  let once := (Contextual.handleConfirmation alias_args 2000 contextual_queued).2 in
  let twice := (Contextual.handleConfirmation id_args 3000 once).2 in
  Contextual.database once = [ (create_list, groceries) ]
  ∧ Contextual.database twice = [ (create_list, groceries); (create_list, groceries) ].
Proof. split; vm_compute; reflexivity. Qed.

(** ** The claim on the expiry sweep *)

Section Sweep.
Context {store : Collaborators}.

Lemma expired_iff (now : N) (operation : PendingOp) :
  Plain.expired now operation = true
  ↔ (Z.of_N now - Z.of_N (op_timestamp operation) > 5 * 60 * 1000)%Z.
Proof. unfold Plain.expired, Plain.expireTime. apply bool_decide_eq_true. Qed.

(** The sweep keeps exactly the entries that are not expired, under any key. *)
Lemma sweep_lookup (now : N) (s : Plain.Server) (k : string) :
  Plain.pendingOperations (Plain.cleanupExpiredOperations now s) !! k
  = op ← Plain.pendingOperations s !! k; if Plain.expired now op then None else Some op.
Proof.
  unfold Plain.cleanupExpiredOperations. simpl. rewrite map_lookup_filter.
  destruct (Plain.pendingOperations s !! k) as [op|]; simpl; [|done].
  destruct (Plain.expired now op) eqn:Hexp; case_guard; simpl in *; congruence.
Qed.

(** C8, as amended. The sweep of [index.js] removes every entry of the
    pending map whose age [now - timestamp] exceeds five minutes, the entry
    under the alias included (it carries a timestamp of its own), and keeps
    the others; a confirmation by a swept id then fails with
    [InvalidRequest] not-found, though the id was never resolved. *)
Theorem sweep_removes_expired (args : Js.Object) (i : string) (op : PendingOp) (now : N)
    (s : Plain.Server) :
  Plain.pendingOperations s !! i = Some op →
  (Z.of_N now - Z.of_N (op_timestamp op) > 5 * 60 * 1000)%Z →
  Js.prop args "operationId" = Js.Str i → i ≠ "" →
  let swept := Plain.cleanupExpiredOperations now s in
  Plain.pendingOperations swept !! i = None
  ∧ Plain.handleConfirmation args swept
    = (Js.Throw (Js.McpError Js.InvalidRequest (Plain.not_found_message (Js.Str i))), swept)
  ∧ (∀ k old, Plain.pendingOperations s !! k = Some old →
       (Z.of_N now - Z.of_N (op_timestamp old) > 5 * 60 * 1000)%Z →
       Plain.pendingOperations swept !! k = None)
  ∧ (∀ k young, Plain.pendingOperations s !! k = Some young →
       ¬ (Z.of_N now - Z.of_N (op_timestamp young) > 5 * 60 * 1000)%Z →
       Plain.pendingOperations swept !! k = Some young)
  ∧ (∀ lastOp, Plain.pendingOperations s !! last_operation = Some lastOp →
       (Z.of_N now - Z.of_N (op_timestamp lastOp) > 5 * 60 * 1000)%Z →
       Plain.pendingOperations swept !! last_operation = None)
  ∧ Plain.database swept = Plain.database s.
Proof.
  intros Hop Hage Hid Hne swept.
  assert (∀ k old, Plain.pendingOperations s !! k = Some old →
            (Z.of_N now - Z.of_N (op_timestamp old) > 5 * 60 * 1000)%Z →
            Plain.pendingOperations swept !! k = None) as Hold.
  { intros k old Hk Hk_age. unfold swept. rewrite sweep_lookup, Hk. simpl.
    apply expired_iff in Hk_age. by rewrite Hk_age. }
  assert (Plain.pendingOperations swept !! i = None) as Hgone by eauto.
  split; [done|]. split; [|split; [done|split; [|split; [|done]]]].
  - rewrite (plain_explicit_id args i swept) by done. by rewrite Hgone.
  - intros k young Hk Hk_age. unfold swept. rewrite sweep_lookup, Hk. simpl.
    destruct (Plain.expired now young) eqn:Hexp; [|done].
    by apply expired_iff in Hexp.
  - intros lastOp. apply Hold.
Qed.

End Sweep.

(** One sweep, 300001 ms after the write call, removes the alias. *)
Lemma sweep_removes_alias :
  Plain.pendingOperations plain_queued !! last_operation = Some groceries_alias
  ∧ Plain.pendingOperations (Plain.cleanupExpiredOperations 301001 plain_queued)
      !! last_operation = None.
Proof. split; vm_compute; reflexivity. Qed.

Lemma sweep_removes_expired_witness :
  Plain.handleConfirmation [ ("operationId", Js.Str "op_1_1000"); ("confirm", Js.Bool true) ]
    (Plain.cleanupExpiredOperations 301001 plain_queued)
  = (Js.Throw (Js.McpError Js.InvalidRequest
                 (Plain.not_found_message (Js.Str "op_1_1000"))),
     Plain.cleanupExpiredOperations 301001 plain_queued).
Proof.
  destruct (sweep_removes_expired (store := journal)
              [ ("operationId", Js.Str "op_1_1000"); ("confirm", Js.Bool true) ]
              "op_1_1000" groceries_entry 301001 plain_queued) as (_ & Hconfirm & _).
  - vm_compute. reflexivity.
  - vm_compute. reflexivity.
  - reflexivity.
  - discriminate.
  - exact Hconfirm.
Defined.

(** ** The claims on the contextual memory *)

Section MemoryLog.
Local Open Scope nat_scope.

Lemma record_length (maxEntries : nat) (interaction : Contextual.Interaction)
    (log : list Contextual.Interaction) :
  List.length (Contextual.record maxEntries interaction log) ≤ maxEntries.
Proof.
  unfold Contextual.record.
  destruct (Nat.ltb_spec maxEntries (List.length (interaction :: log))) as [Hlt|Hge].
  - rewrite length_take. lia.
  - exact Hge.
Qed.

Lemma record_room (maxEntries : nat) (interaction : Contextual.Interaction)
    (log : list Contextual.Interaction) :
  List.length log < maxEntries →
  Contextual.record maxEntries interaction log = interaction :: log.
Proof.
  intros Hlt. unfold Contextual.record.
  destruct (Nat.ltb_spec maxEntries (List.length (interaction :: log))) as [Hlt'|_]; [|done].
  simpl in Hlt'. lia.
Qed.

Lemma record_full (maxEntries : nat) (interaction : Contextual.Interaction)
    (log : list Contextual.Interaction) :
  0 < maxEntries → List.length log = maxEntries →
  Contextual.record maxEntries interaction log = interaction :: removelast log.
Proof.
  intros Hpos Hfull. unfold Contextual.record.
  destruct (Nat.ltb_spec maxEntries (List.length (interaction :: log))) as [_|Hge];
    [|simpl in Hge; lia].
  destruct maxEntries as [|n]; [lia|]. simpl. f_equal.
  rewrite removelast_firstn_len, Hfull. done.
Qed.

Lemma updateContext_interactions (session : Contextual.Session) (operation : string)
    (params : Js.Object) (result : Contextual.Recorded) (now : N) :
  Contextual.interactions (Contextual.updateContext session operation params result now)
  = Contextual.interactions session.
Proof. done. Qed.

(** The log of the session after [addInteraction]. *)
Lemma addInteraction_log (sessionId operation : string) (params : Js.Object)
    (result : Contextual.Recorded) (now : N) (m : Contextual.Memory) :
  Contextual.log_of (Contextual.addInteraction sessionId operation params result now m) sessionId
  = Contextual.record (Contextual.maxEntries m)
      (Contextual.interaction_of operation params result now) (Contextual.log_of m sessionId).
Proof.
  unfold Contextual.log_of, Contextual.addInteraction, Contextual.getSession. simpl.
  rewrite lookup_insert_eq. simpl.
  by destruct (Contextual.sessions m !! sessionId).
Qed.

Lemma addInteraction_other (sessionId other operation : string) (params : Js.Object)
    (result : Contextual.Recorded) (now : N) (m : Contextual.Memory) :
  sessionId ≠ other →
  Contextual.sessions (Contextual.addInteraction sessionId operation params result now m)
    !! other = Contextual.sessions m !! other.
Proof.
  intros Hne. unfold Contextual.addInteraction, Contextual.getSession. simpl.
  by rewrite !lookup_insert_ne.
Qed.

Lemma addInteraction_bounded (sessionId operation : string) (params : Js.Object)
    (result : Contextual.Recorded) (now : N) (m : Contextual.Memory) :
  (∀ other, List.length (Contextual.log_of m other) ≤ Contextual.maxEntries m) →
  ∀ other,
    List.length (Contextual.log_of
              (Contextual.addInteraction sessionId operation params result now m) other)
    ≤ Contextual.maxEntries m.
Proof.
  intros Hinv other. destruct (decide (sessionId = other)) as [<-|Hne].
  - rewrite addInteraction_log. apply record_length.
  - unfold Contextual.log_of. rewrite addInteraction_other by done. apply Hinv.
Qed.

(** C9. The interaction log of a session never holds more than
    [maxEntries] interactions: the bound holds after every sequence of
    recordings on a memory whose logs respect it (an empty memory does), and
    a recording establishes it for its session whatever the log was.  A
    recording on a full log puts the new interaction at the front and drops
    the last, oldest one; the others keep their order. *)
Theorem interaction_log_bounded (recordings : list Contextual.Recording)
    (sessionId operation : string) (params : Js.Object) (result : Contextual.Recorded)
    (now : N) (m : Contextual.Memory) :
  0 < Contextual.maxEntries m →
  (∀ other, List.length (Contextual.log_of m other) ≤ Contextual.maxEntries m) →
  let recorded := Contextual.addInteraction sessionId operation params result now m in
  (∀ other, List.length (Contextual.log_of (Contextual.recordAll recordings m) other)
            ≤ Contextual.maxEntries m)
  ∧ (∀ any : Contextual.Memory,
       List.length (Contextual.log_of
                 (Contextual.addInteraction sessionId operation params result now any) sessionId)
       ≤ Contextual.maxEntries any)
  ∧ (List.length (Contextual.log_of m sessionId) = Contextual.maxEntries m →
     Contextual.log_of recorded sessionId
     = Contextual.interaction_of operation params result now
       :: removelast (Contextual.log_of m sessionId))
  ∧ (List.length (Contextual.log_of m sessionId) < Contextual.maxEntries m →
     Contextual.log_of recorded sessionId
     = Contextual.interaction_of operation params result now :: Contextual.log_of m sessionId).
Proof.
  intros Hpos Hinv recorded. split; [|split; [|split]].
  - clear recorded. revert m Hpos Hinv.
    induction recordings as [|r recordings IH]; intros m Hpos Hinv; [exact Hinv|].
    intros other. unfold Contextual.recordAll in *. simpl.
    exact (IH (Contextual.addInteraction (Contextual.rec_session r)
                 (Contextual.rec_operation r) (Contextual.rec_params r)
                 (Contextual.rec_result r) (Contextual.rec_now r) m)
              Hpos (addInteraction_bounded _ _ _ _ _ m Hinv) other).
  - intros any. rewrite addInteraction_log. apply record_length.
  - intros Hfull. unfold recorded. rewrite addInteraction_log. by apply record_full.
  - intros Hroom. unfold recorded. rewrite addInteraction_log. by apply record_room.
Qed.

End MemoryLog.

Lemma interaction_log_bounded_witness :
  Contextual.log_of
    (Contextual.addInteraction "default" "get_items" [] (Contextual.Ok (Content "done")) 3
       (Contextual.recordAll [ recording "get_events" 1; recording "get_lists" 2 ] small_memory))
    "default"
  = [ Contextual.interaction_of "get_items" [] (Contextual.Ok (Content "done")) 3;
      Contextual.interaction_of "get_lists" [] (Contextual.Ok (Content "done")) 2 ].
Proof.
  assert (0 < Contextual.maxEntries small_memory)%nat as Hpos by (simpl; lia).
  assert (∀ other, (List.length (Contextual.log_of small_memory other)
                    ≤ Contextual.maxEntries small_memory)%nat) as Hempty.
  { intros other. unfold Contextual.log_of. simpl. rewrite lookup_empty. simpl. lia. }
  destruct (interaction_log_bounded [ recording "get_events" 1; recording "get_lists" 2 ]
              "default" "get_items" [] (Contextual.Ok (Content "done")) 3 small_memory
              Hpos Hempty) as (Hbound & _).
  destruct (interaction_log_bounded [] "default" "get_items" []
              (Contextual.Ok (Content "done")) 3
              (Contextual.recordAll [ recording "get_events" 1; recording "get_lists" 2 ]
                 small_memory) Hpos Hbound) as (_ & _ & Hfull & _).
  rewrite Hfull; vm_compute; reflexivity.
Defined.

(** ** The handler of the server with memory *)

Section Handler.
Context {store : Collaborators}.
Context (contextText : Contextual.ContextSummary -> list string -> string).





(** The log of the session after a recording by the server, whether the
    recording returns or throws. *)
Lemma addInteraction_unchecked_log (sessionId operation : string) (params : Js.Val)
    (result : Contextual.Recorded) (now : N) (m : Contextual.Memory) :
  Contextual.log_of
    (Contextual.addInteraction_unchecked sessionId operation params result now m).2 sessionId
  = Contextual.record (Contextual.maxEntries m)
      (Contextual.interaction_of operation (Js.fields params) result now)
      (Contextual.log_of m sessionId).
Proof.
  unfold Contextual.addInteraction_unchecked.
  destruct (Contextual.first_param_read operation) as [key|]; [|apply addInteraction_log].
  destruct (Js.nullish params); [|apply addInteraction_log].
  unfold Contextual.log_of, Contextual.getSession. simpl. rewrite lookup_insert_eq. simpl.
  by destruct (Contextual.sessions m !! sessionId).
Qed.

Lemma addInteraction_unchecked_other (sessionId other operation : string) (params : Js.Val)
    (result : Contextual.Recorded) (now : N) (m : Contextual.Memory) :
  sessionId ≠ other →
  Contextual.sessions
    (Contextual.addInteraction_unchecked sessionId operation params result now m).2 !! other
  = Contextual.sessions m !! other.
Proof.
  intros Hne. unfold Contextual.addInteraction_unchecked.
  destruct (Contextual.first_param_read operation) as [key|];
    [|by apply addInteraction_other].
  destruct (Js.nullish params); [|by apply addInteraction_other].
  unfold Contextual.getSession. simpl. by rewrite !lookup_insert_ne.
Qed.

Lemma addInteraction_unchecked_maxEntries (sessionId operation : string) (params : Js.Val)
    (result : Contextual.Recorded) (now : N) (m : Contextual.Memory) :
  Contextual.maxEntries
    (Contextual.addInteraction_unchecked sessionId operation params result now m).2
  = Contextual.maxEntries m.
Proof.
  unfold Contextual.addInteraction_unchecked.
  destruct (Contextual.first_param_read operation) as [key|]; [|done].
  by destruct (Js.nullish params).
Qed.

Lemma remember_workflow (sessionId operation : string) (params : Js.Val)
    (result : Contextual.Recorded) (now : N) (s : Contextual.Server) :
  same_workflow s (Contextual.remember sessionId operation params result now s).2.
Proof.
  unfold Contextual.remember.
  by destruct (Contextual.addInteraction_unchecked _ _ _ _ _ _) as [r m].
Qed.

Lemma recover_workflow (request : Contextual.Request) (e : Js.Exn) (now : N)
    (s : Contextual.Server) :
  same_workflow s (Contextual.recover request e now s).2.
Proof.
  unfold Contextual.recover.
  pose proof (remember_workflow (Contextual.getSessionId request) (Contextual.name request)
                (Contextual.arguments request) (Contextual.Failed (Js.message e)) now s) as H.
  by destruct (Contextual.remember _ _ _ _ _ _) as [[?|?] s'].
Qed.

Lemma handleGetContext_workflow (sessionId : string) (args : Js.Val) (now : N)
    (s : Contextual.Server) :
  same_workflow s (Contextual.handleGetContext contextText sessionId args now s).2.
Proof.
  unfold Contextual.handleGetContext.
  destruct (Contextual.getConversationContext _ _ _ _) as [[context|e] m1]; [|done].
  destruct (Js.nullish args); [done|].
  by destruct (if _ : bool then _ else _) as [suggestions m2].
Qed.

(** The state that [requestConfirmation] leaves, whether the message could
    be built or not. *)
Lemma contextual_requestConfirmation_state (operationName : string) (args : Js.Val)
    (clock : Clock) (s : Contextual.Server) :
  let operationId := operation_id (Contextual.operationCounter s + 1) (now_id clock) in
  (Contextual.requestConfirmation operationName args clock s).2
  = {| Contextual.pendingOperations :=
         <[last_operation := {| op_id := Some operationId; op_name := operationName;
                                op_args := args; op_timestamp := now_alias clock |}]>
           (<[operationId := {| op_id := None; op_name := operationName; op_args := args;
                                op_timestamp := now_entry clock |}]>
              (Contextual.pendingOperations s));
       Contextual.operationCounter := (Contextual.operationCounter s + 1)%N;
       Contextual.memory := Contextual.memory s;
       Contextual.database := Contextual.database s |}.
Proof.
  unfold Contextual.requestConfirmation.
  by destruct (generateConfirmationMessage operationName args).
Qed.

Lemma contextual_executeOperation_counter (name : string) (args : Js.Val)
    (s : Contextual.Server) :
  Contextual.operationCounter (Contextual.executeOperation name args s).2
  = Contextual.operationCounter s.
Proof.
  unfold Contextual.executeOperation. destruct (tool_of_name name); [|done].
  destruct (crud _ _ _) as [[?|?] ?]; done.
Qed.

Lemma contextual_executeConfirmation_counter (operationId : Js.Val)
    (pendingOp : option PendingOp) (shouldConfirm : bool) (now : N) (s : Contextual.Server) :
  Contextual.operationCounter
    (Contextual.executeConfirmation operationId pendingOp shouldConfirm now s).2
  = Contextual.operationCounter s.
Proof.
  unfold Contextual.executeConfirmation. destruct pendingOp as [op|]; [|done].
  destruct shouldConfirm; simpl; [|done].
  pose proof (contextual_executeOperation_counter (op_name op) (op_args op)
                (Contextual.with_pending s
                   (map_delete (Contextual.pendingOperations s) operationId))) as Hc.
  destruct (Contextual.executeOperation _ _ _) as [[?|?] ?]; [|exact Hc].
  destruct (Contextual.addInteraction_unchecked _ _ _ _ _ _) as [[?|?] ?]; exact Hc.
Qed.

(** A confirmation deletes at most one key and leaves the counter alone. *)
Lemma contextual_handleConfirmation_pending (args : Js.Object) (now : N)
    (s : Contextual.Server) :
  (∃ key, Contextual.pendingOperations (Contextual.handleConfirmation args now s).2
          = map_delete (Contextual.pendingOperations s) key)
  ∧ Contextual.operationCounter (Contextual.handleConfirmation args now s).2
    = Contextual.operationCounter s.
Proof.
  assert (∀ key pendingOp shouldConfirm,
            (∃ key', Contextual.pendingOperations
                       (Contextual.executeConfirmation key pendingOp shouldConfirm now s).2
                     = map_delete (Contextual.pendingOperations s) key')
            ∧ Contextual.operationCounter
                (Contextual.executeConfirmation key pendingOp shouldConfirm now s).2
              = Contextual.operationCounter s) as Hexec.
  { intros key pendingOp shouldConfirm. split.
    - exists key. apply contextual_executeConfirmation_pending.
    - apply contextual_executeConfirmation_counter. }
  assert ((∃ key, Contextual.pendingOperations s
                  = map_delete (Contextual.pendingOperations s) key)
          ∧ Contextual.operationCounter s = Contextual.operationCounter s) as Hsame.
  { split; [by exists Js.Undefined | done]. }
  unfold Contextual.handleConfirmation.
  destruct (Js.truthy (Js.prop args "response") && negb (Js.truthy (Js.prop args "operationId"))).
  - destruct (Contextual.pendingOperations s !! last_operation) as [lastOp|]; [|done].
    destruct (Js.prop args "response"); try done.
    destruct (classify _ _ _); [apply Hexec | apply Hexec | done].
  - destruct (Js.truthy (Js.prop args "operationId")).
    + destruct (map_get _ _); [apply Hexec | done].
    + destruct (Js.prop args "confirm"); try done.
      destruct (Contextual.pendingOperations s !! last_operation); [apply Hexec | done].
Qed.


(** What a tool call does to the pending map and the counter: it deletes at
    most one key, or it is a [requestConfirmation]. *)
Lemma contextual_callTool_workflow (request : Contextual.Request) (clock : Clock) (now : N)
    (s : Contextual.Server) :
  let after := (Contextual.callTool contextText request clock now s).2 in
  ((∃ key, Contextual.pendingOperations after
           = map_delete (Contextual.pendingOperations s) key)
   ∧ Contextual.operationCounter after = Contextual.operationCounter s)
  ∨ same_workflow
      (Contextual.requestConfirmation (Contextual.name request) (Contextual.arguments request)
         clock s).2 after.
Proof.
  assert (∀ s1 : Contextual.Server,
            ((∃ key, Contextual.pendingOperations s1
                     = map_delete (Contextual.pendingOperations s) key)
             ∧ Contextual.operationCounter s1 = Contextual.operationCounter s) →
            ∀ s2, same_workflow s1 s2 →
            ((∃ key, Contextual.pendingOperations s2
                     = map_delete (Contextual.pendingOperations s) key)
             ∧ Contextual.operationCounter s2 = Contextual.operationCounter s)) as Hstep.
  { intros s1 [[key Hkey] Hcounter] s2 (Hp & Hc & _). rewrite Hp, Hc. eauto. }
  assert ((∃ key, Contextual.pendingOperations s
                  = map_delete (Contextual.pendingOperations s) key)
          ∧ Contextual.operationCounter s = Contextual.operationCounter s) as Hsame.
  { split; [by exists Js.Undefined | done]. }
  assert (∀ (r : Js.Completion ToolResult) (s1 : Contextual.Server),
            ((∃ key, Contextual.pendingOperations s1
                     = map_delete (Contextual.pendingOperations s) key)
             ∧ Contextual.operationCounter s1 = Contextual.operationCounter s) →
            ((∃ key, Contextual.pendingOperations
                       (match r with
                        | Js.Return result => (Js.Return result, s1)
                        | Js.Throw e => Contextual.recover request e now s1
                        end).2
                     = map_delete (Contextual.pendingOperations s) key)
             ∧ Contextual.operationCounter
                 (match r with
                  | Js.Return result => (Js.Return result, s1)
                  | Js.Throw e => Contextual.recover request e now s1
                  end).2 = Contextual.operationCounter s)) as Hcatch.
  { intros [result|e] s1 Hs1; [exact Hs1|].
    apply (Hstep s1 Hs1), recover_workflow. }
  intros after. unfold after, Contextual.callTool, Contextual.attempt.
  destruct (String.eqb (Contextual.name request) "get_context").
  { left.
    pose proof (handleGetContext_workflow (Contextual.getSessionId request)
                  (Contextual.arguments request) now s) as Hg.
    destruct (Contextual.handleGetContext _ _ _ _ _) as [r s1].
    apply (Hcatch r s1), (Hstep s Hsame), Hg. }
  destruct (String.eqb (Contextual.name request) "confirm_operation").
  { left. destruct (Js.nullish (Contextual.arguments request)).
    { apply (Hcatch (Js.Throw _) s Hsame). }
    pose proof (contextual_handleConfirmation_pending
                  (Js.fields (Contextual.arguments request)) now s) as Hc.
    destruct (Contextual.handleConfirmation _ _ _) as [[result|e] s1]; simpl in Hc.
    - pose proof (remember_workflow (Contextual.getSessionId request) "confirm_operation"
                    (Contextual.arguments request) (Contextual.Ok result) now s1) as Hr.
      destruct (Contextual.remember _ _ _ _ _ _) as [[?|e] s2]; simpl in Hr.
      + apply (Hcatch (Js.Return result) s2), (Hstep s1 Hc), Hr.
      + apply (Hcatch (Js.Throw e) s2), (Hstep s1 Hc), Hr.
    - apply (Hcatch (Js.Throw e) s1 Hc). }
  destruct (Contextual.isReadOperation (Contextual.name request)).
  { left.
    pose proof (contextual_executeOperation_pending (Contextual.name request)
                  (Contextual.arguments request) s) as Hp.
    pose proof (contextual_executeOperation_counter (Contextual.name request)
                  (Contextual.arguments request) s) as Hc.
    destruct (Contextual.executeOperation _ _ _) as [[result|e] s1]; simpl in Hp, Hc.
    - assert ((∃ key, Contextual.pendingOperations s1
                      = map_delete (Contextual.pendingOperations s) key)
              ∧ Contextual.operationCounter s1 = Contextual.operationCounter s) as Hs1.
      { rewrite Hp, Hc. exact Hsame. }
      pose proof (remember_workflow (Contextual.getSessionId request) (Contextual.name request)
                    (Contextual.arguments request) (Contextual.Ok result) now s1) as Hr.
      destruct (Contextual.remember _ _ _ _ _ _) as [[?|e] s2]; simpl in Hr.
      + destruct (Contextual.enhanceResultWithContext _ _ _ _ _ _) as [enhanced m'].
        apply (Hcatch (Js.Return enhanced)), (Hstep s1 Hs1).
        destruct Hr as (? & ? & ?). by repeat split.
      + apply (Hcatch (Js.Throw e) s2), (Hstep s1 Hs1), Hr.
    - apply (Hcatch (Js.Throw e) s1). rewrite Hp, Hc. exact Hsame. }
  right.
  destruct (Contextual.requestConfirmation _ _ _ _) as [[result|e] s1]; simpl.
  - done.
  - apply recover_workflow.
Qed.






End Handler.

(** ** The claim on write calls *)

Section WriteCalls.
Context {store : Collaborators}.
Context (contextText : Contextual.ContextSummary -> list string -> string).


End WriteCalls.



(** ** The claim on the session *)

Section SharedSession.
Context {store : Collaborators}.
Context (contextText : Contextual.ContextSummary -> list string -> string).

Lemma others_refl (m : Contextual.Memory) : Contextual.others_untouched m m.
Proof. by intros sessionId _. Qed.

Lemma others_trans (m1 m2 m3 : Contextual.Memory) :
  Contextual.others_untouched m1 m2 → Contextual.others_untouched m2 m3 →
  Contextual.others_untouched m1 m3.
Proof. intros H12 H23 sessionId Hne. by rewrite H23, H12. Qed.

Lemma others_getSession (now : N) (m : Contextual.Memory) :
  Contextual.others_untouched m (Contextual.getSession "default" now m).2.
Proof. intros sessionId Hne. simpl. by rewrite lookup_insert_ne. Qed.

Lemma others_addInteraction_unchecked (operation : string) (params : Js.Val)
    (result : Contextual.Recorded) (now : N) (m : Contextual.Memory) :
  Contextual.others_untouched m
    (Contextual.addInteraction_unchecked "default" operation params result now m).2.
Proof. intros sessionId Hne. by apply addInteraction_unchecked_other. Qed.

Lemma others_suggestions (currentOperation currentParams : Js.Val) (now : N)
    (m : Contextual.Memory) :
  Contextual.others_untouched m
    (Contextual.getContextualSuggestions "default" currentOperation currentParams now m).2.
Proof. apply others_getSession. Qed.

Lemma others_enhance (operation : string) (params : Js.Val) (result : ToolResult)
    (now : N) (m : Contextual.Memory) :
  Contextual.others_untouched m
    (Contextual.enhanceResultWithContext "default" operation params result now m).2.
Proof.
  unfold Contextual.enhanceResultWithContext.
  pose proof (others_suggestions (Js.Str operation) params now m) as Hs.
  destruct (Contextual.getContextualSuggestions _ _ _ _ _) as [[|? ?] m1]; exact Hs.
Qed.

(** [getConversationContext] leaves the memory as [getSession] does. *)
Lemma getConversationContext_memory (sessionId : string) (limit : nat) (now : N)
    (m : Contextual.Memory) :
  (Contextual.getConversationContext sessionId limit now m).2
  = (Contextual.getSession sessionId now m).2.
Proof.
  unfold Contextual.getConversationContext.
  destruct (Contextual.getSession sessionId now m) as [session m1].
  destruct (Contextual.summarize _); [|done].
  by destruct (Contextual.getRecentEntitySuggestions _).
Qed.

Lemma others_handleGetContext (args : Js.Val) (now : N) (s : Contextual.Server) :
  Contextual.others_untouched (Contextual.memory s)
    (Contextual.memory (Contextual.handleGetContext contextText "default" args now s).2).
Proof.
  unfold Contextual.handleGetContext.
  pose proof (others_getSession now (Contextual.memory s)) as H1.
  rewrite <- (getConversationContext_memory "default" 5) in H1.
  destruct (Contextual.getConversationContext _ _ _ _) as [[context|e] m1]; simpl in H1;
    [|exact H1].
  destruct (Js.nullish args); [exact H1|].
  destruct (_ && _); [|exact H1].
  pose proof (others_suggestions (Js.prop (Js.fields args) "operation")
                (Js.prop (Js.fields args) "params") now m1) as H2.
  destruct (Contextual.getContextualSuggestions _ _ _ _ _) as [suggestions m2].
  by apply (others_trans _ m1).
Qed.

Lemma others_remember (operation : string) (params : Js.Val) (result : Contextual.Recorded)
    (now : N) (s : Contextual.Server) :
  Contextual.others_untouched (Contextual.memory s)
    (Contextual.memory (Contextual.remember "default" operation params result now s).2).
Proof.
  unfold Contextual.remember.
  pose proof (others_addInteraction_unchecked operation params result now
                (Contextual.memory s)) as H.
  by destruct (Contextual.addInteraction_unchecked _ _ _ _ _ _) as [r m].
Qed.

Lemma others_recover (request : Contextual.Request) (e : Js.Exn) (now : N)
    (s : Contextual.Server) :
  Contextual.others_untouched (Contextual.memory s)
    (Contextual.memory (Contextual.recover request e now s).2).
Proof.
  unfold Contextual.recover, Contextual.getSessionId.
  pose proof (others_remember (Contextual.name request) (Contextual.arguments request)
                (Contextual.Failed (Js.message e)) now s) as H.
  by destruct (Contextual.remember _ _ _ _ _ _) as [[?|?] s'].
Qed.

Lemma others_executeConfirmation (operationId : Js.Val) (pendingOp : option PendingOp)
    (shouldConfirm : bool) (now : N) (s : Contextual.Server) :
  Contextual.others_untouched (Contextual.memory s)
    (Contextual.memory
       (Contextual.executeConfirmation operationId pendingOp shouldConfirm now s).2).
Proof.
  unfold Contextual.executeConfirmation.
  destruct pendingOp as [op|]; [|apply others_refl].
  destruct shouldConfirm; simpl; [|apply others_refl].
  pose proof (contextual_executeOperation_memory (op_name op) (op_args op)
                (Contextual.with_pending s
                   (map_delete (Contextual.pendingOperations s) operationId))) as Hm.
  destruct (Contextual.executeOperation _ _ _) as [[result|e] s2]; simpl in *.
  - pose proof (others_addInteraction_unchecked (op_name op) (op_args op)
                  (Contextual.Ok result) now (Contextual.memory s2)) as Ha.
    destruct (Contextual.addInteraction_unchecked _ _ _ _ _ _) as [[?|?] m];
      simpl in *; by rewrite <- Hm.
  - rewrite Hm. apply others_refl.
Qed.

Lemma others_handleConfirmation (args : Js.Object) (now : N) (s : Contextual.Server) :
  Contextual.others_untouched (Contextual.memory s)
    (Contextual.memory (Contextual.handleConfirmation args now s).2).
Proof.
  unfold Contextual.handleConfirmation.
  destruct (Js.truthy (Js.prop args "response") && negb (Js.truthy (Js.prop args "operationId"))).
  - destruct (Contextual.pendingOperations s !! last_operation) as [lastOp|];
      [|apply others_refl].
    destruct (Js.prop args "response"); try apply others_refl.
    destruct (classify _ _ _);
      [apply others_executeConfirmation | apply others_executeConfirmation | apply others_refl].
  - destruct (Js.truthy (Js.prop args "operationId")).
    + destruct (map_get _ _); [apply others_executeConfirmation | apply others_refl].
    + destruct (Js.prop args "confirm"); try apply others_refl.
      destruct (Contextual.pendingOperations s !! last_operation);
        [apply others_executeConfirmation | apply others_refl].
Qed.

Lemma others_callTool (request : Contextual.Request) (clock : Clock) (now : N)
    (s : Contextual.Server) :
  Contextual.others_untouched (Contextual.memory s)
    (Contextual.memory (Contextual.callTool contextText request clock now s).2).
Proof.
  assert (∀ (r : Js.Completion ToolResult) (s' : Contextual.Server),
            Contextual.others_untouched (Contextual.memory s) (Contextual.memory s') →
            Contextual.others_untouched (Contextual.memory s)
              (Contextual.memory
                 (match r with
                  | Js.Return result => (Js.Return result, s')
                  | Js.Throw e => Contextual.recover request e now s'
                  end).2)) as Hcatch.
  { intros [result|e] s' Hs'; [exact Hs'|].
    eapply others_trans; [exact Hs' | apply others_recover]. }
  unfold Contextual.callTool, Contextual.attempt, Contextual.getSessionId.
  destruct (String.eqb (Contextual.name request) "get_context").
  { pose proof (others_handleGetContext (Contextual.arguments request) now s) as Hg.
    destruct (Contextual.handleGetContext _ _ _ _ _) as [r s']. by apply Hcatch. }
  destruct (String.eqb (Contextual.name request) "confirm_operation").
  { destruct (Js.nullish (Contextual.arguments request)).
    { apply (Hcatch (Js.Throw _)), others_refl. }
    pose proof (others_handleConfirmation (Js.fields (Contextual.arguments request)) now s)
      as Hc.
    destruct (Contextual.handleConfirmation _ _ _) as [[result|e] s1]; simpl in Hc.
    - pose proof (others_remember "confirm_operation" (Contextual.arguments request)
                    (Contextual.Ok result) now s1) as Hr.
      destruct (Contextual.remember _ _ _ _ _ _) as [[?|e] s2]; simpl in Hr.
      + apply (Hcatch (Js.Return result)). by apply (others_trans _ (Contextual.memory s1)).
      + apply (Hcatch (Js.Throw e)). by apply (others_trans _ (Contextual.memory s1)).
    - by apply (Hcatch (Js.Throw e)). }
  destruct (Contextual.isReadOperation (Contextual.name request)).
  { pose proof (contextual_executeOperation_memory (Contextual.name request)
                  (Contextual.arguments request) s) as Hm.
    destruct (Contextual.executeOperation _ _ _) as [[result|e] s1]; simpl in Hm.
    - pose proof (others_remember (Contextual.name request) (Contextual.arguments request)
                    (Contextual.Ok result) now s1) as Hr.
      rewrite Hm in Hr.
      destruct (Contextual.remember _ _ _ _ _ _) as [[?|e] s2]; simpl in Hr.
      + pose proof (others_enhance (Contextual.name request) (Contextual.arguments request)
                      result now (Contextual.memory s2)) as He.
        destruct (Contextual.enhanceResultWithContext _ _ _ _ _ _) as [enhanced m'].
        apply (Hcatch (Js.Return enhanced)). simpl in *.
        by apply (others_trans _ (Contextual.memory s2)).
      + by apply (Hcatch (Js.Throw e)).
    - apply (Hcatch (Js.Throw e)). rewrite Hm. apply others_refl. }
  pose proof (contextual_requestConfirmation_state (Contextual.name request)
                (Contextual.arguments request) clock s) as Hstate.
  destruct (Contextual.requestConfirmation _ _ _ _) as [r s1]. simpl in Hstate.
  apply Hcatch. rewrite Hstate. apply others_refl.
Qed.

(** Reading a session, and asking for suggestions, keeps every log. *)
Lemma getSession_log (sessionId other : string) (now : N) (m : Contextual.Memory) :
  Contextual.log_of (Contextual.getSession sessionId now m).2 other = Contextual.log_of m other.
Proof.
  unfold Contextual.log_of, Contextual.getSession. simpl.
  destruct (decide (sessionId = other)) as [<-|Hne].
  - rewrite lookup_insert_eq. by destruct (Contextual.sessions m !! sessionId).
  - by rewrite lookup_insert_ne.
Qed.

Lemma enhance_log (sessionId other operation : string) (params : Js.Val)
    (result : ToolResult) (now : N) (m : Contextual.Memory) :
  Contextual.log_of
    (Contextual.enhanceResultWithContext sessionId operation params result now m).2 other
  = Contextual.log_of m other.
Proof.
  unfold Contextual.enhanceResultWithContext, Contextual.getContextualSuggestions.
  pose proof (getSession_log sessionId other now m) as Hlog.
  destruct (Contextual.getSession sessionId now m) as [session m1].
  by destruct (_ ++ _)%list.
Qed.

Lemma read_operation_names (operation : string) :
  Contextual.isReadOperation operation = true →
  (operation ∉ [ "create_item"; "assign_list_to_event"; "create_event" ])
  ∧ String.eqb operation "confirm_operation" = false.
Proof.
  intros Hread. apply bool_decide_eq_true in Hread. unfold Contextual.readOperations in Hread.
  repeat (apply elem_of_cons in Hread as [->|Hread];
          [split; [apply (bool_decide_unpack _); vm_compute; exact I | reflexivity]|]).
  by apply elem_of_nil in Hread.
Qed.

(** Of the read tools, only [get_events] makes the recording read the
    arguments. *)
Lemma read_operation_params (operation : string) :
  Contextual.isReadOperation operation = true → operation ≠ "get_events" →
  Contextual.first_param_read operation = None.
Proof.
  intros Hread Hne. apply bool_decide_eq_true in Hread.
  unfold Contextual.readOperations in Hread.
  repeat (apply elem_of_cons in Hread as [->|Hread]; [done|]).
  by apply elem_of_nil in Hread.
Qed.

(** C10. The session id of every request is the constant ['default'],
    whatever the request carries: requests that agree on the tool name and
    the arguments are served alike whoever sent them, and serving a request
    touches no session but ['default'].  That session is the one that is
    written and read: a read call that succeeds is recorded at the front of
    its log, a confirmed operation is recorded there by
    [executeConfirmation], and [get_context] answers with the conversation
    context and the suggestions of that session. *)
Theorem single_default_session (request request' : Contextual.Request) (sessionId : string)
    (clock : Clock) (now : N) (s : Contextual.Server) :
  sessionId ≠ "default" →
  Contextual.name request' = Contextual.name request →
  Contextual.arguments request' = Contextual.arguments request →
  let name := Contextual.name request in
  let args := Contextual.arguments request in
  let after := Contextual.callTool contextText request clock now s in
  Contextual.getSessionId request = "default"
  ∧ Contextual.callTool contextText request' clock now s = after
  ∧ Contextual.sessions (Contextual.memory after.2) !! sessionId
    = Contextual.sessions (Contextual.memory s) !! sessionId
  ∧ (Contextual.isReadOperation name = true → name ≠ "get_context" →
     (name = "get_events" → Js.nullish args = false) →
     ∀ result s1,
       Contextual.executeOperation name args s = (Js.Return result, s1) →
       Contextual.log_of (Contextual.memory after.2) "default"
       = Contextual.record (Contextual.maxEntries (Contextual.memory s))
           (Contextual.interaction_of name (Js.fields args) (Contextual.Ok result) now)
           (Contextual.log_of (Contextual.memory s) "default"))
  ∧ (∀ operationId op result s1,
       Contextual.executeOperation (op_name op) (op_args op)
         (Contextual.with_pending s (map_delete (Contextual.pendingOperations s) operationId))
       = (Js.Return result, s1) →
       Contextual.log_of
         (Contextual.memory
            (Contextual.executeConfirmation operationId (Some op) true now s).2) "default"
       = Contextual.record (Contextual.maxEntries (Contextual.memory s))
           (Contextual.interaction_of (op_name op) (Js.fields (op_args op))
              (Contextual.Ok result) now)
           (Contextual.log_of (Contextual.memory s) "default"))
  ∧ (name = "get_context" → Js.nullish args = false →
     ∀ context,
       (Contextual.getConversationContext "default" 5 now (Contextual.memory s)).1
       = Js.Return context →
       let operation := Js.prop (Js.fields args) "operation" in
       let params := Js.prop (Js.fields args) "params" in
       let suggestions :=
         if Js.truthy operation && Js.truthy params then
           (Contextual.getContextualSuggestions "default" operation params now
              (Contextual.getConversationContext "default" 5 now (Contextual.memory s)).2).1
         else [] in
       after.1 = Js.Return (Content (contextText context suggestions))).
Proof.
  intros Hne Hname Hargs name args after.
  split; [done|]. split; [|split; [by apply others_callTool|split; [|split]]].
  - unfold after, Contextual.callTool, Contextual.attempt, Contextual.recover,
      Contextual.getSessionId.
    by rewrite Hname, Hargs.
  - intros Hread Hctx Hevents result s1 Hexec.
    destruct (read_operation_names _ Hread) as [_ Hconf].
    assert (Contextual.first_param_read name = None ∨ Js.nullish args = false) as Hok.
    { destruct (decide (name = "get_events")) as [Heq|Hother]; [right; auto|left].
      by apply read_operation_params. }
    pose proof (contextual_executeOperation_memory name args s) as Hmem.
    rewrite Hexec in Hmem. simpl in Hmem.
    unfold after, Contextual.callTool, Contextual.attempt, Contextual.getSessionId.
    fold name args.
    destruct (String.eqb_spec name "get_context") as [|_]; [done|].
    rewrite Hconf, Hread, Hexec, (remember_total _ _ _ _ _ _ Hok).
    pose proof (enhance_log "default" "default" name args result now
                  (Contextual.memory
                     (Contextual.with_memory s1
                        (Contextual.addInteraction "default" name (Js.fields args)
                           (Contextual.Ok result) now (Contextual.memory s1))))) as He.
    destruct (Contextual.enhanceResultWithContext _ _ _ _ _ _) as [enhanced m'].
    simpl in He |- *. rewrite He, addInteraction_log. by rewrite Hmem.
  - intros operationId op result s1 Hexec.
    pose proof (contextual_executeOperation_memory (op_name op) (op_args op)
                  (Contextual.with_pending s
                     (map_delete (Contextual.pendingOperations s) operationId))) as Hmem.
    rewrite Hexec in Hmem. simpl in Hmem.
    unfold Contextual.executeConfirmation. simpl. rewrite Hexec.
    pose proof (addInteraction_unchecked_log "default" (op_name op) (op_args op)
                  (Contextual.Ok result) now (Contextual.memory s1)) as Hlog.
    destruct (Contextual.addInteraction_unchecked _ _ _ _ _ _) as [[?|?] m];
      simpl in Hlog |- *; by rewrite Hlog, Hmem.
  - intros Hctx Hnull context Hcontext operation params suggestions.
    unfold after, Contextual.callTool, Contextual.attempt, Contextual.getSessionId.
    fold name args. rewrite Hctx.
    change (String.eqb "get_context" "get_context") with true. cbv iota.
    unfold Contextual.handleGetContext. unfold suggestions, operation, params.
    destruct (Contextual.getConversationContext "default" 5 now (Contextual.memory s))
      as [r m1].
    cbn [fst snd] in Hcontext |- *. subst r. rewrite Hnull.
    destruct (_ && _); [|done].
    by destruct (Contextual.getContextualSuggestions _ _ _ _ _) as [found m2].
Qed.

End SharedSession.

Lemma single_default_session_witness :
  Contextual.callTool plainContextText
    {| Contextual.name := "get_lists"; Contextual.arguments := Js.Obj [];
       Contextual.meta := Js.Obj [ ("caller", Js.Str "alice") ] |} (tick 5000) 5000
    contextual_queued
  = Contextual.callTool plainContextText
      {| Contextual.name := "get_lists"; Contextual.arguments := Js.Obj [];
         Contextual.meta := Js.Obj [ ("caller", Js.Str "bob") ] |} (tick 5000) 5000
      contextual_queued.
Proof.
  destruct (single_default_session (store := journal) plainContextText
              {| Contextual.name := "get_lists"; Contextual.arguments := Js.Obj [];
                 Contextual.meta := Js.Obj [ ("caller", Js.Str "bob") ] |}
              {| Contextual.name := "get_lists"; Contextual.arguments := Js.Obj [];
                 Contextual.meta := Js.Obj [ ("caller", Js.Str "alice") ] |}
              "alice" (tick 5000) 5000 contextual_queued) as (_ & Hsame & _).
  - discriminate.
  - reflexivity.
  - reflexivity.
  - exact Hsame.
Defined.

(** ** More on the contextual memory *)

Section MemoryMore.
Local Open Scope nat_scope.


Lemma addInteraction_focus (sessionId operation : string) (params : Js.Object)
    (result : Contextual.Recorded) (now : N) (m : Contextual.Memory) (other : string) :
  operation ∉ focus_operations →
  focus_of (Contextual.addInteraction sessionId operation params result now m) other
  = focus_of m other.
Proof.
  intros Hop. unfold focus_of.
  destruct (decide (sessionId = other)) as [<-|Hne];
    [|by rewrite addInteraction_other].
  unfold Contextual.addInteraction, Contextual.getSession. simpl.
  rewrite lookup_insert_eq. simpl. unfold Contextual.updateContext. simpl.
  unfold focus_operations in Hop.
  destruct (String.eqb_spec operation "create_event") as [->|_]; [set_solver|].
  destruct (String.eqb_spec operation "create_list") as [->|_]; [set_solver|].
  destruct (String.eqb operation "create_item").
  { by destruct (Contextual.sessions m !! sessionId). }
  destruct (String.eqb operation "get_events").
  { by destruct (Contextual.sessions m !! sessionId). }
  destruct (String.eqb_spec operation "assign_list_to_event") as [->|_]; [set_solver|].
  by destruct (Contextual.sessions m !! sessionId).
Qed.

(** X2. The current focus of every session survives any sequence of
    recordings of operations other than [create_event], [create_list] and
    [assign_list_to_event]: reads, [create_item], confirmations and failed
    calls never move it. *)
Theorem focus_survives_other_operations (recordings : list Contextual.Recording)
    (m : Contextual.Memory) (sessionId : string) :
  Forall (λ r, Contextual.rec_operation r ∉ focus_operations) recordings →
  focus_of (Contextual.recordAll recordings m) sessionId = focus_of m sessionId.
Proof.
  intros Hall. revert m. induction Hall as [|r recordings Hr _ IH]; intros m; [done|].
  unfold Contextual.recordAll in *. simpl. rewrite IH. by apply addInteraction_focus.
Qed.

Lemma take_hex_length (n : nat) (s c : string) :
  Contextual.take_hex n s = Some c → String.length c = n ∧ all_hex c = true.
Proof.
  revert s c. induction n as [|n IH]; intros s c Hc; simpl in Hc.
  - by injection Hc as <-.
  - destruct s as [|a s]; [done|].
    destruct (Contextual.is_hex a) eqn:Ha; [|done].
    destruct (Contextual.take_hex n s) as [c'|] eqn:Hc'; [|done].
    injection Hc as <-. destruct (IH _ _ Hc') as [Hlen Hhex].
    simpl. by rewrite Hlen, Ha, Hhex.
Qed.

Lemma take_hex_append (id rest : string) :
  all_hex id = true → Contextual.take_hex (String.length id) (id +:+ rest) = Some id.
Proof.
  intros Hhex. induction id as [|a id IH]; [done|].
  simpl in *. apply andb_prop in Hhex as [Ha Hid]. by rewrite Ha, (IH Hid).
Qed.

Lemma id_match_here_found (s c : string) :
  Contextual.id_match_here s = Some c → Contextual.id_match s = Some c.
Proof.
  intros Hhere. destruct s as [|a s]; [done|].
  change (match Contextual.id_match_here (String a s) with
          | Some captured => Some captured
          | None => Contextual.id_match s
          end = Some c).
  by rewrite Hhere.
Qed.

Lemma id_match_skip (a : ascii) (s : string) :
  Contextual.id_match_here (String a s) = None →
  Contextual.id_match (String a s) = Contextual.id_match s.
Proof.
  intros Hhere.
  change (match Contextual.id_match_here (String a s) with
          | Some captured => Some captured
          | None => Contextual.id_match s
          end = Contextual.id_match s).
  by rewrite Hhere.
Qed.

Lemma id_match_sound (s c : string) :
  Contextual.id_match s = Some c → String.length c = 24 ∧ all_hex c = true.
Proof.
  induction s as [|a s IH]; [done|].
  destruct (Contextual.id_match_here (String a s)) as [c'|] eqn:Hhere.
  - rewrite (id_match_here_found _ _ Hhere). intros [= ->].
    unfold Contextual.id_match_here in Hhere.
    destruct s as [|d [|colon r]]; try done.
    destruct (_ && _); [|done]. by apply take_hex_length in Hhere.
  - by rewrite id_match_skip.
Qed.

(** X3. The id that [extractId] reads off a result is [null] or a text of
    exactly 24 hexadecimal digits; the result of a failed call gives [null]. *)
Theorem extractId_null_or_24_hex (r : Contextual.Recorded) :
  (Contextual.extractId r = Js.Null
   ∨ ∃ id, Contextual.extractId r = Js.Str id ∧ String.length id = 24 ∧ all_hex id = true)
  ∧ ∀ error, Contextual.extractId (Contextual.Failed error) = Js.Null.
Proof.
  split; [|done].
  destruct r as [[text]|e]; simpl; [|by left].
  destruct (Contextual.id_match text) as [c|] eqn:Hc; [|by left].
  right. exists c. split; [done|]. by apply (id_match_sound text).
Qed.

Lemma hex_not_white (c : ascii) : Contextual.is_hex c = true → Js.is_white c = false.
Proof.
  destruct c as [[] [] [] [] [] [] [] []]; vm_compute; congruence.
Qed.

Lemma append_cons (a : ascii) (s r : string) : String a s +:+ r = String a (s +:+ r).
Proof. done. Qed.

Lemma append_nil (r : string) : "" +:+ r = r.
Proof. done. Qed.

Lemma id_match_after_label (id rest : string) :
  String.length id = 24 → all_hex id = true →
  Contextual.id_match (String "I" (String "D" (String ":" (String " " (id +:+ rest)))))
  = Some id.
Proof.
  intros Hlen Hhex. apply id_match_here_found. destruct id as [|a id]; [done|].
  assert (Js.is_white a = false) as Hwhite.
  { apply hex_not_white. simpl in Hhex. by apply andb_prop in Hhex as [? _]. }
  change (Contextual.take_hex 24
            (if Js.is_white a then Js.trimStart (id +:+ rest) else String a (id +:+ rest))
          = Some (String a id)).
  rewrite Hwhite, <- Hlen. by apply (take_hex_append (String a id)).
Qed.

(** X4. The id of a created event, list or item, a text of 24 hexadecimal
    digits, is what [extractId] reads off the text that the creating method
    returns, whatever the other fields of the document say. *)
Theorem created_ids_are_extracted (id : string)
    (title startDate endDate location description name userId content listId : string) :
  String.length id = 24 → all_hex id = true →
  Contextual.extractId
    (Contextual.Ok (Content (createEvent_text id title startDate endDate location description)))
  = Js.Str id
  ∧ Contextual.extractId (Contextual.Ok (Content (createList_text id name description userId)))
    = Js.Str id
  ∧ Contextual.extractId (Contextual.Ok (Content (createItem_text id content listId)))
    = Js.Str id.
Proof.
  intros Hlen Hhex.
  unfold Contextual.extractId, createEvent_text, createList_text, createItem_text, text, Js.nl.
  rewrite !append_cons, ?append_nil.
  split; [|split];
    repeat (rewrite id_match_skip by reflexivity); by rewrite id_match_after_label.
Qed.

End MemoryMore.

Lemma created_ids_are_extracted_witness :
  Contextual.extractId
    (Contextual.Ok (Content (createList_text "507f1f77bcf86cd799439011" "ID: 0" "" "u1")))
  = Js.Str "507f1f77bcf86cd799439011".
Proof.
  destruct (created_ids_are_extracted "507f1f77bcf86cd799439011" "" "" "" "" "" "ID: 0" "u1"
              "" "") as (_ & Hlist & _).
  - reflexivity.
  - reflexivity.
  - exact Hlist.
Defined.

Lemma focus_survives_other_operations_witness :
  focus_of
    (Contextual.recordAll [ recording "get_events" 2; recording "create_item" 3 ]
       (Contextual.addInteraction "default" "create_event" [ ("title", Js.Str "Standup") ]
          (Contextual.Ok (Content "done")) 1 small_memory)) "default"
  = Some (Contextual.FocusEvent Js.Null (Js.Str "Standup")).
Proof.
  rewrite (focus_survives_other_operations
             [ recording "get_events" 2; recording "create_item" 3 ]).
  - vm_compute. reflexivity.
  - repeat constructor; apply (bool_decide_unpack _); vm_compute; exact I.
Defined.

(** ** Suggestions, sessions and the context summary *)

Section Suggestions.
Context {store : Collaborators}.
Context (contextText : Contextual.ContextSummary -> list string -> string).

Lemma no_suggestions (sessionId operation : string) (currentParams : Js.Val) (now : N)
    (m : Contextual.Memory) :
  operation ∉ [ "create_item"; "assign_list_to_event"; "create_event" ] →
  (Contextual.getContextualSuggestions sessionId (Js.Str operation) currentParams now m).1 = [].
Proof.
  intros Hop. unfold Contextual.getContextualSuggestions, Contextual.getSession. simpl.
  destruct (String.eqb_spec operation "create_item") as [->|_]; [set_solver|].
  destruct (String.eqb_spec operation "assign_list_to_event") as [->|_]; [set_solver|].
  destruct (String.eqb_spec operation "create_event") as [->|_]; [set_solver|].
  done.
Qed.

(** X5. The suggestion rules never fire for a read tool: the handler
    returns the result of [executeOperation] as it is (or its exception,
    through the [catch]), and leaves the database as the operation left it.
    This is for a call whose recording does not throw, that is, any but a
    [get_events] without arguments. *)
Theorem read_results_not_annotated (request : Contextual.Request) (clock : Clock) (now : N)
    (s : Contextual.Server) :
  Contextual.isReadOperation (Contextual.name request) = true →
  Contextual.name request ≠ "get_context" →
  (Contextual.name request = "get_events" →
   Js.nullish (Contextual.arguments request) = false) →
  let executed :=
    Contextual.executeOperation (Contextual.name request) (Contextual.arguments request) s in
  (Contextual.callTool contextText request clock now s).1
  = match executed.1 with
    | Js.Return result => Js.Return result
    | Js.Throw e => Js.Throw (Contextual.rethrow (Contextual.name request) e)
    end
  ∧ Contextual.database (Contextual.callTool contextText request clock now s).2
    = Contextual.database executed.2
  ∧ Contextual.pendingOperations (Contextual.callTool contextText request clock now s).2
    = Contextual.pendingOperations s.
Proof.
  intros Hread Hctx Hevents executed.
  destruct (read_operation_names _ Hread) as [Hnames Hconf].
  assert (Contextual.first_param_read (Contextual.name request) = None
          ∨ Js.nullish (Contextual.arguments request) = false) as Hok.
  { destruct (decide (Contextual.name request = "get_events")) as [Heq|Hother];
      [right; auto | left; by apply read_operation_params]. }
  unfold Contextual.callTool, Contextual.attempt.
  destruct (String.eqb_spec (Contextual.name request) "get_context") as [|_]; [done|].
  rewrite Hconf, Hread.
  pose proof (contextual_executeOperation_pending (Contextual.name request)
                (Contextual.arguments request) s) as Hpending.
  fold executed in Hpending. unfold Contextual.getSessionId. fold executed.
  destruct executed as [[result|e] s1]; cbn [fst snd] in *.
  - rewrite (remember_total _ _ _ _ _ _ Hok).
    unfold Contextual.enhanceResultWithContext.
    pose proof (no_suggestions "default" (Contextual.name request)
                  (Contextual.arguments request) now
                  (Contextual.memory
                     (Contextual.with_memory s1
                        (Contextual.addInteraction "default" (Contextual.name request)
                           (Js.fields (Contextual.arguments request)) (Contextual.Ok result)
                           now (Contextual.memory s1)))) Hnames) as Hnone.
    destruct (Contextual.getContextualSuggestions _ _ _ _ _) as [suggestions m1].
    simpl in Hnone. subst suggestions. done.
  - pose proof (recover_workflow request e now s1) as (Hp & _ & Hd).
    unfold Contextual.recover in *.
    rewrite (remember_total _ _ _ _ _ _ Hok) in *. by rewrite Hp.
Qed.

(** X6. Once a [create_list] is recorded, the suggestions for a
    [create_item] whose parameters are an object without a [listId] are one
    sentence, which quotes the name and the id of that list as the memory
    holds them. *)
Theorem create_item_suggests_recent_list (sessionId : string) (params : Js.Object)
    (result : Contextual.Recorded) (currentParams : Js.Object) (now later : N)
    (m : Contextual.Memory) :
  Js.truthy (Js.prop currentParams "listId") = false →
  ∃ sentence,
    (Contextual.getContextualSuggestions sessionId (Js.Str "create_item")
       (Js.Obj currentParams) later
       (Contextual.addInteraction sessionId "create_list" params result now m)).1 = [ sentence ]
    ∧ Js.includes sentence (Js.toString (Js.prop params "name")) = true
    ∧ Js.includes sentence (Js.toString (Contextual.extractId result)) = true.
Proof.
  intros Hlist.
  unfold Contextual.getContextualSuggestions, Contextual.addInteraction, Contextual.getSession.
  simpl. rewrite lookup_insert_eq. simpl. rewrite Hlist. simpl.
  eexists. split; [reflexivity|]. split.
  - do 2 apply includes_skip. apply includes_here.
  - do 5 apply includes_skip. apply includes_here.
Qed.

End Suggestions.

Section Sessions.

(** X7. Reading a session is harmless and repeatable: a second
    [getSession] at the same time returns the same session and memory as the
    first, and no session loses its log or its focus by a read. *)
Theorem getSession_repeatable (sessionId : string) (now : N) (m : Contextual.Memory) :
  Contextual.getSession sessionId now (Contextual.getSession sessionId now m).2
  = Contextual.getSession sessionId now m
  ∧ (∀ other, Contextual.log_of (Contextual.getSession sessionId now m).2 other
              = Contextual.log_of m other)
  ∧ (∀ other, focus_of (Contextual.getSession sessionId now m).2 other = focus_of m other).
Proof.
  unfold Contextual.getSession. simpl. split; [|split].
  - rewrite lookup_insert_eq, insert_insert_eq. done.
  - intros other. unfold Contextual.log_of. simpl.
    destruct (decide (sessionId = other)) as [<-|Hne].
    + rewrite lookup_insert_eq. by destruct (Contextual.sessions m !! sessionId).
    + by rewrite lookup_insert_ne.
  - intros other. unfold focus_of. simpl.
    destruct (decide (sessionId = other)) as [<-|Hne].
    + rewrite lookup_insert_eq. by destruct (Contextual.sessions m !! sessionId).
    + by rewrite lookup_insert_ne.
Qed.

(** X8. The cleanup evicts exactly the sessions last accessed before
    [now - maxAge] and keeps the others as they are; with a [maxAge] that is
    not negative, a session that was read at [now] survives a cleanup at
    [now]. *)
Theorem cleanup_evicts_stale_sessions (maxAge : Z) (now : N) (sessionId : string)
    (m : Contextual.Memory) :
  (0 <= maxAge)%Z →
  (∀ k session, Contextual.sessions m !! k = Some session →
     (Z.of_N (Contextual.lastAccessed session) < Z.of_N now - maxAge)%Z →
     Contextual.sessions (Contextual.cleanup maxAge now m) !! k = None)
  ∧ (∀ k session, Contextual.sessions m !! k = Some session →
       ¬ (Z.of_N (Contextual.lastAccessed session) < Z.of_N now - maxAge)%Z →
       Contextual.sessions (Contextual.cleanup maxAge now m) !! k = Some session)
  ∧ (∀ k, Contextual.sessions m !! k = None →
       Contextual.sessions (Contextual.cleanup maxAge now m) !! k = None)
  ∧ Contextual.sessions
      (Contextual.cleanup maxAge now (Contextual.getSession sessionId now m).2) !! sessionId
    = Some (Contextual.getSession sessionId now m).1.
Proof.
  intros Hage.
  assert (∀ m' k session, Contextual.sessions m' !! k = Some session →
            ¬ (Z.of_N (Contextual.lastAccessed session) < Z.of_N now - maxAge)%Z →
            Contextual.sessions (Contextual.cleanup maxAge now m') !! k = Some session)
    as Hkeep.
  { intros m' k session Hk Hfresh. unfold Contextual.cleanup. simpl.
    by apply map_lookup_filter_Some_2. }
  split; [|split; [|split]].
  - intros k session Hk Hstale. unfold Contextual.cleanup. simpl.
    apply map_lookup_filter_None_2. right. intros session' Hk' Hnot.
    rewrite Hk in Hk'. injection Hk' as <-. by apply Hnot.
  - apply Hkeep.
  - intros k Hk. unfold Contextual.cleanup. simpl.
    apply map_lookup_filter_None_2. by left.
  - apply Hkeep.
    + unfold Contextual.getSession. simpl. by rewrite lookup_insert_eq.
    + unfold Contextual.getSession. simpl. lia.
Qed.

Lemma summarize_operations (log : list Contextual.Interaction) (activities : list Contextual.Activity) :
  Contextual.summarize log = Js.Return activities →
  map Contextual.activity_operation activities = map Contextual.operation log.
Proof.
  revert activities. induction log as [|i log IH]; intros activities Hsum; simpl in Hsum.
  - by injection Hsum as <-.
  - destruct (Contextual.summarizeInteraction i); [|done].
    destruct (Contextual.summarize log) as [rest|]; [|done].
    injection Hsum as <-. simpl. by rewrite (IH rest).
Qed.

(** X9. When [Contextual.getConversationContext] returns, its recent activity lists
    the operations of the [limit] newest interactions of the session, newest
    first, and its focus is the focus of the session. *)
Theorem context_summary_is_recent (sessionId : string) (limit : nat) (now : N)
    (m : Contextual.Memory) (summary : Contextual.ContextSummary) :
  (Contextual.getConversationContext sessionId limit now m).1 = Js.Return summary →
  map Contextual.activity_operation (Contextual.summary_recentActivity summary)
  = map Contextual.operation (take limit (Contextual.log_of m sessionId))
  ∧ List.length (Contextual.summary_recentActivity summary) <= limit
  ∧ Contextual.summary_currentFocus summary = focus_of m sessionId.
Proof.
  unfold Contextual.getConversationContext, Contextual.getSession, Contextual.log_of, focus_of. simpl.
  destruct (Contextual.summarize _) as [activities|] eqn:Hsum; [|done].
  destruct (Contextual.getRecentEntitySuggestions _); [|done].
  simpl. intros [= <-]. simpl.
  apply summarize_operations in Hsum.
  assert (map Contextual.activity_operation activities
          = map Contextual.operation
              (take limit (default [] (Contextual.interactions <$>
                                         Contextual.sessions m !! sessionId)))) as Hops.
  { rewrite Hsum. by destruct (Contextual.sessions m !! sessionId). }
  split; [exact Hops|]. split.
  - rewrite <- (length_map Contextual.activity_operation), Hops, length_map, length_take. lia.
  - by destruct (Contextual.sessions m !! sessionId).
Qed.

(** X10. A recorded [create_item] whose content is not a string breaks the
    context summary: [Contextual.getConversationContext] of that session throws, for
    every limit, as long as the item is among the recent ones. *)
Theorem non_text_item_breaks_context (sessionId : string) (params : Js.Object)
    (result : Contextual.Recorded) (limit : nat) (now later : N) (m : Contextual.Memory) :
  (∀ content, Js.prop params "content" ≠ Js.Str content) →
  ∃ e, (Contextual.getConversationContext sessionId limit later
          (Contextual.addInteraction sessionId "create_item" params result now m)).1
       = Js.Throw e.
Proof.
  intros Hcontent.
  unfold Contextual.getConversationContext, Contextual.addInteraction, Contextual.getSession. simpl.
  rewrite lookup_insert_eq. simpl.
  destruct (Contextual.summarize _); [|by eexists].
  unfold Contextual.getRecentEntitySuggestions. simpl.
  destruct (Js.prop params "content") as [| | | |content| |] eqn:Hc; simpl; try by eexists.
  by destruct (Hcontent content).
Qed.

End Sessions.

Lemma read_results_not_annotated_witness :
  (Contextual.callTool plainContextText (call "get_lists" []) (tick 2000) 2000
     contextual_queued).1 = Js.Return (Content "done").
Proof.
  destruct (read_results_not_annotated (store := journal) plainContextText
              (call "get_lists" []) (tick 2000) 2000 contextual_queued) as (Hresult & _).
  - vm_compute. reflexivity.
  - discriminate.
  - intros [=].
  - unfold call in *. rewrite Hresult. vm_compute. reflexivity.
Defined.

Lemma create_item_suggests_recent_list_witness :
  ∃ sentence,
    (Contextual.getContextualSuggestions "default" (Js.Str "create_item")
       (Js.Obj [ ("content", Js.Str "Milk") ]) 2
       (Contextual.addInteraction "default" "create_list" groceries
          (Contextual.Ok (Content (createList_text "507f1f77bcf86cd799439011" "Groceries" "" "u1")))
          1 small_memory)).1 = [ sentence ]
    ∧ Js.includes sentence "Groceries" = true
    ∧ Js.includes sentence "507f1f77bcf86cd799439011" = true.
Proof.
  apply (create_item_suggests_recent_list "default" groceries
           (Contextual.Ok
              (Content (createList_text "507f1f77bcf86cd799439011" "Groceries" "" "u1")))
           [ ("content", Js.Str "Milk") ] 1 2 small_memory).
  reflexivity.
Defined.

Lemma cleanup_evicts_stale_sessions_witness :
  Contextual.sessions
    (Contextual.cleanup 1000 5000 (Contextual.getSession "default" 5000 small_memory).2)
    !! "default"
  = Some (Contextual.getSession "default" 5000 small_memory).1.
Proof.
  destruct (cleanup_evicts_stale_sessions 1000 5000 "default" small_memory) as (_ & _ & _ & Hs).
  - lia.
  - exact Hs.
Defined.

Lemma context_summary_is_recent_witness :
  map Contextual.activity_operation
    (Contextual.summary_recentActivity
       {| Contextual.summary_currentFocus := None;
          Contextual.summary_recentActivity :=
            [ {| Contextual.activity_operation := "get_lists"; Contextual.activity_timestamp := 2;
                 Contextual.activity_summary := "Performed get_lists" |} ];
          Contextual.summary_userPreferences := ∅;
          Contextual.summary_suggestions :=
            {| Contextual.suggested_events := []; Contextual.suggested_lists := []; Contextual.suggested_items := [] |} |})
  = map Contextual.operation
      (take 1 (Contextual.log_of
                 (Contextual.recordAll [ recording "get_events" 1; recording "get_lists" 2 ]
                    small_memory) "default")).
Proof.
  eapply (context_summary_is_recent "default" 1 3
            (Contextual.recordAll [ recording "get_events" 1; recording "get_lists" 2 ]
               small_memory)).
  vm_compute. reflexivity.
Defined.

Lemma non_text_item_breaks_context_witness :
  ∃ e, (Contextual.getConversationContext "default" 5 2
          (Contextual.addInteraction "default" "create_item" [ ("content", Js.Num 42) ]
             (Contextual.Ok (Content "done")) 1 small_memory)).1 = Js.Throw e.
Proof.
  apply (non_text_item_breaks_context "default" [ ("content", Js.Num 42) ]).
  intros content. simpl. discriminate.
Defined.

(** ** More on confirmations *)

Section ConfirmationsMore.
Context {store : Collaborators}.
Context (contextText : Contextual.ContextSummary -> list string -> string).

(** The call of [confirm_operation] in [index.js], with arguments that are
    not [null] or [undefined]. *)
Lemma plain_call_confirm (args : Js.Val) (clock : Clock) (s : Plain.Server) :
  Js.nullish args = false →
  Plain.callTool "confirm_operation" args clock s
  = match Plain.handleConfirmation (Js.fields args) s with
    | (Js.Return result, s1) => (Js.Return result, s1)
    | (Js.Throw e, s1) => (Js.Throw (Plain.rethrow "confirm_operation" e), s1)
    end.
Proof.
  intros Hargs. unfold Plain.callTool.
  change (String.eqb "confirm_operation" "confirm_operation") with true. cbv iota.
  rewrite Hargs. by destruct (Plain.handleConfirmation _ _) as [[?|?] ?].
Qed.

(** X11. An explicit id with a [confirm] that is missing or falsy cancels:
    the [confirm_operation] call of either server answers that the operation
    is cancelled and removes the entry.  [index.js] changes nothing else;
    the server with memory also records the call in the session
    ['default']. *)
Theorem id_without_flag_cancels (args : Js.Object) (meta : Js.Val) (i : string)
    (op : PendingOp) (clock : Clock) (now : N) (sP : Plain.Server) (sC : Contextual.Server) :
  Js.prop args "operationId" = Js.Str i → i ≠ "" →
  Js.truthy (Js.prop args "confirm") = false →
  Plain.pendingOperations sP !! i = Some op →
  Contextual.pendingOperations sC !! i = Some op →
  let answer := Content ("❌ Operation cancelled: " +:+ op_name op) in
  Plain.callTool "confirm_operation" (Js.Obj args) clock sP
  = (Js.Return answer, Plain.with_pending sP (delete i (Plain.pendingOperations sP)))
  ∧ Contextual.callTool contextText
      {| Contextual.name := "confirm_operation"; Contextual.arguments := Js.Obj args;
         Contextual.meta := meta |} clock now sC
    = (Js.Return answer,
       Contextual.with_memory
         (Contextual.with_pending sC (delete i (Contextual.pendingOperations sC)))
         (Contextual.addInteraction "default" "confirm_operation" args
            (Contextual.Ok answer) now (Contextual.memory sC))).
Proof.
  intros Hid Hne Hconf HP HC answer.
  rewrite plain_call_confirm, contextual_call_confirm by done. simpl Js.fields.
  rewrite (plain_explicit_id args i sP), (contextual_explicit_id args i now sC) by done.
  by rewrite HP, HC, Hconf.
Qed.

(** X12. Confirming the same explicit id twice: whatever the first
    [confirm_operation] call did (executed, cancelled, failed or found
    nothing), the second one fails with [InvalidRequest] not-found.
    [index.js] is left as the first call left it; the server with memory
    keeps its pending map, counter and database and records the failed call
    in the session ['default']. *)
Theorem repeated_id_confirmation_rejected (args : Js.Object) (meta meta' : Js.Val)
    (i : string) (clock clock' : Clock) (now later : N)
    (sP : Plain.Server) (sC : Contextual.Server) :
  Js.prop args "operationId" = Js.Str i → i ≠ "" →
  let confirm (meta : Js.Val) :=
    {| Contextual.name := "confirm_operation"; Contextual.arguments := Js.Obj args;
       Contextual.meta := meta |} in
  let afterP := (Plain.callTool "confirm_operation" (Js.Obj args) clock sP).2 in
  let afterC := (Contextual.callTool contextText (confirm meta) clock now sC).2 in
  let not_foundP := Js.McpError Js.InvalidRequest (Plain.not_found_message (Js.Str i)) in
  let not_foundC := Js.McpError Js.InvalidRequest (Contextual.not_found_message (Js.Str i)) in
  Plain.callTool "confirm_operation" (Js.Obj args) clock' afterP = (Js.Throw not_foundP, afterP)
  ∧ Contextual.callTool contextText (confirm meta') clock' later afterC
    = (Js.Throw not_foundC,
       Contextual.with_memory afterC
         (Contextual.addInteraction "default" "confirm_operation" args
            (Contextual.Failed (Js.message not_foundC)) later (Contextual.memory afterC))).
Proof.
  intros Hid Hne confirm afterP afterC not_foundP not_foundC.
  assert (Plain.pendingOperations afterP !! i = None) as HgoneP.
  { unfold afterP. rewrite plain_call_confirm by done. simpl Js.fields.
    assert (Plain.pendingOperations (Plain.handleConfirmation args sP).2 !! i = None) as H.
    { rewrite (plain_explicit_id args i sP) by done.
      destruct (Plain.pendingOperations sP !! i) as [op|] eqn:Hop; [|done].
      rewrite plain_executeConfirmation_pending. simpl. apply lookup_delete_eq. }
    by destruct (Plain.handleConfirmation args sP) as [[?|?] ?]. }
  assert (Contextual.pendingOperations afterC !! i = None) as HgoneC.
  { unfold afterC, confirm. rewrite contextual_call_confirm by done. simpl Js.fields.
    assert (Contextual.pendingOperations (Contextual.handleConfirmation args now sC).2 !! i
            = None) as H.
    { rewrite (contextual_explicit_id args i now sC) by done.
      destruct (Contextual.pendingOperations sC !! i) as [op|] eqn:Hop; [|done].
      rewrite contextual_executeConfirmation_pending. simpl. apply lookup_delete_eq. }
    by destruct (Contextual.handleConfirmation args now sC) as [[?|?] ?]. }
  unfold confirm. rewrite plain_call_confirm, contextual_call_confirm by done.
  simpl Js.fields.
  rewrite (plain_explicit_id args i afterP), (contextual_explicit_id args i later afterC)
    by done.
  by rewrite HgoneP, HgoneC.
Qed.

(** X13. In [index.js] a free-text confirmation that is recognized consumes
    the alias: the next confirmation without an id fails with
    [InvalidRequest] and changes nothing, until a write call sets the alias
    again. *)
Theorem free_text_consumes_alias (args next : Js.Object) (response : string)
    (lastOp : PendingOp) (s : Plain.Server) :
  Js.prop args "response" = Js.Str response →
  Js.truthy (Js.prop args "operationId") = false →
  classify Plain.confirmWords Plain.cancelWords (Js.trim (Js.toLowerCase response))
    ≠ Unrecognized →
  Plain.pendingOperations s !! last_operation = Some lastOp →
  Js.truthy (Js.prop next "operationId") = false →
  let after := (Plain.handleConfirmation args s).2 in
  Plain.pendingOperations after !! last_operation = None
  ∧ ∃ message,
      Plain.handleConfirmation next after
      = (Js.Throw (Js.McpError Js.InvalidRequest message), after).
Proof.
  intros Hr Hid Hcl Hlast Hnext after.
  pose proof (plain_recognized_nonempty _ Hcl) as Hresp.
  assert (Plain.pendingOperations after !! last_operation = None) as Hgone.
  { unfold after. rewrite (plain_free_text args response lastOp s) by done. cbv zeta.
    destruct (classify Plain.confirmWords _ _); [| |done];
      rewrite plain_executeConfirmation_pending;
      (destruct (id_val lastOp) as [| | | |k| |]; simpl; try apply lookup_delete_eq;
       destruct (decide (k = last_operation)) as [->|Hk];
       [apply lookup_delete_eq | rewrite lookup_delete_ne by done; apply lookup_delete_eq]). }
  split; [done|].
  unfold Plain.handleConfirmation. rewrite Hnext, Hgone.
  destruct (Js.truthy (Js.prop next "response")); simpl; by eexists.
Qed.

Lemma unknown_tool_reads_nothing (name : string) :
  tool_of_name name = None → first_argument_read name = None.
Proof.
  intros Hname. unfold first_argument_read. cbv zeta.
  repeat match goal with
         | |- context [String.eqb name ?literal] =>
             destruct (String.eqb_spec name literal) as [->|_]; [by vm_compute in Hname|]
         end.
  done.
Qed.

(** X14. A tool name that [executeOperation] does not know is not rejected
    when it is called: it is queued like a write.  [MethodNotFound] comes
    only when the operation is confirmed, and then the entry is gone and the
    database is as it was. *)
Theorem unknown_tool_fails_at_confirmation (request : Contextual.Request) (args : Js.Object)
    (i : string) (op : PendingOp) (clock : Clock) (now : N) (s : Contextual.Server) :
  tool_of_name (Contextual.name request) = None →
  Contextual.name request ≠ "get_context" →
  Contextual.name request ≠ "confirm_operation" →
  Js.prop args "operationId" = Js.Str i → i ≠ "" →
  Js.truthy (Js.prop args "confirm") = true →
  Contextual.pendingOperations s !! i = Some op →
  tool_of_name (op_name op) = None →
  Contextual.callTool contextText request clock now s
  = Contextual.requestConfirmation (Contextual.name request) (Contextual.arguments request)
      clock s
  ∧ Contextual.handleConfirmation args now s
    = (Js.Throw (Js.McpError Js.MethodNotFound ("Unknown operation: " +:+ op_name op)),
       Contextual.with_pending s (delete i (Contextual.pendingOperations s))).
Proof.
  intros Hname Hctx Hconf Hid Hne Hyes Hop Hunknown. split.
  - assert (Contextual.requestConfirmation (Contextual.name request)
              (Contextual.arguments request) clock s
            = (Js.Return
                 (Content
                    (confirmation_prompt
                       (confirmationMessage (λ _, stringify (Contextual.arguments request))
                          (Contextual.name request) (Js.fields (Contextual.arguments request)))
                       (operation_id (Contextual.operationCounter s + 1) (now_id clock)))),
               (Contextual.requestConfirmation (Contextual.name request)
                  (Contextual.arguments request) clock s).2)) as Hreq.
    { unfold Contextual.requestConfirmation, generateConfirmationMessage.
      by rewrite (unknown_tool_reads_nothing _ Hname). }
    unfold Contextual.callTool, Contextual.attempt.
    destruct (String.eqb_spec (Contextual.name request) "get_context") as [|_]; [done|].
    destruct (String.eqb_spec (Contextual.name request) "confirm_operation") as [|_]; [done|].
    destruct (Contextual.isReadOperation (Contextual.name request)) eqn:Hread.
    { apply bool_decide_eq_true in Hread. unfold Contextual.readOperations in Hread.
      repeat (apply elem_of_cons in Hread as [Heq|Hread];
              [rewrite Heq in *; done|]).
      by apply elem_of_nil in Hread. }
    by rewrite Hreq.
  - rewrite (contextual_explicit_id args i now s) by done. rewrite Hop, Hyes.
    unfold Contextual.executeConfirmation, Contextual.executeOperation. simpl.
    by rewrite Hunknown.
Qed.

(** X15. A confirmation by id that succeeds is logged twice in the session
    ['default']: first the operation with its own arguments, then, on top,
    the [confirm_operation] call; the answer wraps the text of the operation
    and the database is the one that the operation left.  The operation was
    queued with arguments. *)
Theorem confirmed_operation_is_logged (args : Js.Object) (meta : Js.Val) (i t : string)
    (op : PendingOp) (tool : Tool) (db : DB) (clock : Clock) (now : N) (s : Contextual.Server) :
  Js.prop args "operationId" = Js.Str i → i ≠ "" →
  Js.truthy (Js.prop args "confirm") = true →
  Contextual.pendingOperations s !! i = Some op →
  Js.nullish (op_args op) = false →
  tool_of_name (op_name op) = Some tool →
  crud tool (op_args op) (Contextual.database s) = (Js.Return t, db) →
  let answer :=
    Content ("✅ Operation confirmed and executed:" +:+ Js.nl +:+ Js.nl +:+ t) in
  let after :=
    Contextual.callTool contextText
      {| Contextual.name := "confirm_operation"; Contextual.arguments := Js.Obj args;
         Contextual.meta := meta |} clock now s in
  after.1 = Js.Return answer
  ∧ Contextual.database after.2 = db
  ∧ Contextual.pendingOperations after.2 = delete i (Contextual.pendingOperations s)
  ∧ Contextual.log_of (Contextual.memory after.2) "default"
    = Contextual.record (Contextual.maxEntries (Contextual.memory s))
        (Contextual.interaction_of "confirm_operation" args (Contextual.Ok answer) now)
        (Contextual.record (Contextual.maxEntries (Contextual.memory s))
           (Contextual.interaction_of (op_name op) (Js.fields (op_args op))
              (Contextual.Ok (Content t)) now)
           (Contextual.log_of (Contextual.memory s) "default")).
Proof.
  intros Hid Hne Hyes Hop Hargs Htool Hcrud answer after. unfold after.
  rewrite contextual_call_confirm by done. simpl Js.fields.
  rewrite (contextual_explicit_id args i now s) by done. rewrite Hop, Hyes.
  unfold Contextual.executeConfirmation, Contextual.executeOperation.
  cbn [negb Contextual.database Contextual.with_pending]. rewrite Htool, Hcrud.
  rewrite addInteraction_unchecked_total by (by right). cbn [text fst snd].
  split; [done|]. split; [done|]. split; [done|].
  cbn [Contextual.memory Contextual.with_memory]. by rewrite !addInteraction_log.
Qed.

End ConfirmationsMore.

Lemma id_without_flag_cancels_witness :
  (Plain.callTool "confirm_operation" (Js.Obj [ ("operationId", Js.Str "op_1_1000") ])
     (tick 2000) plain_queued).1
  = Js.Return (Content "❌ Operation cancelled: create_list").
Proof.
  destruct (id_without_flag_cancels (store := journal) plainContextText
              [ ("operationId", Js.Str "op_1_1000") ] Js.Undefined
              "op_1_1000" groceries_entry (tick 2000) 2000 plain_queued contextual_queued)
    as [HP _].
  - reflexivity.
  - discriminate.
  - reflexivity.
  - vm_compute. reflexivity.
  - vm_compute. reflexivity.
  - rewrite HP. reflexivity.
Defined.

Lemma repeated_id_confirmation_rejected_witness :
  (Plain.callTool "confirm_operation"
     (Js.Obj [ ("operationId", Js.Str "op_1_1000"); ("confirm", Js.Bool true) ]) (tick 3000)
     (Plain.callTool "confirm_operation"
        (Js.Obj [ ("operationId", Js.Str "op_1_1000"); ("confirm", Js.Bool true) ]) (tick 2000)
        plain_queued).2).1
  = Js.Throw (Js.McpError Js.InvalidRequest (Plain.not_found_message (Js.Str "op_1_1000"))).
Proof.
  destruct (repeated_id_confirmation_rejected (store := journal) plainContextText
              [ ("operationId", Js.Str "op_1_1000"); ("confirm", Js.Bool true) ]
              Js.Undefined Js.Undefined "op_1_1000" (tick 2000) (tick 3000) 2000 3000
              plain_queued contextual_queued) as [HP _].
  - reflexivity.
  - discriminate.
  - cbv zeta in HP. rewrite HP. reflexivity.
Defined.

Lemma free_text_consumes_alias_witness :
  Plain.pendingOperations
    (Plain.handleConfirmation [ ("response", Js.Str "yes") ] plain_queued).2 !! last_operation
  = None.
Proof.
  destruct (free_text_consumes_alias (store := journal) [ ("response", Js.Str "yes") ]
              [ ("response", Js.Str "yes") ] "yes" groceries_alias plain_queued) as [Hgone _].
  - reflexivity.
  - reflexivity.
  - vm_compute. discriminate.
  - vm_compute. reflexivity.
  - reflexivity.
  - exact Hgone.
Defined.

(** A call of the tool [archive_list], which the servers do not have, at time
    1000 on a new server. *)
Lemma unknown_tool_fails_at_confirmation_witness :
  (Contextual.handleConfirmation
     [ ("operationId", Js.Str "op_1_1000"); ("confirm", Js.Bool true) ] 2000
     (Contextual.callTool plainContextText (call "archive_list" []) (tick 1000) 1000
        (Contextual.initial ∅ empty_journal)).2).1
  = Js.Throw (Js.McpError Js.MethodNotFound "Unknown operation: archive_list").
Proof.
  destruct (unknown_tool_fails_at_confirmation (store := journal) plainContextText
              (call "archive_list" [])
              [ ("operationId", Js.Str "op_1_1000"); ("confirm", Js.Bool true) ]
              "op_1_1000"
              {| op_id := None; op_name := "archive_list"; op_args := Js.Obj [];
                 op_timestamp := 1000 |}
              (tick 1000) 2000
              (Contextual.callTool plainContextText (call "archive_list" []) (tick 1000) 1000
                 (Contextual.initial ∅ empty_journal)).2) as [_ Hconfirm].
  - reflexivity.
  - discriminate.
  - discriminate.
  - reflexivity.
  - discriminate.
  - reflexivity.
  - vm_compute. reflexivity.
  - reflexivity.
  - rewrite Hconfirm. reflexivity.
Defined.

Lemma confirmed_operation_is_logged_witness :
  Contextual.database
    (Contextual.callTool plainContextText
       {| Contextual.name := "confirm_operation";
          Contextual.arguments :=
            Js.Obj [ ("operationId", Js.Str "op_1_1000"); ("confirm", Js.Bool true) ];
          Contextual.meta := Js.Undefined |} (tick 2000) 2000 contextual_queued).2
  = [ (create_list, groceries) ].
Proof.
  destruct (confirmed_operation_is_logged (store := journal) plainContextText
              [ ("operationId", Js.Str "op_1_1000"); ("confirm", Js.Bool true) ]
              Js.Undefined "op_1_1000" "done" groceries_entry create_list
              [ (create_list, groceries) ] (tick 2000) 2000 contextual_queued)
    as (_ & Hdb & _).
  - reflexivity.
  - discriminate.
  - reflexivity.
  - vm_compute. reflexivity.
  - reflexivity.
  - reflexivity.
  - vm_compute. reflexivity.
  - exact Hdb.
Defined.

(** ** Invariants of a running server *)

Section Running.
Context {store : Collaborators}.
Context (contextText : Contextual.ContextSummary -> list string -> string).

Lemma alias_is_latest_empty (counter : N) : alias_is_latest ∅ counter.
Proof. intros alias Halias. by rewrite lookup_empty in Halias. Qed.

Lemma alias_is_latest_map_delete (pending : gmap string PendingOp) (counter : N)
    (key : Js.Val) :
  alias_is_latest pending counter → alias_is_latest (map_delete pending key) counter.
Proof.
  intros Hinv alias Halias. destruct key as [| | | |k| |]; simpl in *; try by apply Hinv.
  apply lookup_delete_Some in Halias as [_ Halias].
  destruct (Hinv alias Halias) as (t & Hid & Hentry).
  exists t. split; [done|]. intros entry Hlook.
  apply lookup_delete_Some in Hlook as [_ Hlook]. by apply Hentry.
Qed.

Lemma alias_is_latest_filter (pending : gmap string PendingOp) (counter : N)
    (P : string * PendingOp → Prop) `{!∀ x, Decision (P x)} :
  alias_is_latest pending counter → alias_is_latest (filter P pending) counter.
Proof.
  intros Hinv alias Halias. apply map_lookup_filter_Some_1_1 in Halias.
  destruct (Hinv alias Halias) as (t & Hid & Hentry).
  exists t. split; [done|]. intros entry Hlook.
  apply map_lookup_filter_Some_1_1 in Hlook. by apply Hentry.
Qed.

Lemma alias_is_latest_request (pending : gmap string PendingOp) (counter t t1 t2 : N)
    (operationName : string) (args : Js.Val) :
  alias_is_latest
    (<[last_operation := {| op_id := Some (operation_id (counter + 1) t);
                            op_name := operationName; op_args := args;
                            op_timestamp := t2 |}]>
       (<[operation_id (counter + 1) t := {| op_id := None; op_name := operationName;
                                             op_args := args; op_timestamp := t1 |}]> pending))
    (counter + 1).
Proof.
  intros alias Halias. rewrite lookup_insert_eq in Halias. injection Halias as <-.
  exists t. split; [done|]. intros entry Hlook.
  rewrite lookup_insert_ne in Hlook by (apply not_eq_sym, operation_id_not_alias).
  rewrite lookup_insert_eq in Hlook. by injection Hlook as <-.
Qed.

Lemma contextual_callTool_alias (request : Contextual.Request) (clock : Clock) (now : N)
    (s : Contextual.Server) :
  alias_is_latest (Contextual.pendingOperations s) (Contextual.operationCounter s) →
  alias_is_latest
    (Contextual.pendingOperations (Contextual.callTool contextText request clock now s).2)
    (Contextual.operationCounter (Contextual.callTool contextText request clock now s).2).
Proof.
  intros Hinv.
  destruct (contextual_callTool_workflow contextText request clock now s)
    as [[[key ->] ->]|(-> & -> & _)].
  - by apply alias_is_latest_map_delete.
  - rewrite contextual_requestConfirmation_state. simpl. apply alias_is_latest_request.
Qed.


(** X16. On a running server with memory, whenever the alias is in the map
    it names the id that was made from the current value of the counter,
    that is, the most recent write; and while the entry of that write is
    pending, it holds the same operation name and arguments as the alias. *)
Theorem alias_names_latest_write (s : Contextual.Server) (alias : PendingOp) :
  Contextual.reachable contextText s →
  Contextual.pendingOperations s !! last_operation = Some alias →
  ∃ t, op_id alias = Some (operation_id (Contextual.operationCounter s) t)
       ∧ ∀ entry,
           Contextual.pendingOperations s !! operation_id (Contextual.operationCounter s) t
           = Some entry →
           op_name entry = op_name alias ∧ op_args entry = op_args alias.
Proof.
  intros Hreach. revert alias.
  change (alias_is_latest (Contextual.pendingOperations s) (Contextual.operationCounter s)).
  induction Hreach as [loaded db | request clock now s _ IH | maxAge now s _ IH].
  - apply alias_is_latest_empty.
  - by apply contextual_callTool_alias.
  - exact IH.
Qed.

Lemma record_head (maxEntries : nat) (interaction : Contextual.Interaction)
    (log : list Contextual.Interaction) :
  (0 < maxEntries)%nat →
  ∃ rest, Contextual.record maxEntries interaction log = interaction :: rest.
Proof.
  intros Hpos. unfold Contextual.record. destruct (_ <? _)%nat; [|by eexists].
  destruct maxEntries as [|n]; [lia|]. by eexists.
Qed.

Lemma remember_maxEntries (sessionId operation : string) (params : Js.Val)
    (result : Contextual.Recorded) (now : N) (s : Contextual.Server) :
  Contextual.maxEntries
    (Contextual.memory (Contextual.remember sessionId operation params result now s).2)
  = Contextual.maxEntries (Contextual.memory s).
Proof.
  unfold Contextual.remember.
  pose proof (addInteraction_unchecked_maxEntries sessionId operation params result now
                (Contextual.memory s)) as H.
  by destruct (Contextual.addInteraction_unchecked _ _ _ _ _ _) as [r m].
Qed.

Lemma contextual_handleConfirmation_maxEntries (args : Js.Object) (now : N)
    (s : Contextual.Server) :
  Contextual.maxEntries (Contextual.memory (Contextual.handleConfirmation args now s).2)
  = Contextual.maxEntries (Contextual.memory s).
Proof.
  assert (∀ key pendingOp shouldConfirm,
            Contextual.maxEntries
              (Contextual.memory
                 (Contextual.executeConfirmation key pendingOp shouldConfirm now s).2)
            = Contextual.maxEntries (Contextual.memory s)) as Hexec.
  { intros key pendingOp shouldConfirm. unfold Contextual.executeConfirmation.
    destruct pendingOp as [op|]; [|done]. destruct shouldConfirm; simpl; [|done].
    pose proof (contextual_executeOperation_memory (op_name op) (op_args op)
                  (Contextual.with_pending s
                     (map_delete (Contextual.pendingOperations s) key))) as Hm.
    destruct (Contextual.executeOperation _ _ _) as [[result|e] s2]; simpl in *;
      [|by rewrite Hm].
    pose proof (addInteraction_unchecked_maxEntries "default" (op_name op) (op_args op)
                  (Contextual.Ok result) now (Contextual.memory s2)) as Ha.
    destruct (Contextual.addInteraction_unchecked _ _ _ _ _ _) as [[?|?] m];
      simpl in *; by rewrite Ha, Hm. }
  unfold Contextual.handleConfirmation.
  destruct (Js.truthy (Js.prop args "response") && negb (Js.truthy (Js.prop args "operationId"))).
  - destruct (Contextual.pendingOperations s !! last_operation) as [lastOp|]; [|done].
    destruct (Js.prop args "response"); try done.
    destruct (classify _ _ _); [apply Hexec | apply Hexec | done].
  - destruct (Js.truthy (Js.prop args "operationId")).
    + destruct (map_get _ _); [apply Hexec | done].
    + destruct (Js.prop args "confirm"); try done.
      destruct (Contextual.pendingOperations s !! last_operation); [apply Hexec | done].
Qed.

Lemma enhance_maxEntries (sessionId operation : string) (params : Js.Val)
    (result : ToolResult) (now : N) (m : Contextual.Memory) :
  Contextual.maxEntries
    (Contextual.enhanceResultWithContext sessionId operation params result now m).2
  = Contextual.maxEntries m.
Proof.
  unfold Contextual.enhanceResultWithContext, Contextual.getContextualSuggestions,
    Contextual.getSession.
  by destruct (_ ++ _)%list.
Qed.

Lemma suggestions_maxEntries (sessionId : string) (currentOperation currentParams : Js.Val)
    (now : N) (m : Contextual.Memory) :
  Contextual.maxEntries
    (Contextual.getContextualSuggestions sessionId currentOperation currentParams now m).2
  = Contextual.maxEntries m.
Proof. done. Qed.

Lemma handleGetContext_maxEntries (sessionId : string) (args : Js.Val) (now : N)
    (s : Contextual.Server) :
  Contextual.maxEntries
    (Contextual.memory (Contextual.handleGetContext contextText sessionId args now s).2)
  = Contextual.maxEntries (Contextual.memory s).
Proof.
  unfold Contextual.handleGetContext.
  pose proof (getConversationContext_memory sessionId 5 now (Contextual.memory s)) as Hm.
  destruct (Contextual.getConversationContext _ _ _ _) as [[context|e] m1]; simpl in Hm;
    subst m1; [|done].
  destruct (Js.nullish args); [done|].
  destruct (_ && _); [|done].
  pose proof (suggestions_maxEntries sessionId (Js.prop (Js.fields args) "operation")
                (Js.prop (Js.fields args) "params") now
                (Contextual.getSession sessionId now (Contextual.memory s)).2) as Hs.
  by destruct (Contextual.getContextualSuggestions _ _ _ _ _) as [suggestions m2].
Qed.

(** The [try] block keeps the size of the logs of the memory. *)
Lemma attempt_maxEntries (request : Contextual.Request) (clock : Clock) (now : N)
    (s : Contextual.Server) :
  Contextual.maxEntries (Contextual.memory (Contextual.attempt contextText request clock now s).2)
  = Contextual.maxEntries (Contextual.memory s).
Proof.
  unfold Contextual.attempt.
  destruct (String.eqb (Contextual.name request) "get_context");
    [apply handleGetContext_maxEntries|].
  destruct (String.eqb (Contextual.name request) "confirm_operation").
  { destruct (Js.nullish (Contextual.arguments request)); [done|].
    pose proof (contextual_handleConfirmation_maxEntries
                  (Js.fields (Contextual.arguments request)) now s) as Hc.
    destruct (Contextual.handleConfirmation _ _ _) as [[result|e] s1]; simpl in Hc; [|done].
    pose proof (remember_maxEntries (Contextual.getSessionId request) "confirm_operation"
                  (Contextual.arguments request) (Contextual.Ok result) now s1) as Hr.
    destruct (Contextual.remember _ _ _ _ _ _) as [[?|e] s2]; simpl in *; congruence. }
  destruct (Contextual.isReadOperation (Contextual.name request)).
  { pose proof (contextual_executeOperation_memory (Contextual.name request)
                  (Contextual.arguments request) s) as Hm.
    destruct (Contextual.executeOperation _ _ _) as [[result|e] s1]; simpl in Hm;
      [|simpl; by rewrite Hm].
    pose proof (remember_maxEntries (Contextual.getSessionId request) (Contextual.name request)
                  (Contextual.arguments request) (Contextual.Ok result) now s1) as Hr.
    destruct (Contextual.remember _ _ _ _ _ _) as [[?|e] s2]; simpl in Hr.
    - pose proof (enhance_maxEntries (Contextual.getSessionId request) (Contextual.name request)
                    (Contextual.arguments request) result now (Contextual.memory s2)) as He.
      destruct (Contextual.enhanceResultWithContext _ _ _ _ _ _) as [enhanced m'].
      simpl in *. congruence.
    - simpl. congruence. }
  by rewrite contextual_requestConfirmation_state.
Qed.

(** X17. The handler logs every call that fails: when a call throws, the
    newest interaction of the session ['default'] is that call, with its
    tool name, the copy of its arguments and the message of the error that
    the [try] block threw (for an [McpError], the message with its code in
    front).  What the handler throws is an [McpError], that error itself or
    an [InternalError] that wraps its message; except that for a call
    without arguments of an operation whose recording reads them, the
    [catch] block throws the [TypeError] of that read. *)
Theorem failed_calls_are_logged (request : Contextual.Request) (clock : Clock) (now : N)
    (s : Contextual.Server) (thrown : Js.Exn) :
  (0 < Contextual.maxEntries (Contextual.memory s))%nat →
  (Contextual.callTool contextText request clock now s).1 = Js.Throw thrown →
  let name := Contextual.name request in
  let args := Contextual.arguments request in
  ∃ e rest,
    (Contextual.attempt contextText request clock now s).1 = Js.Throw e
    ∧ Contextual.log_of (Contextual.memory (Contextual.callTool contextText request clock now s).2)
        "default"
      = Contextual.interaction_of name (Js.fields args) (Contextual.Failed (Js.message e)) now
        :: rest
    ∧ (Contextual.first_param_read name = None ∨ Js.nullish args = false →
       thrown = Contextual.rethrow name e ∧ ∃ code message, thrown = Js.McpError code message)
    ∧ (∀ key, Contextual.first_param_read name = Some key → Js.nullish args = true →
       thrown = Js.cannot_read args key).
Proof.
  intros Hpos Hthrown name args.
  pose proof (attempt_maxEntries request clock now s) as Hmax.
  unfold Contextual.callTool in *.
  destruct (Contextual.attempt contextText request clock now s) as [[result|e] s1];
    [done|].
  cbn [fst snd] in Hmax.
  pose proof (addInteraction_unchecked_log "default" name args
                (Contextual.Failed (Js.message e)) now (Contextual.memory s1)) as Hlog.
  destruct (record_head (Contextual.maxEntries (Contextual.memory s))
              (Contextual.interaction_of name (Js.fields args)
                 (Contextual.Failed (Js.message e)) now)
              (Contextual.log_of (Contextual.memory s1) "default") Hpos) as [rest Hrest].
  rewrite Hmax, Hrest in Hlog.
  exists e, rest. split; [done|].
  unfold Contextual.recover, Contextual.remember, Contextual.getSessionId in *.
  fold name args in Hthrown |- *.
  split; [|split].
  - by destruct (Contextual.addInteraction_unchecked _ _ _ _ _ _) as [[?|?] m].
  - intros Hok. rewrite addInteraction_unchecked_total in Hthrown by done.
    cbn [fst] in Hthrown. injection Hthrown as <-. split; [done|].
    destruct e; simpl; by do 2 eexists.
  - intros key Hkey Hnull.
    pose proof (addInteraction_unchecked_throws "default" name key args
                  (Contextual.Failed (Js.message e)) now (Contextual.memory s1) Hkey Hnull)
      as Hthrow.
    destruct (Contextual.addInteraction_unchecked _ _ _ _ _ _) as [r m].
    cbn [fst] in Hthrow. subst r. cbn [fst] in Hthrown. by injection Hthrown as <-.
Qed.

End Running.

Lemma alias_names_latest_write_witness :
  ∃ t, op_id groceries_alias
       = Some (operation_id (Contextual.operationCounter contextual_queued) t).
Proof.
  destruct (alias_names_latest_write (store := journal) plainContextText contextual_queued
              groceries_alias) as (t & Hid & _).
  - apply Contextual.reach_call, Contextual.reach_initial.
  - vm_compute. reflexivity.
  - by exists t.
Defined.

Lemma failed_calls_are_logged_witness :
  ∃ e rest,
    Contextual.log_of
      (Contextual.memory
         (Contextual.callTool plainContextText (call "confirm_operation" []) (tick 2000) 2000
            contextual_queued).2) "default"
    = Contextual.interaction_of "confirm_operation" [] (Contextual.Failed (Js.message e)) 2000
      :: rest.
Proof.
  destruct (failed_calls_are_logged (store := journal) plainContextText
              (call "confirm_operation" []) (tick 2000) 2000 contextual_queued
              (Js.McpError Js.InvalidRequest Contextual.no_signal_message))
    as (e & rest & _ & Hlog & _).
  - vm_compute. lia.
  - vm_compute. reflexivity.
  - exists e, rest. exact Hlog.
Defined.

(** ** The claim on the deletion of the alias *)

Section AliasDeletion.
Context {store : Collaborators}.
Context (contextText : Contextual.ContextSummary -> list string -> string).


End AliasDeletion.


(** ** More on the classification *)

Section Classification.

Lemma prefix_trans (v w t : string) :
  String.prefix v w = true → String.prefix w t = true → String.prefix v t = true.
Proof.
  revert w t. induction v as [|a v IH]; intros w t Hvw Hwt; [by destruct t|].
  destruct w as [|b w]; [done|]. destruct t as [|c t]; [done|]. simpl in *.
  destruct (ascii_dec a b) as [->|]; [|done].
  destruct (ascii_dec b c) as [->|]; [|done].
  destruct (ascii_dec c c); [|done]. by apply (IH w).
Qed.

Lemma includes_unfold (hay needle : string) :
  Js.includes hay needle
  = String.prefix needle hay
    || match hay with EmptyString => false | String _ r => Js.includes r needle end.
Proof. by destruct hay. Qed.

Lemma prefix_includes (w t v : string) :
  String.prefix w t = true → Js.includes w v = true → Js.includes t v = true.
Proof.
  revert t. induction w as [|a w IH]; intros t Hwt Hv.
  - apply includes_empty in Hv as ->. rewrite includes_unfold. by destruct t.
  - destruct t as [|b t]; [done|].
    rewrite includes_unfold in Hv. rewrite includes_unfold.
    apply orb_true_iff in Hv as [Hv|Hv].
    + by rewrite (prefix_trans v (String a w) (String b t)).
    + simpl in Hwt. destruct (ascii_dec a b); [|done].
      rewrite (IH t Hwt Hv). apply orb_true_r.
Qed.

(** A text that contains a word contains what the word contains. *)
Lemma includes_mono (t w v : string) :
  Js.includes w v = true → Js.includes t w = true → Js.includes t v = true.
Proof.
  intros Hv. induction t as [|a t IH]; intros Hw.
  - apply includes_empty in Hw as ->. exact Hv.
  - rewrite includes_unfold in Hw. apply orb_true_iff in Hw as [Hw|Hw].
    + by apply (prefix_includes w).
    + rewrite includes_unfold. rewrite (IH Hw). apply orb_true_r.
Qed.

Lemma includes_absent (t w v : string) :
  Js.includes w v = true → Js.includes t v = false → Js.includes t w = false.
Proof.
  intros Hv Hnot. destruct (Js.includes t w) eqn:Hw; [|done].
  by rewrite (includes_mono t w v Hv Hw) in Hnot.
Qed.

(** X18. The two servers read a reply alike except for "do it": their
    negative lists accept the same texts, the affirmative list of [index.js]
    accepts what the other accepts and the texts that contain "do it", and
    when the two classifications of a text differ, the text contains "do it"
    and [index.js] takes it as affirmative. *)
Theorem servers_disagree_only_on_do_it (text : string) :
  Js.some_includes Plain.cancelWords text = Js.some_includes Contextual.cancelWords text
  ∧ Js.some_includes Plain.confirmWords text
    = Js.some_includes Contextual.confirmWords text || Js.includes text "do it"
  ∧ (classify Plain.confirmWords Plain.cancelWords text
     ≠ classify Contextual.confirmWords Contextual.cancelWords text →
     Js.includes text "do it" = true
     ∧ classify Plain.confirmWords Plain.cancelWords text = Affirm).
Proof.
  assert (Js.some_includes Plain.cancelWords text
          = Js.some_includes Contextual.cancelWords text) as Hcancel.
  { unfold Js.some_includes, Plain.cancelWords, Contextual.cancelWords. simpl.
    destruct (Js.includes text "n") eqn:Hn.
    - by rewrite !orb_true_r.
    - rewrite (includes_absent text "no" "n"), (includes_absent text "cancel" "n"),
        (includes_absent text "nope" "n"), (includes_absent text "negative" "n"),
        (includes_absent text "decline" "n") by done.
      by destruct (Js.includes text "abort"), (Js.includes text "stop"). }
  assert (Js.some_includes Plain.confirmWords text
          = Js.some_includes Contextual.confirmWords text || Js.includes text "do it")
    as Hconfirm.
  { unfold Js.some_includes, Plain.confirmWords, Contextual.confirmWords. simpl.
    destruct (Js.includes text "ok") eqn:Hok.
    - by rewrite !orb_true_r.
    - rewrite (includes_absent text "okay" "ok") by done.
      by destruct (Js.includes text "yes"), (Js.includes text "y"),
        (Js.includes text "confirm"), (Js.includes text "proceed"),
        (Js.includes text "continue"), (Js.includes text "go"),
        (Js.includes text "do it"). }
  split; [done|]. split; [done|].
  unfold classify. rewrite Hconfirm, Hcancel.
  destruct (Js.some_includes Contextual.confirmWords text); simpl; [done|].
  destruct (Js.includes text "do it"); [done|]. intros Hdiff. by destruct Hdiff.
Qed.

Lemma trimStart_includes (s w : string) :
  starts_nonwhite w = true → Js.includes (Js.trimStart s) w = Js.includes s w.
Proof.
  intros Hw. induction s as [|a s IH]; [done|].
  simpl Js.trimStart. destruct (Js.is_white a) eqn:Ha; [|done].
  rewrite IH. rewrite (includes_unfold (String a s)).
  destruct w as [|c w]; [done|]. simpl.
  destruct (ascii_dec c a) as [->|]; [|done].
  simpl in Hw. by rewrite Ha in Hw.
Qed.

Lemma trimEnd_prefix (s w : string) :
  ends_nonwhite w = true → String.prefix w (Js.trimEnd s) = String.prefix w s.
Proof.
  revert w. induction s as [|a s IH]; intros w Hw; [done|].
  destruct w as [|c w]; [done|].
  assert (String.prefix w (Js.trimEnd s) = String.prefix w s) as Htail.
  { destruct w as [|d w]; [by destruct (Js.trimEnd s), s|]. by apply IH. }
  simpl Js.trimEnd. destruct (Js.trimEnd s) as [|b t] eqn:Ht.
  - destruct (Js.is_white a) eqn:Ha; simpl.
    + destruct (ascii_dec c a) as [->|]; [|done]. rewrite <- Htail.
      destruct w as [|d w]; [|done]. simpl in Hw. by rewrite Ha in Hw.
    + destruct (ascii_dec c a); [|done]. by rewrite <- Htail.
  - simpl. destruct (ascii_dec c a); [|done]. by rewrite <- Htail.
Qed.

Lemma trimEnd_includes (s w : string) :
  ends_nonwhite w = true → Js.includes (Js.trimEnd s) w = Js.includes s w.
Proof.
  intros Hw. induction s as [|a s IH]; [done|].
  rewrite (includes_unfold (String a s) w), <- IH, <- (trimEnd_prefix (String a s) w Hw).
  rewrite (includes_unfold (Js.trimEnd (String a s)) w). f_equal.
  simpl Js.trimEnd. destruct (Js.trimEnd s) as [|b t]; [|done].
  destruct w as [|c w]; [done|].
  by destruct (Js.is_white a).
Qed.

Lemma trim_some_includes (words : list string) (text : string) :
  forallb (λ w, starts_nonwhite w && ends_nonwhite w) words = true →
  Js.some_includes words (Js.trim text) = Js.some_includes words text.
Proof.
  intros Hwords. unfold Js.some_includes, Js.trim.
  induction words as [|w words IH]; [done|].
  simpl in *. apply andb_prop in Hwords as [Hw Hwords]. apply andb_prop in Hw as [Hs He].
  by rewrite IH, trimEnd_includes, trimStart_includes.
Qed.

(** X19. White space around a reply never changes how either server reads
    it: the classification of the trimmed text is that of the text. *)
Theorem trimming_does_not_change_the_reading (text : string) :
  classify Plain.confirmWords Plain.cancelWords (Js.trim text)
  = classify Plain.confirmWords Plain.cancelWords text
  ∧ classify Contextual.confirmWords Contextual.cancelWords (Js.trim text)
    = classify Contextual.confirmWords Contextual.cancelWords text.
Proof.
  unfold classify. by rewrite !trim_some_includes.
Qed.

End Classification.

(** ** More on [index.js] *)

Section IndexJs.
Context {store : Collaborators}.











Lemma expired_max (a b : N) (op : PendingOp) :
  Plain.expired (N.max a b) op = Plain.expired a op || Plain.expired b op.
Proof.
  unfold Plain.expired, Plain.expireTime.
  repeat case_bool_decide; simpl; try done; lia.
Qed.

(** X21. Two sweeps in a row, in either order of their clock readings, leave
    what one sweep at the later reading leaves; in particular a sweep
    repeated at the same time changes nothing more. *)
Theorem sweeps_compose (a b : N) (s : Plain.Server) :
  Plain.cleanupExpiredOperations a (Plain.cleanupExpiredOperations b s)
  = Plain.cleanupExpiredOperations (N.max a b) s.
Proof.
  unfold Plain.cleanupExpiredOperations. simpl. f_equal.
  apply map_eq. intros k. rewrite !map_lookup_filter.
  destruct (Plain.pendingOperations s !! k) as [op|]; simpl; [|done].
  rewrite expired_max.
  destruct (Plain.expired a op) eqn:Ha, (Plain.expired b op) eqn:Hb; simpl;
    repeat (case_guard; simpl in *; try done); congruence.
Qed.

End IndexJs.


(** ** The confirmation message *)

Section Messages.

Lemma includes_append_right (a b needle : string) :
  Js.includes a needle = true → Js.includes (a +:+ b) needle = true.
Proof.
  intros Hinc. induction a as [|c a IH].
  - apply includes_empty in Hinc as ->. rewrite includes_unfold. by destruct b.
  - rewrite includes_unfold in Hinc. rewrite append_cons, includes_unfold.
    apply orb_true_iff in Hinc as [Hpre|Hrest].
    + assert (String.prefix needle (String c (a +:+ b)) = true) as ->; [|done].
      apply (prefix_trans needle (String c a)); [done|].
      rewrite <- append_cons. apply prefix_append.
    + rewrite (IH Hrest). apply orb_true_r.
Qed.

Lemma confirmationMessage_delete_event (stringify : Js.Object -> string) (args : Js.Object) :
  confirmationMessage stringify "delete_event" args
  = "DELETE event with ID: " +:+ Js.toString (Js.prop args "eventId")
    +:+ Js.nl +:+ "⚠️  This action cannot be undone!".
Proof. reflexivity. Qed.

Lemma confirmationMessage_delete_list (stringify : Js.Object -> string) (args : Js.Object) :
  confirmationMessage stringify "delete_list" args
  = "DELETE list with ID: " +:+ Js.toString (Js.prop args "listId")
    +:+ (if Js.truthy (Js.prop args "deleteItems")
         then Js.nl +:+ "⚠️  This will also DELETE all items in the list!" else "")
    +:+ Js.nl +:+ "⚠️  This action cannot be undone!".
Proof. reflexivity. Qed.

Lemma confirmationMessage_delete_item (stringify : Js.Object -> string) (args : Js.Object) :
  confirmationMessage stringify "delete_item" args
  = "DELETE item with ID: " +:+ Js.toString (Js.prop args "itemId")
    +:+ Js.nl +:+ "⚠️  This action cannot be undone!".
Proof. reflexivity. Qed.

(** X22. The message for a deletion names the id that the arguments give
    and warns that the action cannot be undone; the message for a
    [delete_list] that also deletes the items says so; and the message of a
    known write tool never depends on the JSON rendering of the arguments,
    which only an unknown operation name gets. *)
Theorem deletion_messages_warn (stringify other : Js.Object -> string) (operationName : string)
    (args : Js.Object) :
  operationName ∈ write_tools →
  confirmationMessage stringify operationName args
  = confirmationMessage other operationName args
  ∧ (∀ key, (operationName, key) ∈ [ ("delete_event", "eventId"); ("delete_list", "listId");
                                      ("delete_item", "itemId") ] →
       Js.includes (confirmationMessage stringify operationName args)
         "This action cannot be undone!" = true
       ∧ Js.includes (confirmationMessage stringify operationName args)
           (Js.toString (Js.prop args key)) = true)
  ∧ (operationName = "delete_list" → Js.truthy (Js.prop args "deleteItems") = true →
     Js.includes (confirmationMessage stringify operationName args)
       "This will also DELETE all items in the list!" = true).
Proof.
  intros Hwrite. split; [|split].
  - unfold write_tools in Hwrite.
    repeat (apply elem_of_cons in Hwrite as [->|Hwrite]; [reflexivity|]).
    by apply elem_of_nil in Hwrite.
  - intros key Hkey. clear Hwrite.
    rewrite !elem_of_cons, elem_of_nil in Hkey.
    destruct Hkey as [[= -> ->]|[[= -> ->]|[[= -> ->]|[]]]].
    + rewrite confirmationMessage_delete_event.
      split; [by do 2 apply includes_skip | apply includes_skip, includes_here].
    + rewrite confirmationMessage_delete_list.
      split; [by do 3 apply includes_skip | apply includes_skip, includes_here].
    + rewrite confirmationMessage_delete_item.
      split; [by do 2 apply includes_skip | apply includes_skip, includes_here].
  - intros -> Hitems. rewrite confirmationMessage_delete_list, Hitems.
    do 2 apply includes_skip. by apply includes_append_right.
Qed.

End Messages.

Lemma deletion_messages_warn_witness :
  Js.includes
    (confirmationMessage (λ _, "{}") "delete_list"
       [ ("listId", Js.Str "L1"); ("deleteItems", Js.Bool true) ])
    "This will also DELETE all items in the list!" = true.
Proof.
  destruct (deletion_messages_warn (λ _, "{}") (λ _, "") "delete_list"
              [ ("listId", Js.Str "L1"); ("deleteItems", Js.Bool true) ]) as (_ & _ & Hitems).
  - apply (bool_decide_unpack _). vm_compute. exact I.
  - apply Hitems; reflexivity.
Defined.

Lemma servers_disagree_only_on_do_it_witness :
  classify Plain.confirmWords Plain.cancelWords "just do it" = Affirm.
Proof.
  destruct (servers_disagree_only_on_do_it "just do it") as (_ & _ & Hdiffer).
  apply Hdiffer. vm_compute. discriminate.
Defined.

(** ** The claims on the classification of a reply *)

Section FreeTextReplies.
Context {store : Collaborators}.
Context (contextText : Contextual.ContextSummary -> list string -> string).


End FreeTextReplies.


Section TieBreak.




End TieBreak.


